(* ===== verification/_CoqProject ===== *)
-Q . S2P
Prelude.v
Decimal.v
Roundtrip.v
JSNumber.v
Exact.v
Rounding.v
Binary64.v
MathModel.v
Mapper.v
Sampler.v
Ticks.v
Color.v
Style.v
Reactive.v
Widget.v
Curves.v
View.v
Markup.v
Cascade.v
Build.v
