(* ===== verification/Prelude.v ===== *)
(** * Sekante: a verification development for the secant-to-tangent applet

    The repository is one Svelte component (App.svelte, stored as
    [src/unnamed/part_000]), its entry point main.js
    ([src/unnamed/part_001]) and a build configuration
    ([src/src/chapter04/sekante/vite.config.js]).  The component plots
    [f(x) = x^2 - 2x + 3] on the window [0,4] x [0,9], the secant through
    [(x0, f x0)] and [(x0 + deltaX, f (x0 + deltaX))] and the tangent at
    [x0 = 2]; a range input and five preset buttons set [deltaX], and every
    reactive declaration ([$:]) of the script is recomputed from it.

    ** Numbers

    JavaScript numbers are IEEE-754 binary64 values.  The script is therefore
    translated ONCE, in sections over the class [JSNumber.JSNumber] of the
    operations the script uses ([+ - * /], [Math.abs], [Math.min],
    [Math.round], [<], [<=], numeric literals, [toFixed], string conversion
    and unary plus on a string), and instantiated twice:

    - [Exact.QNum]: the rationals [Q] with their exact arithmetic.  This
      is the reference semantics: what the formulas of the script mean.
      The general theorems (for every [deltaX], every [x]) are proved here,
      with [lra], [nra] and [field]; equality of numbers is [Qeq] and the
      string-valued operations are [Proper] for it.  Nothing rounds on
      [Q], a division by zero gives [0] and so does [nan]: a theorem
      stated on [Q] says what the formulas mean and is not a statement
      about doubles.  [Ticks.ticks_terminates], for one, does not hold of
      doubles ([Ticks.ticks_stalls_witness]); the theorems on doubles
      below say how far the doubles are from that meaning on the states
      the applet reaches.
    - [Binary64.FNum]: the kernel's primitive binary64 floats, bit for bit
      what a JavaScript engine computes.  The conversion of a rational to
      a double, which gives literals and unary plus their value, is proved
      correctly rounded for every rational ([Rounding]).  The theorems
      about the script are obtained by evaluation ([vm_compute]) on the
      inputs the user interface can produce (the 200 slider positions and
      the five presets) and relate what the doubles compute and display
      to the exact values.

    Each component file has up to three parts: the definitions and the
    lemmas that hold for every instance, in a [Section] over the class;
    "Exact semantics", the theorems on [Q]; "Binary64 semantics", the
    theorems on doubles.

    ** Files, in dependency order

    - [Prelude] (this file): tactics, the hint database [sekante], boolean
      comparisons on [Q], list and rational lemmas shared by the components.
    - [Decimal]: decimal digit strings; the algorithm of
      [Number.prototype.toFixed] on an exact value, [Math.round] on an exact
      value, the reader of decimal strings (unary plus) and the printer of
      exact values; error bound of rounding to a number of decimals.  These
      are built-ins the script calls; they are modelled from ECMA-262.
    - [Roundtrip]: reading back what [toFixed] printed gives the value
      rounded to the number of decimals printed.
    - [JSNumber]: the class of number operations, the notation scope
      [js_scope], and [toFixed] and unary plus derived from the class.
    - [Exact]: the instance on [Q], its [Proper] instances and the tactic
      [js_exact] that exposes the rational operations to [lra].
    - [Rounding]: the double nearest to a rational, on integers and as a
      [spec_float] of the standard library: every result is a valid
      double, a finite result is within half the spacing of the doubles of
      the rational, a rational of magnitude at most [2^l] is moved by at
      most [2^(l-53)], and the value of a double converts to that double.
    - [Binary64]: the instance on primitive floats: [Q2F], the conversion
      of [Rounding] as a primitive float (literals, unary plus), [F2Q],
      the exact value of a double, [Math.min], [Math.round] and
      [Number::toString] (shortest digits that read back); unary plus on
      a decimal literal is correctly rounded; the printer is checked
      against the examples of the standard; [close] and [allWithin]
      compare doubles with rationals.
    - [MathModel]: [f] and [df] (part_000 lines 25-30); the difference
      quotient identity and convexity.
    - [Mapper]: the constants [VW], [VH], [PAD], [xMin] ... [plotH] and
      [toSvgX], [toSvgY] (lines 40-62): affine, monotone, flipped, exact at
      the four corners, in range on the window.
    - [Sampler]: [makeLine] and the sample abscissas [xs] (lines 64-72):
      length, order, endpoints, spacing; the curve leaves the view box; in
      doubles the samples increase, end on [xMax] itself, and the points
      of the curve are within [1e-12] of the exact ones.
    - [Ticks]: the loop [ticks] with fuel, [xTicks], [yTicks]
      (lines 106-114): on [Q], termination for a positive step and
      divergence otherwise, contents; on every instance, a step that the
      addition absorbs never returns ([ticks_stalls]), which in doubles
      happens for a positive step; in doubles, what the tolerance [1e-9]
      and the trip through [toFixed(6)] are for.
    - [Color]: [interpolateColor] and the colour constants (lines 116-134).
    - [Style]: the style block (lines 361-587) as a list of rules with
      structured selectors and values that keep their [var(--token)]
      references; selector matching, specificity, the cascade and the
      resolution of tokens, modelled from the CSS specifications; every
      token referred to is declared.
    - [Reactive]: the state [(deltaX, x0)], every reactive declaration and
      the record [Derived] that [recompute] fills in source order
      (lines 32-38, 74-104, 125-126, 136-139); the secant slope and its
      error; in doubles, a step of zero gives [NaN] and a step far below
      the slider's resolution is lost to cancellation.
    - [Widget]: the events of the user interface (slider input, preset
      click), the step function, the reachable states as an inductive
      relation, the invariant [DX_MIN <= deltaX <= DX_MAX] and what it buys
      (the difference quotient never divides by zero; the colour clamp is
      never reached).  The strings the slider can deliver are computed
      from the attributes [min], [max] and [step], that is from [DX_MIN],
      [DX_MAX] and [DX_STEP] ([rangeValues], [sliderValues]); that they
      are the 200 decimals [0.01] ... [2] is the class [SliderGrid], with
      an instance for each number instance.  main.js mounts the
      component: [mount] is the initial state.  The user's actions
      ([Action]) raise the same events on both instances;
      [binary64_refines_exact] shows that the component computing in
      doubles displays, after any sequence of actions, the very strings of
      the component computing exactly.
    - [Curves]: the points of the three polylines; in doubles each point
      of the curve, the secant and the tangent is within [1e-10] of the
      exact point after any sequence of actions ([binary64_polylines]).
    - [View]: the template (lines 162-347) as a function from the state to a
      tree of elements whose attributes keep the numbers the script
      computed; the preset buttons' [active] class, on both instances; the
      geometry of the shaded interval; the handlers of the tree; in
      doubles every number of the tree is finite and within [1e-12] of its
      exact value ([binary64_tree_close]).
    - [Markup]: the tree written out as markup tokens (tags, attribute
      names, values, handlers, texts); after the same actions the page in
      doubles and the page in exact arithmetic are the same tokens
      ([binary64_same_page]): they differ only in coordinates.
    - [Cascade]: the style sheet applied to the tree: the element
      descriptors of the tree in document order, the style each element
      gets from the rules, its presentation attributes and its inline
      style; how the curves, the legend, the markers, the read-outs and
      the buttons are painted; the sheet and the template fit (every
      class is styled, every selector but the dynamic ones selects
      something); the tree is well formed.
    - [Build]: main.js as a function from the host page to the component
      instance with the target it was given, and vite.config.js as a
      record with the URL and the path of a built file.

    ** Fuel and bounds

    [Ticks.ticks] is a [for] loop whose counter is a number; it is a
    [Fixpoint] on fuel that returns [None] when fuel runs out.
    [Ticks.ticks_terminates] proves that on [Q] any fuel above
    [Ticks.tick_count] returns the list, whenever [step > 0];
    [Ticks.ticks_stalls] that no fuel is enough when [min + step] is
    [min] again; [xTicks] and [yTicks] run with
    [Ticks.ticks_fuel = 32], more than their 9 and 10 iterations.
    [toFixed] follows the fixed-point algorithm for [|x| < 10^21] and
    [Number::toString] above; every value of the applet is below 100.
    In [Binary64] the printer tries 1 to 17 significant digits (17 always
    read back) and adjusts its estimate of the decimal exponent at most 6
    times (the estimate is within 2).  The theorems on doubles about the
    script are checks over the 200 slider positions and the 5 presets,
    which are all the values [deltaX] takes in a reachable state
    ([Widget.reachable_perform], [Widget.after_actions]); the tolerances
    ([1e-12] for the numbers of the tree, [1e-10] for the points of the
    polylines, [1e-13] for the slope, [1e-15] for the samples) are what
    the checks establish, orders of magnitude
    below a device pixel and below the four decimals displayed.  The
    theorems of [Rounding] hold for every rational: [floorLog2] finds the
    exponent by one division after shifting the numerator above the
    denominator, so no fuel is involved.

    ** Not modelled

    The browser's layout, the scaling of the SVG view box, CSS inheritance
    and the class by which Svelte scopes the rules to the component are
    outside the repository: [Cascade] gives each element the declarations
    the rules, the attributes and the inline style specify for it, not a
    computed style.  Svelte's scheduler is not modelled: the development
    models the values Svelte hands to the DOM, and treats an event as one
    atomic step, which is what the single-threaded event loop guarantees.
    A range input never holds the empty string, for which Svelte's binding
    would store [null]; [Widget.handle] follows unary plus there, and the
    transition relation never delivers it.  That the browser keeps the
    slider on [min + k * step] and reports the value as the shortest
    decimal is the browser's and is assumed in [Widget.rangeValues];
    which declarations Svelte runs again after an assignment
    ([Reactive.refresh_deltaX]) is Svelte's and is modelled from its
    documented behaviour, with [Reactive.refresh_deltaX_recompute] as the
    check that nothing was left out.  What Svelte's constructor does with
    a missing target is not modelled.  Vite and Rollup are programs
    outside the repository: [Build] records the configuration and the two
    paths it determines.  In [Binary64], the arithmetic is the kernel's;
    [Math.min], [Math.round] and [Number::toString] are validated by
    evaluation on the examples of the standard and on every value the
    applet produces, and that the printer always finds the shortest digits
    is not proved in general. *)

From Stdlib Require Import List String Ascii Bool ZArith QArith Qround Qabs Qminmax Lia Lqa.
Import ListNotations.

(** ** Tactics *)

Ltac inv H := inversion H; subst; clear H.

(** Case analysis on the first [if] or [match] scrutinee of the goal. *)
Ltac case_if :=
  match goal with
  | |- context [if ?b then _ else _] => destruct b eqn:?
  end.

Create HintDb sekante.
Create Rewrite HintDb sekante_rw.

(** ** Boolean comparisons on rationals *)

Definition Qltb (x y : Q) : bool := negb (Qle_bool y x).

Definition Qleb (x y : Q) : bool := Qle_bool x y.

Lemma Qltb_lt (x y : Q) : Qltb x y = true <-> (x < y)%Q.
Proof.
  unfold Qltb. rewrite negb_true_iff, <- not_true_iff_false, Qle_bool_iff.
  split; [apply Qnot_le_lt | apply Qlt_not_le].
Qed.

Lemma Qltb_ge (x y : Q) : Qltb x y = false <-> (y <= x)%Q.
Proof.
  unfold Qltb. rewrite negb_false_iff. apply Qle_bool_iff.
Qed.

Lemma Qleb_le (x y : Q) : Qleb x y = true <-> (x <= y)%Q.
Proof. apply Qle_bool_iff. Qed.

Lemma Qleb_gt (x y : Q) : Qleb x y = false <-> (y < x)%Q.
Proof.
  unfold Qleb. rewrite <- not_true_iff_false, Qle_bool_iff.
  split; [apply Qnot_le_lt | apply Qlt_not_le].
Qed.

#[export] Instance Qltb_Proper : Proper (Qeq ==> Qeq ==> eq) Qltb.
Proof. intros x x' Hx y y' Hy. unfold Qltb. now rewrite Hx, Hy. Qed.

#[export] Instance Qleb_Proper : Proper (Qeq ==> Qeq ==> eq) Qleb.
Proof. intros x x' Hx y y' Hy. unfold Qleb. now rewrite Hx, Hy. Qed.

(** Turns the boolean comparisons of the context and of the goal into the
    propositions [lra] reads. *)
Ltac qbool :=
  repeat match goal with
  | H : Qltb _ _ = true |- _ => apply Qltb_lt in H
  | H : Qltb _ _ = false |- _ => apply Qltb_ge in H
  | H : Qleb _ _ = true |- _ => apply Qleb_le in H
  | H : Qleb _ _ = false |- _ => apply Qleb_gt in H
  | |- Qltb _ _ = true => apply Qltb_lt
  | |- Qltb _ _ = false => apply Qltb_ge
  | |- Qleb _ _ = true => apply Qleb_le
  | |- Qleb _ _ = false => apply Qleb_gt
  end.

(** ** Rationals *)

Lemma Qsquare_nonneg (a : Q) : (0 <= a * a)%Q.
Proof. destruct (Qlt_le_dec a 0); nra. Qed.

Lemma Qabs_nonneg_eq (x : Q) : (0 <= x)%Q -> (Qabs x == x)%Q.
Proof. apply Qabs_pos. Qed.

Lemma Qabs_lt_iff (x y : Q) : (Qabs x < y)%Q <-> (- y < x /\ x < y)%Q.
Proof.
  apply Qabs_case; intros; lra.
Qed.

Lemma Qmin_le_l_eq (x y : Q) : (x <= y)%Q -> (Qmin x y == x)%Q.
Proof. apply Q.min_l. Qed.

Lemma inject_Z_le (a b : Z) : (a <= b)%Z <-> (inject_Z a <= inject_Z b)%Q.
Proof. now rewrite Zle_Qle. Qed.

Lemma inject_Z_lt (a b : Z) : (a < b)%Z <-> (inject_Z a < inject_Z b)%Q.
Proof. now rewrite Zlt_Qlt. Qed.

(** [z] is the floor of [q] exactly when [z <= q < z + 1]. *)
Lemma Qfloor_unique (q : Q) (z : Z) :
  (inject_Z z <= q)%Q -> (q < inject_Z (z + 1))%Q -> Qfloor q = z.
Proof.
  intros Hlo Hhi.
  pose proof (Qfloor_le q) as H1. pose proof (Qlt_floor q) as H2.
  assert (z < Qfloor q + 1)%Z by (apply inject_Z_lt; lra).
  assert (Qfloor q < z + 1)%Z by (apply inject_Z_lt; lra).
  lia.
Qed.

(** ** Lists *)

Section Lists.
Context {A B : Type}.

Lemma nth_map_seq (g : nat -> A) (n i : nat) (d : A) :
  (i < n)%nat -> nth i (map g (seq 0 n)) d = g i.
Proof.
  intros Hi.
  rewrite (nth_indep _ d (g 0%nat)) by now rewrite length_map, length_seq.
  now rewrite (map_nth g (seq 0 n) 0%nat i), seq_nth.
Qed.

Lemma nth_map_in (g : A -> B) (l : list A) (i : nat) (da : A) (db : B) :
  (i < List.length l)%nat -> nth i (map g l) db = g (nth i l da).
Proof.
  intros Hi.
  rewrite (nth_indep _ db (g da)) by now rewrite length_map.
  apply map_nth.
Qed.

Lemma Forall_map_seq (P : A -> Prop) (g : nat -> A) (n : nat) :
  (forall i, (i < n)%nat -> P (g i)) -> Forall P (map g (seq 0 n)).
Proof.
  intros H. apply Forall_forall. intros x Hx.
  apply in_map_iff in Hx as (i & <- & Hi). apply in_seq in Hi. apply H. lia.
Qed.

Lemma Forall_nth_iff (P : A -> Prop) (l : list A) (d : A) :
  Forall P l <-> (forall i, (i < List.length l)%nat -> P (nth i l d)).
Proof.
  split.
  - intros H i Hi. now apply Forall_nth.
  - intros H. apply Forall_forall. intros x Hx.
    apply (In_nth _ _ d) in Hx as (i & Hi & <-). now apply H.
Qed.

End Lists.

#[export] Hint Rewrite @length_map @length_seq @length_app : sekante_rw.

(** A check that holds on every number of a range holds on each of them. *)
Lemma forallb_range (p : nat -> bool) (lo len k : nat) :
  forallb p (seq lo len) = true -> (lo <= k < lo + len)%nat -> p k = true.
Proof. intros Hall Hk. apply (proj1 (forallb_forall p _) Hall), in_seq, Hk. Qed.
