(* ===== verification/Decimal.v ===== *)
(** * Decimal: the number-to-string built-ins on exact values

    The script calls [Number.prototype.toFixed], [Math.round] and unary plus
    on a string.  They are built-ins of the language, not code of the
    repository; this file models them from ECMA-262 on the exact (rational)
    value of a number, so that both instances of [JSNumber] share them:

    - [digits]: the decimal digits of a natural number;
    - [nearestScaled], [fixedDigits], [toFixedQ]: the steps of
      [Number.prototype.toFixed] (ECMA-262 21.1.3.3) for [|x| < 10^21];
    - [roundHalfUp]: [Math.round], ties towards plus infinity;
    - [parseDecimal]: the reader of an optionally signed decimal literal,
      the part of [StringToNumber] that unary plus needs on the output of
      [toFixed];
    - [showQ]: the string of an exact value with a terminating expansion.

    Theorems: the rounding error of [toFixed] and of [Math.round].  That
    the reader inverts the printer is proved in [Roundtrip]. *)

From Stdlib Require Import List String Ascii Bool ZArith QArith Qround Qabs Lia Lqa.
From S2P Require Import Prelude.
Import ListNotations.

#[local] Open Scope string_scope.

(** ** Digits *)

Definition digitChar (d : Z) : ascii := ascii_of_nat (48 + Z.to_nat d).

(** Most significant digit first; [fuel] bounds the number of digits. *)
Fixpoint digitsAux (fuel : nat) (n : Z) (acc : string) : string :=
  match fuel with
  | O => acc
  | S k =>
      let acc' := String (digitChar (n mod 10)) acc in
      if (n <? 10)%Z then acc' else digitsAux k (n / 10) acc'
  end.

(** The decimal representation of [n >= 0]; ["0"] for zero.  A number has
    at most [log2 n + 1] decimal digits. *)
Definition digits (n : Z) : string :=
  digitsAux (S (Z.to_nat (Z.log2 n))) n "".

Fixpoint zeros (k : nat) : string :=
  match k with
  | O => ""
  | S k' => String "0" (zeros k')
  end.

Definition pow10 (f : nat) : Z := (10 ^ Z.of_nat f)%Z.

(** ** Math.round *)

(** [Math.round x]: the integer closest to [x], the larger one on a tie. *)
Definition roundHalfUp (x : Q) : Z := Qfloor (x + (1 # 2)).

(** ** Number.prototype.toFixed *)

(** Step 9.a: "let n be an integer for which n / 10^f - x is as close to
    zero as possible; if there are two such n, pick the larger n". *)
Definition nearestScaled (f : nat) (x : Q) : Z :=
  roundHalfUp (x * inject_Z (pow10 f)).

(** Steps 9.b-9.c: the digits of [n], padded with zeros on the left to
    [f + 1] characters, with a point before the last [f]. *)
Definition fixedDigits (f : nat) (n : Z) : string :=
  let m := digits n in
  if (f =? 0)%nat then m
  else
    let k := String.length m in
    let m' := if (k <=? f)%nat then zeros (f + 1 - k) ++ m else m in
    let k' := String.length m' in
    substring 0 (k' - f) m' ++ "." ++ substring (k' - f) f m'.

(** Steps 5-10 for a finite [x] with [|x| < 10^21]. *)
Definition toFixedQ (f : nat) (x : Q) : string :=
  let s := if Qltb x 0 then "-" else "" in
  let a := if Qltb x 0 then (- x)%Q else x in
  s ++ fixedDigits f (nearestScaled f a).

(** The value [toFixed] denotes: [x] rounded to [f] decimals, half away
    from zero. *)
Definition roundTo (f : nat) (x : Q) : Q :=
  if Qltb x 0
  then (- (inject_Z (nearestScaled f (- x)) / inject_Z (pow10 f)))%Q
  else (inject_Z (nearestScaled f x) / inject_Z (pow10 f))%Q.

(** ** Reading a decimal literal *)

Definition digitVal (c : ascii) : option Z :=
  let n := nat_of_ascii c in
  if ((48 <=? n) && (n <=? 57))%nat then Some (Z.of_nat (n - 48)) else None.

(** Reads the longest prefix of digits: its value after [acc], how many
    digits were read, and the rest of the string. *)
Fixpoint readDigits (s : string) (acc : Z) (cnt : nat) : Z * nat * string :=
  match s with
  | "" => (acc, cnt, s)
  | String c s' =>
      match digitVal c with
      | Some d => readDigits s' (acc * 10 + d)%Z (S cnt)
      | None => (acc, cnt, s)
      end
  end.

Definition readUnsigned (s : string) : option Q :=
  let '(i, ni, rest) := readDigits s 0 0 in
  match rest with
  | "" => if (ni =? 0)%nat then None else Some (inject_Z i)
  | String "." frac =>
      let '(n, nf, rest') := readDigits frac i 0 in
      match rest' with
      | "" =>
          if ((ni + nf) =? 0)%nat then None
          else Some (inject_Z n / inject_Z (pow10 nf))%Q
      | _ => None
      end
  | _ => None
  end.

(** [StrDecimalLiteral] without exponent part and without [Infinity]. *)
Definition parseDecimal (s : string) : option Q :=
  match s with
  | String "-" s' => option_map Qopp (readUnsigned s')
  | String "+" s' => readUnsigned s'
  | _ => readUnsigned s
  end.

(** ** The string of an exact value *)

Definition isIntegerQ (y : Q) : bool := Qeq_bool y (inject_Z (Qfloor y)).

(** The least [k <= fuel] (counted from [k]) for which [x * 10^k] is an
    integer, if any. *)
Fixpoint fracLength (fuel k : nat) (x : Q) : option nat :=
  if isIntegerQ (x * inject_Z (pow10 k))%Q then Some k
  else
    match fuel with
    | O => None
    | S fuel' => fracLength fuel' (S k) x
    end.

(** A value with at most 20 decimals is printed exactly, without trailing
    zeros, as JavaScript prints the numbers of this magnitude that it can
    represent; any other value is rounded to 17 decimals. *)
Definition showQ (x : Q) : string :=
  match fracLength 20 0 x with
  | Some k => toFixedQ k x
  | None => toFixedQ 17 x
  end.

(** ** Properties *)

#[local] Open Scope Q_scope.

Lemma pow10_pos (f : nat) : (0 < pow10 f)%Z.
Proof. unfold pow10. apply Z.pow_pos_nonneg; lia. Qed.

Lemma pow10_Qpos (f : nat) : 0 < inject_Z (pow10 f).
Proof. replace 0 with (inject_Z 0) by reflexivity. rewrite <- Zlt_Qlt. apply pow10_pos. Qed.

#[export] Hint Resolve pow10_pos pow10_Qpos : sekante.

#[export] Instance roundHalfUp_Proper : Proper (Qeq ==> eq) roundHalfUp.
Proof. intros x y H. unfold roundHalfUp. apply Qfloor_comp. now rewrite H. Qed.

#[export] Instance nearestScaled_Proper f : Proper (Qeq ==> eq) (nearestScaled f).
Proof. intros x y H. unfold nearestScaled. now rewrite H. Qed.

#[export] Instance toFixedQ_Proper f : Proper (Qeq ==> eq) (toFixedQ f).
Proof.
  intros x y H. unfold toFixedQ.
  assert (Qltb x 0 = Qltb y 0) as -> by now rewrite H.
  destruct (Qltb y 0); now rewrite H.
Qed.

#[export] Instance roundTo_Proper f : Proper (Qeq ==> Qeq) (roundTo f).
Proof.
  intros x y H. unfold roundTo.
  assert (Qltb x 0 = Qltb y 0) as -> by now rewrite H.
  destruct (Qltb y 0); now rewrite H.
Qed.

#[export] Instance isIntegerQ_Proper : Proper (Qeq ==> eq) isIntegerQ.
Proof.
  intros x y E. unfold isIntegerQ. now rewrite (Qfloor_comp _ _ E), E.
Qed.

Lemma fracLength_Qeq (fuel k : nat) (x y : Q) :
  x == y -> fracLength fuel k x = fracLength fuel k y.
Proof.
  intros E. revert k. induction fuel as [|fuel IH]; intros k; cbn [fracLength];
    rewrite E at 1; [reflexivity | now rewrite IH].
Qed.

#[export] Instance showQ_Proper : Proper (Qeq ==> eq) showQ.
Proof.
  intros x y E. unfold showQ. rewrite (fracLength_Qeq _ _ _ _ E).
  destruct (fracLength 20 0 y); now rewrite E.
Qed.

(** [Math.round] is within one half of its argument, and rounds a tie up. *)
Lemma roundHalfUp_bounds (x : Q) :
  x - (1 # 2) < inject_Z (roundHalfUp x) /\ inject_Z (roundHalfUp x) <= x + (1 # 2).
Proof.
  unfold roundHalfUp.
  pose proof (Qfloor_le (x + (1 # 2))) as H1.
  pose proof (Qlt_floor (x + (1 # 2))) as H2.
  rewrite inject_Z_plus in H2. change (inject_Z 1) with 1 in H2.
  split; lra.
Qed.

Lemma roundHalfUp_Z (z : Z) : roundHalfUp (inject_Z z) = z.
Proof.
  unfold roundHalfUp. apply Qfloor_unique.
  - lra.
  - rewrite inject_Z_plus. change (inject_Z 1) with 1. lra.
Qed.

Lemma roundHalfUp_mono (x y : Q) : x <= y -> (roundHalfUp x <= roundHalfUp y)%Z.
Proof. intros H. unfold roundHalfUp. apply Qfloor_resp_le. lra. Qed.

Lemma nearestScaled_nonneg (f : nat) (x : Q) : 0 <= x -> (0 <= nearestScaled f x)%Z.
Proof.
  intros Hx. unfold nearestScaled.
  apply (Z.le_trans _ (roundHalfUp 0)); [now vm_compute|].
  apply roundHalfUp_mono.
  pose proof (pow10_Qpos f). nra.
Qed.

(** Dividing a deviation of at most one half by a positive scale. *)
Lemma scaled_error (n y p : Q) :
  0 < p -> y * p - (1 # 2) <= n -> n <= y * p + (1 # 2) ->
  Qabs (n / p - y) <= (1 # 2) / p.
Proof.
  intros Hp H1 H2.
  assert (Hip : 0 < / p) by now apply Qinv_lt_0_compat.
  setoid_replace (n / p - y) with ((n - y * p) * / p) by (field; lra).
  unfold Qdiv. set (d := n - y * p). assert (- (1 # 2) <= d <= 1 # 2) by (unfold d; lra).
  apply Qabs_Qle_condition. split; nra.
Qed.

(** The numeric content of [toFixed]: the value printed differs from [x]
    by at most half a unit of the last decimal. *)
Lemma roundTo_error (f : nat) (x : Q) :
  Qabs (roundTo f x - x) <= (1 # 2) / inject_Z (pow10 f).
Proof.
  pose proof (pow10_Qpos f) as Hp.
  assert (Hb : forall y, Qabs (inject_Z (nearestScaled f y) / inject_Z (pow10 f) - y)
                         <= (1 # 2) / inject_Z (pow10 f)).
  { intros y. unfold nearestScaled.
    destruct (roundHalfUp_bounds (y * inject_Z (pow10 f))) as [H1 H2].
    apply scaled_error; lra. }
  unfold roundTo. destruct (Qltb x 0).
  - specialize (Hb (- x)).
    setoid_replace (- (inject_Z (nearestScaled f (- x)) / inject_Z (pow10 f)) - x)
      with (- (inject_Z (nearestScaled f (- x)) / inject_Z (pow10 f) - - x)) by ring.
    now rewrite Qabs_opp.
  - apply Hb.
Qed.

(** A value with at most [f] decimals is not changed. *)
Lemma roundTo_grid (f : nat) (x : Q) (z : Z) :
  x * inject_Z (pow10 f) == inject_Z z -> roundTo f x == x.
Proof.
  intros Hz. pose proof (pow10_Qpos f) as Hp.
  assert (Hn : forall y k, y * inject_Z (pow10 f) == inject_Z k ->
                           inject_Z (nearestScaled f y) / inject_Z (pow10 f) == y).
  { intros y k Hk. unfold nearestScaled. rewrite Hk, roundHalfUp_Z, <- Hk. field. lra. }
  unfold roundTo. destruct (Qltb x 0).
  - rewrite (Hn (- x) (- z)%Z); [ring|]. rewrite inject_Z_opp, <- Hz. ring.
  - now apply (Hn x z).
Qed.

(** Examples: the strings of the specification's test values. *)
Example toFixedQ_examples :
  toFixedQ 4 3 = "3.0000"%string /\
  toFixedQ 4 (201 # 100) = "2.0100"%string /\
  toFixedQ 4 (1 # 100) = "0.0100"%string /\
  toFixedQ 2 (3 # 2) = "1.50"%string /\
  toFixedQ 2 (- (1 # 1000)) = "-0.00"%string /\
  toFixedQ 0 (5 # 2) = "3"%string /\
  toFixedQ 6 (1 # 3) = "0.333333"%string.
Proof. vm_compute. repeat split. Qed.

Example parseDecimal_examples :
  parseDecimal "3.500000" = Some (3500000 # 1000000) /\
  parseDecimal "-0.25" = Some (- (25 # 100)) /\
  parseDecimal "12" = Some 12 /\
  parseDecimal "1.2.3" = None /\
  parseDecimal "" = None /\
  parseDecimal "abc" = None.
Proof. vm_compute. repeat split. Qed.

Example showQ_examples :
  showQ (1 # 2) = "0.5"%string /\ showQ 4 = "4"%string /\
  showQ (7 # 2) = "3.5"%string /\ showQ (- (5 # 4)) = "-1.25"%string.
Proof. vm_compute. repeat split. Qed.
