(* ===== verification/Roundtrip.v ===== *)
(** * Roundtrip: reading back what toFixed prints

    The reader of decimal literals inverts the printer of
    [Number.prototype.toFixed]: for every exact value [x] and every number
    of decimals [f], reading [toFixedQ f x] gives [roundTo f x].  The proof
    follows the two programs: a string of digits is read as the number it
    was printed from ([digits_spec]), padding with zeros does not change
    the value, and the point splits the digits [f] from the end. *)

From Stdlib Require Import List String Ascii Bool ZArith QArith Qround Qabs Lia Lqa.
From S2P Require Import Prelude Decimal.
Import ListNotations.

#[local] Open Scope string_scope.

(** ** Strings of digits *)

Definition isDigit (c : ascii) : bool :=
  match digitVal c with Some _ => true | None => false end.

Fixpoint allDigits (s : string) : bool :=
  match s with
  | "" => true
  | String c s' => isDigit c && allDigits s'
  end.

(** The number a string of digits denotes after the digits already read
    as [acc]. *)
Fixpoint digitsValue (s : string) (acc : Z) : Z :=
  match s with
  | "" => acc
  | String c s' =>
      match digitVal c with
      | Some d => digitsValue s' (acc * 10 + d)
      | None => acc
      end
  end.

(** A string the reader of digits does not enter. *)
Definition stops (s : string) : bool :=
  match s with
  | "" => true
  | String c _ => negb (isDigit c)
  end.

Lemma digitVal_digitChar (d : Z) : (0 <= d < 10)%Z -> digitVal (digitChar d) = Some d.
Proof.
  intros Hd. assert (H : In d [0; 1; 2; 3; 4; 5; 6; 7; 8; 9]%Z) by (cbn; lia).
  cbn in H. decompose [or] H; subst; try reflexivity. contradiction.
Qed.

Lemma length_app (s t : string) :
  String.length (s ++ t) = (String.length s + String.length t)%nat.
Proof. induction s as [|c s IH]; cbn; [reflexivity | now rewrite IH]. Qed.

Lemma app_assoc (s t u : string) : (s ++ t) ++ u = s ++ (t ++ u).
Proof. induction s as [|c s IH]; cbn; [reflexivity | now rewrite IH]. Qed.

Lemma app_empty_r (s : string) : s ++ "" = s.
Proof. induction s as [|c s IH]; cbn; [reflexivity | now rewrite IH]. Qed.

Lemma allDigits_app (s t : string) :
  allDigits (s ++ t) = allDigits s && allDigits t.
Proof. induction s as [|c s IH]; cbn; [reflexivity | now rewrite IH, andb_assoc]. Qed.

Lemma digitsValue_app (s t : string) (acc : Z) :
  allDigits s = true -> digitsValue (s ++ t) acc = digitsValue t (digitsValue s acc).
Proof.
  revert acc. induction s as [|c s IH]; intros acc Hs; [reflexivity|].
  cbn in *. unfold isDigit in Hs. destruct (digitVal c); [|discriminate]. now apply IH.
Qed.

(** Reading runs through a string of digits and goes on behind it. *)
Lemma readDigits_app (s t : string) (acc : Z) (cnt : nat) :
  allDigits s = true ->
  readDigits (s ++ t) acc cnt = readDigits t (digitsValue s acc) (cnt + String.length s).
Proof.
  revert acc cnt. induction s as [|c s IH]; intros acc cnt Hs.
  - cbn. now rewrite Nat.add_0_r.
  - cbn in *. unfold isDigit in Hs. destruct (digitVal c); [|discriminate].
    rewrite IH by exact Hs. f_equal. lia.
Qed.

Lemma readDigits_stops (s : string) (acc : Z) (cnt : nat) :
  stops s = true -> readDigits s acc cnt = (acc, cnt, s).
Proof.
  destruct s as [|c s]; [reflexivity|]. cbn. unfold isDigit.
  now destruct (digitVal c).
Qed.

(** ** The printer of naturals *)

(** What [digitsAux] puts before [acc]: at least one digit, denoting [n]. *)
Lemma digit_spec (d : Z) :
  (0 <= d < 10)%Z ->
  allDigits (String (digitChar d) "") = true /\
  forall a, digitsValue (String (digitChar d) "") a = (a * 10 + d)%Z.
Proof.
  intros Hd. cbn [allDigits digitsValue]. unfold isDigit.
  now rewrite digitVal_digitChar.
Qed.

Lemma digitsAux_spec (fuel : nat) (n : Z) (acc : string) :
  (0 <= n < 10 ^ Z.of_nat (S fuel))%Z ->
  exists ds, digitsAux (S fuel) n acc = ds ++ acc /\ allDigits ds = true /\
             (1 <= String.length ds)%nat /\
             forall a, digitsValue ds a = (a * 10 ^ Z.of_nat (String.length ds) + n)%Z.
Proof.
  revert n acc. induction fuel as [|fuel IH]; intros n acc Hn;
    cbn [digitsAux]; pose proof (Z.mod_pos_bound n 10 ltac:(lia)) as Hm;
    destruct (digit_spec (n mod 10) Hm) as [Hd1 Hv1];
    destruct (Z.ltb_spec n 10) as [Hlt | Hge].
  1, 3: exists (String (digitChar (n mod 10)) "");
    repeat split; [exact Hd1 | cbn; lia | intros a; rewrite Hv1, Z.mod_small by lia; cbn; lia].
  - change (10 ^ Z.of_nat 1)%Z with 10%Z in Hn. lia.
  - destruct (IH (n / 10)%Z (String (digitChar (n mod 10)) acc)) as (ds & E & Hd & Hl & Hv).
    { split; [apply Z.div_pos; lia|].
      apply Z.div_lt_upper_bound; [lia|].
      rewrite (Nat2Z.inj_succ (S fuel)), Z.pow_succ_r in Hn by lia. lia. }
    exists (ds ++ String (digitChar (n mod 10)) ""). cbn [digitsAux] in E.
    rewrite E, app_assoc, allDigits_app, Hd, Hd1, length_app.
    repeat split; [cbn; lia|]. intros a. rewrite digitsValue_app, Hv1, Hv by exact Hd.
    replace (Z.of_nat (String.length ds + String.length (String (digitChar (n mod 10)) "")))
      with (Z.succ (Z.of_nat (String.length ds))) by (cbn; lia).
    rewrite Z.pow_succ_r by lia. pose proof (Z.div_mod n 10 ltac:(lia)). lia.
Qed.

Lemma log2_fuel (n : Z) : (0 <= n -> n < 10 ^ Z.of_nat (S (Z.to_nat (Z.log2 n))))%Z.
Proof.
  intros Hn. destruct (Z.eq_dec n 0) as [-> | Hz]; [now vm_compute|].
  pose proof (Z.log2_nonneg n) as Hl.
  destruct (Z.log2_spec n ltac:(lia)) as [_ Hhi].
  rewrite Nat2Z.inj_succ, Z2Nat.id by lia.
  apply (Z.lt_le_trans _ _ _ Hhi).
  apply Z.pow_le_mono_l. lia.
Qed.

(** [digits n] is a non-empty string of digits that denotes [n]. *)
Lemma digits_spec (n : Z) :
  (0 <= n)%Z ->
  allDigits (digits n) = true /\ (1 <= String.length (digits n))%nat /\
  forall a, digitsValue (digits n) a = (a * 10 ^ Z.of_nat (String.length (digits n)) + n)%Z.
Proof.
  intros Hn. unfold digits.
  destruct (digitsAux_spec (Z.to_nat (Z.log2 n)) n "") as (ds & E & H).
  { split; [exact Hn | now apply log2_fuel]. }
  rewrite E, app_empty_r. exact H.
Qed.

Lemma zeros_spec (k : nat) :
  allDigits (zeros k) = true /\ String.length (zeros k) = k /\
  forall a, digitsValue (zeros k) a = (a * 10 ^ Z.of_nat k)%Z.
Proof.
  induction k as [|k (Hd & Hl & Hv)]; [cbn; repeat split; intros; lia|].
  cbn [zeros allDigits String.length digitsValue]. rewrite Hd, Hl.
  repeat split. intros a. change (digitVal "0") with (Some 0%Z). cbv iota.
  rewrite Hv, Nat2Z.inj_succ, Z.pow_succ_r by lia. lia.
Qed.

(** ** Reading a printed number *)

Lemma substring_all (s : string) : substring 0 (String.length s) s = s.
Proof. induction s as [|c s IH]; cbn; [reflexivity | now rewrite IH]. Qed.

(** Cutting a string at position [a]. *)
Lemma substring_split (s : string) (a : nat) :
  (a <= String.length s)%nat ->
  s = substring 0 a s ++ substring a (String.length s - a) s /\
  String.length (substring 0 a s) = a.
Proof.
  revert a. induction s as [|c s IH]; intros a Ha.
  - cbn in Ha. assert (a = 0)%nat as -> by lia. now cbn.
  - destruct a as [|a].
    + rewrite Nat.sub_0_r, substring_all. now split.
    + cbn in Ha. destruct (IH a ltac:(lia)) as [E L].
      cbn [substring append String.length Nat.sub]. rewrite L. split; [now rewrite <- E | reflexivity].
Qed.

Lemma readUnsigned_digits (s : string) :
  allDigits s = true -> (1 <= String.length s)%nat ->
  readUnsigned s = Some (inject_Z (digitsValue s 0)).
Proof.
  intros Hs Hl. unfold readUnsigned.
  rewrite <- (app_empty_r s) at 1. rewrite readDigits_app by exact Hs. cbn [readDigits].
  destruct (Nat.eqb_spec (0 + String.length s) 0); [lia | reflexivity].
Qed.

Lemma readUnsigned_point (ip fp : string) :
  allDigits ip = true -> allDigits fp = true ->
  readUnsigned (ip ++ "." ++ fp) =
  if (String.length ip + String.length fp =? 0)%nat then None
  else Some (inject_Z (digitsValue (ip ++ fp) 0) / inject_Z (pow10 (String.length fp)))%Q.
Proof.
  intros Hi Hf. unfold readUnsigned.
  rewrite readDigits_app by exact Hi.
  change ("." ++ fp) with (String "." fp).
  rewrite readDigits_stops by reflexivity.
  rewrite <- (app_empty_r fp) at 1. rewrite readDigits_app by exact Hf. cbn [readDigits].
  now rewrite digitsValue_app, !Nat.add_0_l by exact Hi.
Qed.

(** The digits of [n] padded to more than [f] characters. *)
Lemma padded_spec (f : nat) (n : Z) :
  (0 <= n)%Z ->
  let m := digits n in
  let m' := if (String.length m <=? f)%nat then zeros (f + 1 - String.length m) ++ m else m in
  allDigits m' = true /\ (f + 1 <= String.length m')%nat /\ digitsValue m' 0 = n.
Proof.
  intros Hn m m'. destruct (digits_spec n Hn) as (Hd & Hl & Hv). fold m in Hd, Hl, Hv.
  subst m'. destruct (Nat.leb_spec (String.length m) f) as [Hle | Hgt].
  - destruct (zeros_spec (f + 1 - String.length m)) as (Zd & Zl & Zv).
    rewrite allDigits_app, Zd, Hd, length_app, Zl, digitsValue_app, Zv, Hv by exact Zd.
    repeat split; lia.
  - rewrite Hv. split; [exact Hd | split; lia].
Qed.

(** The shape of [fixedDigits f n]: digits, and for [f > 0] a point and
    [f] more digits; together they denote [n]. *)
Lemma fixedDigits_shape (f : nat) (n : Z) :
  (0 <= n)%Z ->
  exists ip fp,
    allDigits ip = true /\ allDigits fp = true /\
    (1 <= String.length ip)%nat /\ String.length fp = f /\
    digitsValue (ip ++ fp) 0 = n /\
    fixedDigits f n = if (f =? 0)%nat then ip else ip ++ "." ++ fp.
Proof.
  intros Hn. unfold fixedDigits. destruct (Nat.eqb_spec f 0) as [-> | Hf].
  - destruct (digits_spec n Hn) as (Hd & Hl & Hv).
    exists (digits n), "". rewrite app_empty_r, Hv. repeat split; (assumption || lia).
  - destruct (padded_spec f n Hn) as (Hd & Hl & Hv).
    set (m' := if (_ <=? f)%nat then _ else _) in *.
    destruct (substring_split m' (String.length m' - f) ltac:(lia)) as [E L].
    replace (String.length m' - (String.length m' - f))%nat with f in E by lia.
    set (ip := substring 0 _ m') in *. set (fp := substring _ f m') in *.
    assert (Ha : allDigits ip = true /\ allDigits fp = true).
    { apply andb_prop. rewrite <- allDigits_app, <- E. exact Hd. }
    assert (Lf : String.length fp = f).
    { apply (f_equal String.length) in E. rewrite length_app, L in E. lia. }
    exists ip, fp. rewrite <- E. repeat split; try apply Ha; (assumption || lia).
Qed.

(** Reading inverts [fixedDigits]: the number printed with [f] decimals is
    read as [n / 10^f]. *)
Lemma readUnsigned_fixedDigits (f : nat) (n : Z) :
  (0 <= n)%Z ->
  exists q, readUnsigned (fixedDigits f n) = Some q /\
            (q == inject_Z n / inject_Z (pow10 f))%Q.
Proof.
  intros Hn. destruct (fixedDigits_shape f n Hn) as (ip & fp & Hi & Hf & Li & Lf & Hv & ->).
  destruct (Nat.eqb_spec f 0) as [-> | Hf0].
  - destruct fp; [|discriminate]. rewrite app_empty_r in Hv.
    rewrite readUnsigned_digits, Hv by assumption.
    eexists. split; [reflexivity|]. change (inject_Z (pow10 0)) with 1%Q. field.
  - rewrite readUnsigned_point, Hv, Lf by assumption.
    destruct (Nat.eqb_spec (String.length ip + f) 0); [lia|].
    eexists. split; reflexivity.
Qed.

(** A printed number starts with a digit. *)
Lemma fixedDigits_head (f : nat) (n : Z) :
  (0 <= n)%Z -> exists c s, fixedDigits f n = String c s /\ isDigit c = true.
Proof.
  intros Hn. destruct (fixedDigits_shape f n Hn) as (ip & fp & Hi & _ & Li & _ & _ & ->).
  destruct ip as [|c ip]; [cbn in Li; lia|]. cbn in Hi. apply andb_prop in Hi as [Hc _].
  exists c. destruct (f =? 0)%nat; eexists; (split; [reflexivity | exact Hc]).
Qed.

(** A sign is not a digit: a string that starts with a digit is read as
    an unsigned literal. *)
Lemma parseDecimal_digit (c : ascii) (s : string) :
  isDigit c = true -> parseDecimal (String c s) = readUnsigned (String c s).
Proof.
  destruct c as [[] [] [] [] [] [] [] []]; intros H; try reflexivity; discriminate H.
Qed.

(** Reading what [toFixed] printed gives the value rounded to [f]
    decimals, half away from zero. *)
Theorem parseDecimal_toFixedQ (f : nat) (x : Q) :
  exists q, parseDecimal (toFixedQ f x) = Some q /\ (q == roundTo f x)%Q.
Proof.
  unfold toFixedQ, roundTo. destruct (Qltb x 0) eqn:Hx; qbool.
  - destruct (readUnsigned_fixedDigits f (nearestScaled f (- x))) as (q & E & Hq).
    { apply nearestScaled_nonneg. lra. }
    exists (- q)%Q. cbn [append parseDecimal]. rewrite E. split; [reflexivity | now rewrite Hq].
  - assert (Hn : (0 <= nearestScaled f x)%Z) by (apply nearestScaled_nonneg; lra).
    destruct (readUnsigned_fixedDigits f _ Hn) as (q & E & Hq).
    destruct (fixedDigits_head f _ Hn) as (c & s & Es & Hc).
    exists q. cbn [append]. rewrite Es, parseDecimal_digit, <- Es by exact Hc. now split.
Qed.

Example parseDecimal_toFixedQ_examples :
  parseDecimal (toFixedQ 6 (1 # 3)) = Some (333333 # 1000000)%Q /\
  parseDecimal (toFixedQ 2 (- (2 # 3))) = Some (- (67 # 100))%Q /\
  parseDecimal (toFixedQ 0 (5 # 2)) = Some 3%Q.
Proof. vm_compute. repeat split. Qed.
