(* ===== verification/JSNumber.v ===== *)
(** * JSNumber: the numbers of the script, as an interface

    Every arithmetic expression of App.svelte is a computation on
    JavaScript numbers.  The class [JSNumber] lists the operations the
    script uses; the components are written against it, in the notation
    scope [js_scope], and are instantiated on the rationals ([Exact]) and on
    binary64 floats ([Binary64]).

    Two built-ins are derived from the class once and for all, following
    ECMA-262: [toFixed] (through the exact value [toQ] of a finite number
    and [Decimal.toFixedQ]) and unary plus on a string, [ofStr] (through
    [Decimal.readUnsigned] and the literal [lit]). *)

From Stdlib Require Import String Ascii ZArith QArith Qabs.
From S2P Require Import Prelude Decimal.

Declare Scope js_scope.
Delimit Scope js_scope with js.

Class JSNumber (num : Type) : Type := {
  (** the number a decimal literal of the source text denotes *)
  lit : Q -> num;
  (** the result of a conversion that fails ([NaN]) *)
  nan : num;
  nneg : num -> num;
  nadd : num -> num -> num;
  nsub : num -> num -> num;
  nmul : num -> num -> num;
  ndiv : num -> num -> num;
  (** [Math.abs], [Math.min], [Math.round] *)
  nabs : num -> num;
  nmin : num -> num -> num;
  nround : num -> num;
  (** [<] and [<=] *)
  nltb : num -> num -> bool;
  nleb : num -> num -> bool;
  (** the mathematical value of a finite number; [None] for [NaN] and the
      infinities *)
  toQ : num -> option Q;
  (** [Number::toString], applied by template literals and by the DOM *)
  toStr : num -> string
}.

Arguments lit {num _} _%_Q.

Notation "x + y" := (nadd x y) : js_scope.
Notation "x - y" := (nsub x y) : js_scope.
Notation "x * y" := (nmul x y) : js_scope.
Notation "x / y" := (ndiv x y) : js_scope.
Notation "x <? y" := (nltb x y) : js_scope.
Notation "x <=? y" := (nleb x y) : js_scope.
Notation "x >? y" := (nltb y x) : js_scope.

Section Derived.
Context {num : Type} `{JSNumber num}.

(** An array index or a loop counter used as a number. *)
Definition ofNat (i : nat) : num := lit (inject_Z (Z.of_nat i)).

(** [x.toFixed(f)], ECMA-262 21.1.3.3, for [0 <= f <= 100]: a number that
    is not finite, or is at least [10^21] in magnitude, is printed by
    [Number::toString]; any other by the fixed-point algorithm. *)
Definition toFixed (x : num) (f : nat) : string :=
  match toQ x with
  | None => toStr x
  | Some q =>
      if Qleb (inject_Z (10 ^ 21)) (Qabs q) then toStr x else toFixedQ f q
  end.

(** [+s] for a string [s]: the empty string is zero, a signed decimal
    literal is the number nearest to it, anything else is [NaN]. *)
Definition ofStr (s : string) : num :=
  let unsigned s' := match readUnsigned s' with Some q => lit q | None => nan end in
  match s with
  | EmptyString => lit 0
  | String "-" s' =>
      match readUnsigned s' with Some q => nneg (lit q) | None => nan end
  | String "+" s' => unsigned s'
  | _ => unsigned s
  end.

End Derived.
