(* ===== verification/Exact.v ===== *)
(** * Exact: the script's numbers as rationals

    The instance [QNum] gives every operation of [JSNumber] its exact
    meaning on [Q].  It is the reference against which the components are
    specified: equality is [Qeq], there is no rounding, no overflow and no
    [NaN] (the field [nan] is [0] and the theorems show where the script
    never produces it).  The tactic [js_exact] rewrites the class
    operations into the operations of [Q] that [lra], [nra] and [field]
    understand. *)

From Stdlib Require Import String ZArith QArith Qround Qabs Qminmax Lia Lqa.
From S2P Require Import Prelude Decimal Roundtrip JSNumber.

#[export] Instance QNum : JSNumber Q := {|
  lit q := q;
  nan := 0;
  nneg := Qopp;
  nadd := Qplus;
  nsub := Qminus;
  nmul := Qmult;
  ndiv := Qdiv;
  nabs := Qabs;
  nmin := Qmin;
  nround x := inject_Z (roundHalfUp x);
  nltb := Qltb;
  nleb := Qleb;
  toQ x := Some x;
  toStr := showQ
|}.

Ltac js_exact :=
  cbn [lit nan nneg nadd nsub nmul ndiv nabs nmin nround nltb nleb toQ toStr QNum] in *.

#[local] Open Scope Q_scope.

Lemma ofNat_exact (i : nat) : ofNat (num := Q) i = inject_Z (Z.of_nat i).
Proof. reflexivity. Qed.

Lemma ofNat_lt (i j : nat) : (i < j)%nat <-> ofNat (num := Q) i < ofNat j.
Proof. rewrite !ofNat_exact, <- Zlt_Qlt. lia. Qed.

Lemma ofNat_le (i j : nat) : (i <= j)%nat <-> ofNat (num := Q) i <= ofNat j.
Proof. rewrite !ofNat_exact, <- Zle_Qle. lia. Qed.

Lemma nat_le_Q (a b : nat) :
  (a <= b)%nat <-> inject_Z (Z.of_nat a) <= inject_Z (Z.of_nat b).
Proof. rewrite <- Zle_Qle. lia. Qed.

Lemma ofNat_S (i : nat) : ofNat (num := Q) (S i) == ofNat i + 1.
Proof.
  rewrite !ofNat_exact, Nat2Z.inj_succ. unfold Z.succ.
  rewrite inject_Z_plus. reflexivity.
Qed.

Lemma ofNat_nonneg (i : nat) : 0 <= ofNat (num := Q) i.
Proof. apply (ofNat_le 0 i). lia. Qed.

(** On the exact instance [toFixed] is the fixed-point algorithm as long as
    the magnitude stays below [10^21]. *)
Lemma toFixed_exact (x : Q) (f : nat) :
  Qabs x < inject_Z (10 ^ 21) -> toFixed x f = toFixedQ f x.
Proof.
  intros Hx. unfold toFixed. js_exact.
  destruct (Qleb (inject_Z (10 ^ 21)) (Qabs x)) eqn:E; [|reflexivity].
  qbool. lra.
Qed.

#[export] Instance toFixed_Proper : Proper (Qeq ==> eq ==> eq) (toFixed (num := Q)).
Proof.
  intros x y Hxy f f' <-. unfold toFixed. js_exact.
  assert (Qleb (inject_Z (10 ^ 21)) (Qabs x) = Qleb (inject_Z (10 ^ 21)) (Qabs y)) as ->
    by now rewrite Hxy.
  destruct (Qleb _ _); now rewrite Hxy.
Qed.

(** Unary plus reads a decimal literal as [parseDecimal] does. *)
Lemma ofStr_parseDecimal (s : string) (q : Q) :
  parseDecimal s = Some q -> ofStr s = q.
Proof.
  destruct s as [|c s]; [discriminate|].
  destruct c as [[] [] [] [] [] [] [] []]; cbn [ofStr parseDecimal option_map]; js_exact;
    destruct (readUnsigned _); intros [= <-]; reflexivity.
Qed.

(** The trip [+x.toFixed(f)] rounds [x] to [f] decimals: the result is the
    multiple of [10^-f] nearest to [x], within half a unit of the last
    decimal. *)
Lemma ofStr_toFixed (x : Q) (f : nat) :
  Qabs x < inject_Z (10 ^ 21) ->
  ofStr (toFixed x f) == roundTo f x /\
  Qabs (ofStr (toFixed x f) - x) <= (1 # 2) / inject_Z (pow10 f).
Proof.
  intros Hx. rewrite toFixed_exact by exact Hx.
  destruct (parseDecimal_toFixedQ f x) as (q & E & Hq).
  rewrite (ofStr_parseDecimal _ _ E), Hq. split; [reflexivity | apply roundTo_error].
Qed.
