(* ===== verification/Rounding.v ===== *)
(** * Rounding: from a rational to the nearest double

    The conversion that gives a numeric literal, or a string read by unary
    plus, its value (ECMA-262 6.1.6.1, "the Number value for x"): the
    double nearest to the rational, the one with the even significand on
    a tie, an infinity beyond the largest double, a zero below half the
    smallest.  It is written on integers and produces a [spec_float], the
    specification-level double of the standard library; [Binary64] turns it
    into a primitive float.

    Theorems: every result is a double ([Q2SF_valid]); a finite result is
    within half the spacing of the doubles of the rational
    ([Q2SF_nearest]) and has an even significand when it is exactly half
    the spacing away ([Q2SF_tie]); a rational of bounded magnitude
    converts to a finite double ([Q2SF_bound]); the value of a double
    converts to that double ([Q2SF_exact]).  The comparisons with powers of two of either sign are
    kept on integers ([leS], [ltS]) so that [lia] and [nia] decide them. *)

From Stdlib Require Import Bool ZArith QArith Qpower Qabs Lia Lqa.
From Stdlib Require Import Floats.
From S2P Require Import Prelude.

#[local] Open Scope Z_scope.

(** ** Definitions *)

(** The integer nearest to [num / den], the even one on a tie;
    [num >= 0], [den > 0]. *)
Definition roundEven (num den : Z) : Z :=
  let q := num / den in
  let r := num mod den in
  match 2 * r ?= den with
  | Lt => q
  | Gt => q + 1
  | Eq => if Z.even q then q else q + 1
  end.

(** [a / (d * 2^e)] as a fraction of integers. *)
Definition scaled (a d e : Z) : Z * Z :=
  if 0 <=? e then (a, d * 2 ^ e) else (a * 2 ^ (- e), d).

(** The integer [l] with [2^l <= a / d < 2^(l+1)], for positive [a] and
    [d]: the binary logarithm of the quotient after [a] has been shifted
    above [d]. *)
Definition floorLog2 (a d : Z) : Z :=
  let k := Z.log2 d + 1 in
  Z.log2 (a * 2 ^ k / d) - k.

(** The exponent of the double nearest to [a / d]: the one with
    [2^52 <= a / (d * 2^e) < 2^53], or [-1074] in the subnormal range. *)
Definition binExp (a d : Z) : Z := Z.max (floorLog2 a d - 52) (-1074).

(** The significand and the exponent of the double nearest to [a / d],
    for positive [a] and [d]: [a / d] is rounded to a multiple of [2^e]. *)
Definition rounded (a d : Z) : Z * Z :=
  let e := binExp a d in
  let '(x, y) := scaled a d e in
  (roundEven x y, e).

(** The double [m * 2^e] with the sign [s]: a significand rounded up to
    [2^53] is [2^52] one exponent higher, an exponent above [971] is an
    infinity, a significand rounded down to nothing is a zero. *)
Definition pack (s : bool) (m e : Z) : spec_float :=
  let '(m', e') := if m =? 2 ^ 53 then (2 ^ 52, e + 1) else (m, e) in
  match m' with
  | Z.pos p => if 971 <? e' then S754_infinity s else S754_finite s p e'
  | _ => S754_zero s
  end.

(** The double nearest to [q]. *)
Definition Q2SF (q : Q) : spec_float :=
  let n := Qnum q in
  if n =? 0 then S754_zero false
  else
    let '(m, e) := rounded (Z.abs n) (Z.pos (Qden q)) in
    pack (n <? 0) m e.

(** The value of [m * 2^e]. *)
Definition scaleQ (m : positive) (e : Z) : Q :=
  if 0 <=? e then inject_Z (Z.pos m * 2 ^ e) else Z.pos m # Z.to_pos (2 ^ (- e)).

(** A magnitude with a sign. *)
Definition signed (s : bool) (v : Q) : Q := if s then Qopp v else v.

(** The exact value of a finite double. *)
Definition SF2Q (x : spec_float) : option Q :=
  match x with
  | S754_zero _ => Some 0%Q
  | S754_finite s m e => Some (signed s (scaleQ m e))
  | _ => None
  end.

(** The spacing of the doubles around a result: [2^e] for a finite result
    with the exponent [e], the least spacing [2^-1074] around a zero. *)
Definition ulpExp (x : spec_float) : Z :=
  match x with
  | S754_finite _ _ e => e
  | _ => -1074
  end.

(** [A * 2^z <= B] and [A * 2^z < B] for an integer [z] of either sign,
    without division. *)
Definition leS (A B z : Z) : Prop := A * 2 ^ Z.max z 0 <= B * 2 ^ Z.max (- z) 0.
Definition ltS (A B z : Z) : Prop := A * 2 ^ Z.max z 0 < B * 2 ^ Z.max (- z) 0.

(** What [pack] returns on a significand and an exponent in the range of
    [rounded], by cases. *)
Variant Packed (s : bool) (m e : Z) : spec_float -> Prop :=
  | PackedZero : m = 0 -> e = -1074 -> Packed s m e (S754_zero s)
  | PackedInf : 0 < m -> 971 <= e -> Packed s m e (S754_infinity s)
  | PackedFinite (p : positive) (e' : Z) :
      e <= e' <= e + 1 -> Z.pos p * 2 ^ (e' - e) = m ->
      bounded prec emax p e' = true ->
      Packed s m e (S754_finite s p e').

(** ** Rounding to the nearest integer, ties to even *)

Lemma roundEven_cases (num den : Z) :
  0 < den ->
  let q := num / den in
  let r := num mod den in
  (2 * r < den /\ roundEven num den = q) \/
  (2 * r > den /\ roundEven num den = q + 1) \/
  (2 * r = den /\ roundEven num den = if Z.even q then q else q + 1).
Proof.
  intros Hd q r. unfold roundEven. fold q r.
  destruct (Z.compare_spec (2 * r) den) as [E | L | G]; [right; right | left | right; left];
    split; (lia || reflexivity).
Qed.

(** [roundEven num den] is within one half of [num / den]. *)
Lemma roundEven_nearest (num den : Z) :
  0 < den -> 2 * Z.abs (num - den * roundEven num den) <= den.
Proof.
  intros Hd. pose proof (Z.div_mod num den ltac:(lia)) as E.
  pose proof (Z.mod_pos_bound num den Hd) as B.
  destruct (roundEven_cases num den Hd) as [[H ->] | [[H ->] | [H ->]]];
    [| |destruct (Z.even (num / den))]; lia.
Qed.

(** On a tie the result is even. *)
Lemma roundEven_tie (num den : Z) :
  0 < den -> 2 * (num mod den) = den -> Z.even (roundEven num den) = true.
Proof.
  intros Hd Ht.
  destruct (roundEven_cases num den Hd) as [[H _] | [[H _] | [_ ->]]]; [lia | lia |].
  destruct (Z.even (num / den)) eqn:E; [exact E|].
  rewrite Z.even_add, E. reflexivity.
Qed.

(** A result exactly one half away is the result of a tie. *)
Lemma roundEven_tie_abs (num den : Z) :
  0 < den -> 2 * Z.abs (num - den * roundEven num den) = den ->
  Z.even (roundEven num den) = true.
Proof.
  intros Hd Ht. apply roundEven_tie; [exact Hd|].
  pose proof (Z.div_mod num den ltac:(lia)) as E.
  pose proof (Z.mod_pos_bound num den Hd) as B.
  destruct (roundEven_cases num den Hd) as [[H R] | [[H R] | [H _]]];
    [rewrite R in Ht; lia | rewrite R in Ht; lia | exact H].
Qed.

(** An integer is not moved. *)
Lemma roundEven_integer (k den : Z) : 0 < den -> roundEven (k * den) den = k.
Proof.
  intros Hd. unfold roundEven. rewrite Z.div_mul, Z.mod_mul by lia.
  destruct (Z.compare_spec (2 * 0) den); lia.
Qed.

(** Rounding preserves the order. *)
Lemma roundEven_mono (a b den : Z) :
  0 < den -> a <= b -> roundEven a den <= roundEven b den.
Proof.
  intros Hd Hab.
  pose proof (Z.div_le_mono a b den Hd Hab) as Hq.
  pose proof (Z.div_mod a den ltac:(lia)) as Ea.
  pose proof (Z.div_mod b den ltac:(lia)) as Eb.
  pose proof (Z.mod_pos_bound a den Hd) as Ba.
  pose proof (Z.mod_pos_bound b den Hd) as Bb.
  destruct (Z.eq_dec (a / den) (b / den)) as [E | N].
  - destruct (roundEven_cases a den Hd) as [[Ha ->] | [[Ha ->] | [Ha ->]]],
             (roundEven_cases b den Hd) as [[Hb ->] | [[Hb ->] | [Hb ->]]];
      rewrite <- ?E; try destruct (Z.even (a / den)); nia.
  - destruct (roundEven_cases a den Hd) as [[Ha ->] | [[Ha ->] | [Ha ->]]],
             (roundEven_cases b den Hd) as [[Hb ->] | [[Hb ->] | [Hb ->]]];
      try destruct (Z.even (a / den)); try destruct (Z.even (b / den)); lia.
Qed.

(** Between two integer bounds the result stays between them. *)
Lemma roundEven_between (lo hi x y : Z) :
  0 < y -> lo * y <= x -> x <= hi * y -> lo <= roundEven x y <= hi.
Proof.
  intros Hy Hlo Hhi. split.
  - rewrite <- (roundEven_integer lo y Hy). now apply roundEven_mono.
  - rewrite <- (roundEven_integer hi y Hy). now apply roundEven_mono.
Qed.

(** ** The scaled fraction *)

Lemma pow2_pos (n : Z) : 0 < 2 ^ n \/ n < 0.
Proof. destruct (Z.le_gt_cases 0 n); [left; apply Z.pow_pos_nonneg; lia | now right]. Qed.

Lemma scaled_pos (a d e : Z) :
  0 < a -> 0 < d -> 0 < fst (scaled a d e) /\ 0 < snd (scaled a d e).
Proof.
  intros Ha Hd. unfold scaled. destruct (Z.leb_spec 0 e); cbn [fst snd];
    split; try assumption; apply Z.mul_pos_pos; try assumption;
    apply Z.pow_pos_nonneg; lia.
Qed.

(** Comparing the scaled fraction with an integer [k] is comparing [a]
    with [k * d * 2^e], the power moved to the side where its exponent is
    not negative. *)
Lemma scaled_le (a d e k : Z) :
  0 < d ->
  (k * snd (scaled a d e) <= fst (scaled a d e)
   <-> k * d * 2 ^ Z.max e 0 <= a * 2 ^ Z.max (- e) 0) /\
  (fst (scaled a d e) < k * snd (scaled a d e)
   <-> a * 2 ^ Z.max (- e) 0 < k * d * 2 ^ Z.max e 0).
Proof.
  intros Hd. unfold scaled. destruct (Z.leb_spec 0 e); cbn [fst snd].
  - rewrite Z.max_l, (Z.max_r (- e)) by lia. change (2 ^ 0) with 1. split; split; lia.
  - rewrite Z.max_r, (Z.max_l (- e)) by lia. change (2 ^ 0) with 1. split; split; lia.
Qed.

(** ** Comparisons up to a power of two *)

Lemma pow2_gt0 (n : Z) : 0 <= n -> 0 < 2 ^ n.
Proof. intros. apply Z.pow_pos_nonneg; lia. Qed.

(** Only the difference of the exponents matters. *)
Lemma cmpS_iff (A B p q : Z) :
  0 <= p -> 0 <= q ->
  (A * 2 ^ p <= B * 2 ^ q <-> leS A B (p - q)) /\
  (A * 2 ^ p < B * 2 ^ q <-> ltS A B (p - q)).
Proof.
  intros Hp Hq. unfold leS, ltS. destruct (Z.le_gt_cases 0 (p - q)) as [Hz | Hz].
  - rewrite Z.max_l, Z.max_r by lia. change (2 ^ 0) with 1. rewrite !Z.mul_1_r.
    replace p with ((p - q) + q) at 1 3 by lia. rewrite Z.pow_add_r by lia.
    pose proof (pow2_gt0 q Hq). pose proof (pow2_gt0 (p - q) Hz).
    rewrite !Z.mul_assoc. split; split; nia.
  - rewrite Z.max_r, Z.max_l by lia. change (2 ^ 0) with 1. rewrite !Z.mul_1_r.
    replace q with (- (p - q) + p) at 1 3 by lia. rewrite Z.pow_add_r by lia.
    pose proof (pow2_gt0 p Hp). pose proof (pow2_gt0 (- (p - q)) ltac:(lia)).
    rewrite !Z.mul_assoc. split; split; nia.
Qed.

Lemma leS_iff (A B p q : Z) :
  0 <= p -> 0 <= q -> (A * 2 ^ p <= B * 2 ^ q <-> leS A B (p - q)).
Proof. intros. now apply cmpS_iff. Qed.

Lemma ltS_iff (A B p q : Z) :
  0 <= p -> 0 <= q -> (A * 2 ^ p < B * 2 ^ q <-> ltS A B (p - q)).
Proof. intros. now apply cmpS_iff. Qed.

(** A power of two moves from the left factor into the exponent. *)
Lemma leS_shift (A B z c : Z) : 0 <= c -> (leS (2 ^ c * A) B z <-> leS A B (z + c)).
Proof.
  intros Hc. replace (z + c) with (Z.max z 0 + c - Z.max (- z) 0) by lia.
  rewrite <- (leS_iff A B (Z.max z 0 + c) (Z.max (- z) 0)) by lia.
  unfold leS. rewrite Z.pow_add_r by lia. split; intros H; lia.
Qed.

(** A power of two moves from the right factor into the exponent. *)
Lemma ltS_shift (A B z c : Z) : 0 <= c -> (ltS A (2 ^ c * B) z <-> ltS A B (z - c)).
Proof.
  intros Hc. replace (z - c) with (Z.max z 0 - (Z.max (- z) 0 + c)) by lia.
  rewrite <- (ltS_iff A B (Z.max z 0) (Z.max (- z) 0 + c)) by lia.
  unfold ltS. rewrite Z.pow_add_r by lia. split; intros H; lia.
Qed.

(** A smaller exponent on the left keeps a strict bound. *)
Lemma ltS_mono (A B z z' : Z) : 0 <= A -> z' <= z -> ltS A B z -> ltS A B z'.
Proof.
  intros HA Hz H. unfold ltS in H.
  replace z' with (Z.max z 0 - (Z.max (- z) 0 + (z - z'))) by lia.
  apply (proj1 (ltS_iff A B (Z.max z 0) (Z.max (- z) 0 + (z - z')) ltac:(lia) ltac:(lia))).
  rewrite Z.pow_add_r by lia.
  pose proof (pow2_gt0 (Z.max z 0) ltac:(lia)).
  pose proof (pow2_gt0 (Z.max (- z) 0) ltac:(lia)).
  pose proof (pow2_gt0 (z - z') ltac:(lia)). nia.
Qed.

(** The scaled fraction against an integer. *)
Lemma scaled_cmp (a d e k : Z) :
  0 < d ->
  (k * snd (scaled a d e) <= fst (scaled a d e) <-> leS (k * d) a e) /\
  (fst (scaled a d e) < k * snd (scaled a d e) <-> ltS a (k * d) (- e)).
Proof.
  intros Hd. unfold leS, ltS. rewrite Z.opp_involutive. now apply scaled_le.
Qed.

(** ** The binary logarithm of a fraction *)

Lemma floorLog2_spec (a d : Z) :
  0 < a -> 0 < d ->
  leS d a (floorLog2 a d) /\ ltS a d (- (floorLog2 a d + 1)).
Proof.
  intros Ha Hd. unfold floorLog2.
  set (k := Z.log2 d + 1). set (t := a * 2 ^ k / d). set (j := Z.log2 t).
  pose proof (Z.log2_nonneg d) as Hld.
  assert (Hk : 0 <= k) by (unfold k; lia).
  destruct (Z.log2_spec d Hd) as [_ Hdk]. fold k in Hdk. replace (Z.succ (Z.log2 d)) with k in Hdk by (unfold k; lia).
  pose proof (pow2_gt0 k Hk) as H2k.
  assert (Ht : 0 < t).
  { unfold t. apply Z.div_str_pos. nia. }
  destruct (Z.log2_spec t Ht) as [Hlo Hhi]. fold j in Hlo, Hhi.
  pose proof (Z.log2_nonneg t) as Hj. fold j in Hj.
  pose proof (Z.div_mod (a * 2 ^ k) d ltac:(lia)) as E. fold t in E.
  pose proof (Z.mod_pos_bound (a * 2 ^ k) d Hd) as B.
  split.
  - apply (proj1 (leS_iff d a j k ltac:(lia) ltac:(lia))). nia.
  - replace (- (j - k + 1)) with (k - (j + 1)) by lia.
    apply (proj1 (ltS_iff a d k (j + 1) ltac:(lia) ltac:(lia))).
    replace (j + 1) with (Z.succ j) by lia. nia.
Qed.

(** ** The exponent and the significand *)

Lemma binExp_min (a d : Z) : -1074 <= binExp a d.
Proof. unfold binExp. lia. Qed.

(** The scaled fraction is below [2^53], and at least [2^52] unless the
    exponent is that of the subnormal numbers. *)
Lemma binExp_range (a d : Z) :
  0 < a -> 0 < d ->
  let e := binExp a d in
  fst (scaled a d e) < 2 ^ 53 * snd (scaled a d e) /\
  (-1074 < e -> 2 ^ 52 * snd (scaled a d e) <= fst (scaled a d e)).
Proof.
  intros Ha Hd e. destruct (floorLog2_spec a d Ha Hd) as [Hlo Hhi].
  assert (He : floorLog2 a d - 52 <= e) by (unfold e, binExp; lia).
  split.
  - apply (proj2 (scaled_cmp a d e (2 ^ 53) Hd)).
    apply (proj2 (ltS_shift a d (- e) 53 ltac:(lia))).
    apply (ltS_mono a d (- (floorLog2 a d + 1))); [lia | lia | exact Hhi].
  - intros Hn. assert (e = floorLog2 a d - 52) as -> by (unfold e, binExp in *; lia).
    apply (proj1 (scaled_cmp a d _ (2 ^ 52) Hd)).
    apply (proj2 (leS_shift d a (floorLog2 a d - 52) 52 ltac:(lia))).
    now replace (floorLog2 a d - 52 + 52) with (floorLog2 a d) by lia.
Qed.

(** The rounded significand: at most [2^53], at least [2^52] for a normal
    exponent. *)
Lemma rounded_range (a d : Z) :
  0 < a -> 0 < d ->
  let '(m, e) := rounded a d in
  0 <= m <= 2 ^ 53 /\ -1074 <= e /\ (-1074 < e -> 2 ^ 52 <= m).
Proof.
  intros Ha Hd. unfold rounded.
  destruct (binExp_range a d Ha Hd) as [Hhi Hlo].
  destruct (scaled_pos a d (binExp a d) Ha Hd) as [Hx Hy].
  destruct (scaled a d (binExp a d)) as [x y]. cbn [fst snd] in *.
  split; [|split].
  - apply roundEven_between; [exact Hy | lia | lia].
  - apply binExp_min.
  - intros Hn. apply (roundEven_between (2 ^ 52) (2 ^ 53)); [exact Hy | now apply Hlo | lia].
Qed.

(** ** The result is a double *)

(** The number of binary digits of a positive integer. *)
Lemma digits2_spec (p : positive) :
  2 ^ (Z.pos (digits2_pos p) - 1) <= Z.pos p < 2 ^ Z.pos (digits2_pos p).
Proof.
  induction p as [p IH | p IH |]; cbn [digits2_pos]; [| | cbn; lia];
    rewrite Pos2Z.inj_succ, Z.pow_succ_r by lia;
    replace (Z.succ (Z.pos (digits2_pos p)) - 1) with (Z.succ (Z.pos (digits2_pos p) - 1)) by lia;
    rewrite Z.pow_succ_r by lia; lia.
Qed.

Lemma digits2_bounds (p : positive) :
  (Z.pos p < 2 ^ 53 -> Z.pos (digits2_pos p) <= 53) /\
  (2 ^ 52 <= Z.pos p -> 53 <= Z.pos (digits2_pos p)).
Proof.
  destruct (digits2_spec p) as [Hlo Hhi]. split; intros H.
  - assert (L : 2 ^ (Z.pos (digits2_pos p) - 1) < 2 ^ 53) by lia.
    apply Z.pow_lt_mono_r_iff in L; lia.
  - assert (L : 2 ^ 52 < 2 ^ Z.pos (digits2_pos p)) by lia.
    apply Z.pow_lt_mono_r_iff in L; lia.
Qed.

(** A significand below [2^53], not below [2^52] unless the exponent is
    the least one, with an exponent up to [971], is a double. *)
Lemma bounded_intro (m : positive) (e : Z) :
  Z.pos m < 2 ^ 53 -> (-1074 < e -> 2 ^ 52 <= Z.pos m) -> -1074 <= e <= 971 ->
  bounded prec emax m e = true.
Proof.
  intros Hm Hn He. destruct (digits2_bounds m) as [Hle Hge].
  unfold bounded, canonical_mantissa, fexp, SpecFloat.emin, prec, emax.
  apply andb_true_iff. split; [apply Z.eqb_eq | apply Z.leb_le]; lia.
Qed.

(** The converse: what a double's significand and exponent satisfy. *)
Lemma bounded_elim (m : positive) (e : Z) :
  bounded prec emax m e = true ->
  Z.pos m < 2 ^ 53 /\ (-1074 < e -> 2 ^ 52 <= Z.pos m) /\ -1074 <= e <= 971.
Proof.
  unfold bounded, canonical_mantissa, fexp, SpecFloat.emin, prec, emax.
  intros H. apply andb_true_iff in H. destruct H as [Hc He].
  apply Z.eqb_eq in Hc. apply Z.leb_le in He.
  destruct (digits2_spec m) as [Hlo Hhi]. repeat split; try lia.
  - apply (Z.lt_le_trans _ _ _ Hhi). apply Z.pow_le_mono_r; lia.
  - intros Hn. refine (Z.le_trans _ _ _ _ Hlo). apply Z.pow_le_mono_r; lia.
Qed.

Lemma pack_spec (s : bool) (m e : Z) :
  0 <= m <= 2 ^ 53 -> -1074 <= e -> (-1074 < e -> 2 ^ 52 <= m) ->
  Packed s m e (pack s m e).
Proof.
  intros Hm He Hn. unfold pack. destruct (Z.eqb_spec m (2 ^ 53)) as [-> | N].
  - change (2 ^ 52) with (Z.pos (4503599627370496)).
    destruct (Z.ltb_spec 971 (e + 1)).
    + apply PackedInf; lia.
    + apply PackedFinite; [lia | | apply bounded_intro; lia].
      replace (e + 1 - e) with 1 by lia. reflexivity.
  - destruct m as [| p | p]; [apply PackedZero; lia | | lia].
    destruct (Z.ltb_spec 971 e).
    + apply PackedInf; lia.
    + apply PackedFinite; [lia | | apply bounded_intro; lia].
      rewrite Z.sub_diag. lia.
Qed.

(** The conversion applied to a non-zero fraction. *)
Lemma Q2SF_nonzero (q : Q) :
  Qnum q <> 0 ->
  let '(m, e) := rounded (Z.abs (Qnum q)) (Z.pos (Qden q)) in
  Q2SF q = pack (Qnum q <? 0) m e /\ Packed (Qnum q <? 0) m e (Q2SF q).
Proof.
  intros Hn. unfold Q2SF. destruct (Z.eqb_spec (Qnum q) 0) as [E | _]; [contradiction|].
  pose proof (rounded_range (Z.abs (Qnum q)) (Z.pos (Qden q)) ltac:(lia) ltac:(lia)) as R.
  destruct (rounded _ _) as [m e]. destruct R as (Hm & He & Hnorm).
  split; [reflexivity | now apply pack_spec].
Qed.

(** Every result is a double. *)
Theorem Q2SF_valid (q : Q) : valid_binary (Q2SF q) = true.
Proof.
  destruct (Z.eq_dec (Qnum q) 0) as [E | N].
  - unfold Q2SF. now rewrite E.
  - pose proof (Q2SF_nonzero q N) as H. destruct (rounded _ _) as [m e].
    destruct H as [_ H]. destruct H; try reflexivity. assumption.
Qed.

(** ** The exponent of a fraction is unique *)

Lemma floorLog2_unique (a d l : Z) :
  0 < a -> 0 < d -> leS d a l -> ltS a d (- (l + 1)) -> floorLog2 a d = l.
Proof.
  intros Ha Hd Hlo Hhi. destruct (floorLog2_spec a d Ha Hd) as [Llo Lhi].
  set (L := floorLog2 a d) in *. set (K := Z.abs L + Z.abs l + 1).
  assert (below : forall u v, leS d a u -> ltS a d (- (v + 1)) ->
                              Z.abs u + Z.abs v < K -> u < v + 1).
  { intros u v Hu Hv HK.
    replace u with (u + K - K) in Hu by lia.
    apply (proj2 (leS_iff d a (u + K) K ltac:(lia) ltac:(lia))) in Hu.
    replace (- (v + 1)) with (K - (v + 1 + K)) in Hv by lia.
    apply (proj2 (ltS_iff a d K (v + 1 + K) ltac:(lia) ltac:(lia))) in Hv.
    assert (P : 2 ^ (u + K) < 2 ^ (v + 1 + K)) by nia.
    apply Z.pow_lt_mono_r_iff in P; lia. }
  pose proof (below L l Llo Hhi ltac:(lia)). pose proof (below l L Hlo Lhi ltac:(lia)). lia.
Qed.

(** ** A double is not moved *)

(** The numerator and the denominator of [scaleQ p e]. *)
Lemma scaleQ_fraction (p : positive) (e : Z) :
  Qnum (scaleQ p e) = Z.pos p * 2 ^ Z.max e 0 /\
  Z.pos (Qden (scaleQ p e)) = 2 ^ Z.max (- e) 0.
Proof.
  unfold scaleQ. destruct (Z.leb_spec 0 e); cbn [Qnum Qden inject_Z].
  - rewrite Z.max_l, Z.max_r by lia. split; reflexivity.
  - rewrite Z.max_r, Z.max_l by lia. rewrite Z2Pos.id by (apply pow2_gt0; lia).
    change (2 ^ 0) with 1. split; [lia | reflexivity].
Qed.

(** The exponent found for [p * 2^e] is the canonical one of [p]. *)
Lemma binExp_exact (p : positive) (e : Z) :
  binExp (Z.pos p * 2 ^ Z.max e 0) (2 ^ Z.max (- e) 0)
  = fexp prec emax (Z.pos (digits2_pos p) + e).
Proof.
  pose proof (pow2_gt0 (Z.max e 0) ltac:(lia)) as HA.
  pose proof (pow2_gt0 (Z.max (- e) 0) ltac:(lia)) as HB.
  destruct (digits2_spec p) as [Hlo Hhi]. set (g := Z.pos (digits2_pos p)) in *.
  assert (Hg : 0 < g) by (unfold g; lia).
  unfold binExp, fexp, SpecFloat.emin, prec, emax.
  rewrite (floorLog2_unique _ _ (g - 1 + e)); [lia | nia | lia | |].
  - replace (g - 1 + e) with (g - 1 + Z.max e 0 - Z.max (- e) 0) by lia.
    apply (proj1 (leS_iff _ _ (g - 1 + Z.max e 0) (Z.max (- e) 0) ltac:(lia) ltac:(lia))).
    rewrite Z.pow_add_r by lia. nia.
  - replace (- (g - 1 + e + 1)) with (Z.max (- e) 0 - (g + Z.max e 0)) by lia.
    apply (proj1 (ltS_iff _ _ (Z.max (- e) 0) (g + Z.max e 0) ltac:(lia) ltac:(lia))).
    rewrite Z.pow_add_r by lia. nia.
Qed.

(** Scaling [p * 2^e] by its own exponent gives [p] back. *)
Lemma scaled_exact (p : positive) (e : Z) :
  let '(x, y) := scaled (Z.pos p * 2 ^ Z.max e 0) (2 ^ Z.max (- e) 0) e in
  0 < y /\ x = Z.pos p * y.
Proof.
  unfold scaled. destruct (Z.leb_spec 0 e).
  - rewrite (Z.max_l e 0), (Z.max_r (- e) 0) by lia. change (2 ^ 0) with 1.
    pose proof (pow2_gt0 e ltac:(lia)). split; lia.
  - rewrite (Z.max_r e 0), (Z.max_l (- e) 0) by lia. change (2 ^ 0) with 1.
    pose proof (pow2_gt0 (- e) ltac:(lia)). split; lia.
Qed.

Lemma rounded_exact (p : positive) (e : Z) :
  canonical_mantissa prec emax p e = true ->
  rounded (Z.pos p * 2 ^ Z.max e 0) (2 ^ Z.max (- e) 0) = (Z.pos p, e).
Proof.
  intros Hc. apply Z.eqb_eq in Hc. unfold rounded. rewrite binExp_exact, Hc.
  pose proof (scaled_exact p e) as H. destruct (scaled _ _ e) as [x y].
  destruct H as [Hy ->]. now rewrite roundEven_integer.
Qed.

(** The value of a finite non-zero double converts to that double. *)
Theorem Q2SF_exact (s : bool) (p : positive) (e : Z) :
  bounded prec emax p e = true ->
  Q2SF (signed s (scaleQ p e)) = S754_finite s p e.
Proof.
  intros Hb. destruct (bounded_elim p e Hb) as (Hp & _ & He).
  apply andb_true_iff in Hb. destruct Hb as [Hc _].
  destruct (scaleQ_fraction p e) as [Hn Hd].
  pose proof (pow2_gt0 (Z.max e 0) ltac:(lia)) as HA.
  assert (Hq : Qnum (signed s (scaleQ p e)) = (if s then -1 else 1) * Qnum (scaleQ p e) /\
               Qden (signed s (scaleQ p e)) = Qden (scaleQ p e)).
  { destruct s; cbn [signed Qopp Qnum Qden]; split; try reflexivity; lia. }
  destruct Hq as [Hqn Hqd]. unfold Q2SF. rewrite Hqn, Hqd, Hd, Hn.
  destruct (Z.eqb_spec ((if s then -1 else 1) * (Z.pos p * 2 ^ Z.max e 0)) 0) as [E | _];
    [destruct s; nia|].
  replace (Z.abs _) with (Z.pos p * 2 ^ Z.max e 0) by (destruct s; nia).
  rewrite (rounded_exact p e Hc).
  replace (_ <? 0) with s by (destruct s; symmetry; [apply Z.ltb_lt | apply Z.ltb_ge]; nia).
  unfold pack. destruct (Z.eqb_spec (Z.pos p) (2 ^ 53)); [lia|].
  destruct (Z.ltb_spec 971 e); [lia | reflexivity].
Qed.

(** ** The result is nearest *)

#[local] Open Scope Q_scope.

Lemma pow2Q_pos (z : Z) : 0 < 2 ^ z.
Proof. now apply Qpower_0_lt. Qed.

Lemma pow2Q_nonneg (z : Z) : 0 <= 2 ^ z.
Proof. apply Qlt_le_weak, pow2Q_pos. Qed.

Lemma pow2Q_succ (z : Z) : 2 ^ (z + 1) == 2 * 2 ^ z.
Proof. rewrite Qpower_plus by discriminate. rewrite Qpower_1_r. ring. Qed.

Lemma scaleQ_eq (p : positive) (e : Z) : scaleQ p e == inject_Z (Z.pos p) * 2 ^ e.
Proof.
  unfold scaleQ. destruct (Z.leb_spec 0 e).
  - rewrite inject_Z_mult, Zpower_Qpower by lia. reflexivity.
  - rewrite Qmake_Qdiv, Z2Pos.id by (apply pow2_gt0; lia).
    rewrite Zpower_Qpower by lia. change (inject_Z 2) with 2.
    rewrite Qpower_opp. field. apply Qpower_not_0. discriminate.
Qed.

(** The scaled fraction is [a / d] over [2^e]. *)
Lemma scaled_value (a d e : Z) :
  (0 < d)%Z ->
  let '(x, y) := scaled a d e in
  inject_Z a / inject_Z d == (inject_Z x / inject_Z y) * 2 ^ e.
Proof.
  intros Hd. unfold scaled.
  assert (Dd : ~ inject_Z d == 0) by (unfold Qeq, inject_Z; cbn [Qnum Qden]; lia).
  assert (D2 : forall z, ~ 2 ^ z == 0) by (intros z; apply Qpower_not_0; discriminate).
  destruct (Z.leb_spec 0 e).
  - rewrite inject_Z_mult, Zpower_Qpower by lia. change (inject_Z 2) with 2.
    field. split; [apply D2 | exact Dd].
  - rewrite inject_Z_mult, Zpower_Qpower by lia. change (inject_Z 2) with 2.
    rewrite Qpower_opp. field. split; first [exact Dd | apply D2].
Qed.

(** [roundEven] moves a fraction by at most one half. *)
Lemma roundEven_half (x y : Z) :
  (0 < y)%Z -> Qabs (inject_Z x / inject_Z y - inject_Z (roundEven x y)) <= 1 # 2.
Proof.
  intros Hy. pose proof (roundEven_nearest x y Hy) as H.
  destruct y as [| yp | yp]; try lia. rewrite <- Qmake_Qdiv.
  unfold Qabs, Qminus, Qplus, Qopp, Qle, inject_Z; cbn [Qnum Qden].
  rewrite Pos.mul_1_r. lia.
Qed.

Lemma roundEven_half_eq (x y : Z) :
  (0 < y)%Z -> Qabs (inject_Z x / inject_Z y - inject_Z (roundEven x y)) == 1 # 2 ->
  (2 * Z.abs (x - y * roundEven x y) = y)%Z.
Proof.
  intros Hy. destruct y as [| yp | yp]; try lia. rewrite <- Qmake_Qdiv.
  unfold Qabs, Qminus, Qplus, Qopp, Qeq, inject_Z; cbn [Qnum Qden].
  rewrite Pos.mul_1_r. lia.
Qed.

(** The distance of the fraction from [m * 2^e] is [2^e] times the
    distance of the scaled fraction from [m]. *)
Lemma scaled_distance (a d e m : Z) :
  (0 < d)%Z ->
  let '(x, y) := scaled a d e in
  Qabs (inject_Z a / inject_Z d - inject_Z m * 2 ^ e)
  == Qabs (inject_Z x / inject_Z y - inject_Z m) * 2 ^ e.
Proof.
  intros Hd. pose proof (scaled_value a d e Hd) as V.
  destruct (scaled a d e) as [x y]. rewrite V.
  setoid_replace (inject_Z x / inject_Z y * 2 ^ e - inject_Z m * 2 ^ e)
    with ((inject_Z x / inject_Z y - inject_Z m) * 2 ^ e) by ring.
  rewrite Qabs_Qmult, (Qabs_pos (2 ^ _)) by apply pow2Q_nonneg.
  reflexivity.
Qed.

(** The rounded significand times [2^e] is within half of [2^e] of the
    fraction. *)
Lemma rounded_nearest (a d : Z) :
  (0 < a)%Z -> (0 < d)%Z ->
  let '(m, e) := rounded a d in
  Qabs (inject_Z a / inject_Z d - inject_Z m * 2 ^ e) <= 2 ^ e / 2.
Proof.
  intros Ha Hd. unfold rounded.
  destruct (scaled_pos a d (binExp a d) Ha Hd) as [_ Hy].
  pose proof (fun m => scaled_distance a d (binExp a d) m Hd) as D.
  destruct (scaled a d (binExp a d)) as [x y]. cbn [snd] in Hy. rewrite D.
  setoid_replace (2 ^ binExp a d / 2) with ((1 # 2) * 2 ^ binExp a d) by field.
  apply Qmult_le_compat_r; [now apply roundEven_half | apply pow2Q_nonneg].
Qed.

(** When the distance is exactly half of [2^e], the significand is even. *)
Lemma rounded_tie (a d : Z) :
  (0 < a)%Z -> (0 < d)%Z ->
  let '(m, e) := rounded a d in
  Qabs (inject_Z a / inject_Z d - inject_Z m * 2 ^ e) == 2 ^ e / 2 ->
  Z.even m = true.
Proof.
  intros Ha Hd. unfold rounded.
  destruct (scaled_pos a d (binExp a d) Ha Hd) as [_ Hy].
  pose proof (fun m => scaled_distance a d (binExp a d) m Hd) as D.
  destruct (scaled a d (binExp a d)) as [x y]. cbn [snd] in Hy. rewrite D.
  setoid_replace (2 ^ binExp a d / 2) with ((1 # 2) * 2 ^ binExp a d) by field.
  intros T. apply Qmult_inj_r in T; [| pose proof (pow2Q_pos (binExp a d)); lra].
  now apply roundEven_tie_abs, roundEven_half_eq.
Qed.

(** A fraction is its absolute value with its sign. *)
Lemma Q_signed (q : Q) :
  q == signed (Qnum q <? 0)%Z (inject_Z (Z.abs (Qnum q)) / inject_Z (Z.pos (Qden q))).
Proof.
  destruct q as [[| n | n] d]; unfold Qeq; cbn; lia.
Qed.

Lemma signed_diff (s : bool) (x y : Q) : Qabs (signed s x - signed s y) == Qabs (x - y).
Proof.
  destruct s; cbn [signed]; [|reflexivity].
  setoid_replace (- x - - y) with (- (x - y)) by ring. apply Qabs_opp.
Qed.

(** The value of a packed result is [m * 2^e] with the sign, and its
    spacing is [2^e], or twice that after a carry. *)
Lemma Packed_value (s : bool) (m e : Z) (x : spec_float) (v : Q) :
  Packed s m e x -> SF2Q x = Some v ->
  v == signed s (inject_Z m * 2 ^ e) /\ (e <= ulpExp x <= e + 1)%Z.
Proof.
  intros [-> -> | Hm He | p e' He' Hv Hb] E; cbn [SF2Q ulpExp] in *; [| discriminate |];
    injection E as <-.
  - split; [destruct s; cbn [signed]; ring | lia].
  - split; [|lia]. destruct s; cbn [signed]; rewrite scaleQ_eq, <- Hv, inject_Z_mult;
      (assert (D : (e' = e \/ e' = e + 1)%Z) by lia; destruct D as [-> | ->];
       [rewrite Z.sub_diag | replace (e + 1 - e)%Z with 1%Z by lia; rewrite pow2Q_succ];
       cbn [Z.pow Z.pow_pos Pos.iter Z.mul Pos.mul]; ring).
Qed.

Lemma rounded_snd (a d : Z) : snd (rounded a d) = binExp a d.
Proof. unfold rounded. now destruct (scaled _ _ _). Qed.

Lemma pow2Q_le (z z' : Z) : (z <= z')%Z -> 2 ^ z <= 2 ^ z'.
Proof. intros Hz. apply Qpower_le_compat_l; [exact Hz | discriminate]. Qed.

Lemma pow2Q_half (z : Z) : 2 ^ z / 2 == 2 ^ (z - 1).
Proof.
  replace z with (z - 1 + 1)%Z at 1 by lia. rewrite pow2Q_succ. field.
Qed.

(** The error of a finite result of a non-zero rational is at most half of
    [2^e] for the exponent [e] chosen by [binExp]; the spacing of the
    doubles at the result is [2^e], or twice that after a carry. *)
Lemma Q2SF_error (q v : Q) :
  Qnum q <> 0%Z -> SF2Q (Q2SF q) = Some v ->
  let e := binExp (Z.abs (Qnum q)) (Z.pos (Qden q)) in
  Qabs (q - v) <= 2 ^ e / 2 /\ (e <= ulpExp (Q2SF q) <= e + 1)%Z.
Proof.
  intros N E. rewrite <- rounded_snd.
  pose proof (Q2SF_nonzero q N) as H.
  pose proof (rounded_nearest (Z.abs (Qnum q)) (Z.pos (Qden q)) ltac:(lia) ltac:(lia)) as R.
  destruct (rounded _ _) as [m e]. destruct H as [_ P]. cbn [snd].
  destruct (Packed_value _ _ _ _ _ P E) as [-> Hu]. split; [|exact Hu].
  rewrite (Q_signed q) at 1. now rewrite signed_diff.
Qed.

(** Zero converts to the positive zero, with no error. *)
Lemma Q2SF_zero (q : Q) :
  Qnum q = 0%Z -> Q2SF q = S754_zero false /\ Qabs (q - 0) == 0.
Proof.
  intros Z0. unfold Q2SF. rewrite Z0. split; [reflexivity|].
  destruct q as [n d]. cbn [Qnum] in Z0. subst n. reflexivity.
Qed.

(** Every finite result is within half the spacing of the doubles of the
    rational it comes from. *)
Theorem Q2SF_nearest (q v : Q) :
  SF2Q (Q2SF q) = Some v -> Qabs (q - v) <= 2 ^ ulpExp (Q2SF q) / 2.
Proof.
  intros E. destruct (Z.eq_dec (Qnum q) 0) as [Z0 | N].
  - destruct (Q2SF_zero q Z0) as [Ez D]. rewrite Ez in *. injection E as <-.
    rewrite D. apply Qlt_le_weak, (pow2Q_pos (-1075)).
  - destruct (Q2SF_error q v N E) as [R Hu]. apply (Qle_trans _ _ _ R).
    rewrite !pow2Q_half. apply pow2Q_le. lia.
Qed.

(** On a tie the significand of the result is even: a rational half way
    between two doubles goes to the one whose last bit is zero. *)
Theorem Q2SF_tie (q : Q) (s : bool) (p : positive) (e : Z) :
  Q2SF q = S754_finite s p e ->
  Qabs (q - signed s (scaleQ p e)) == 2 ^ e / 2 ->
  Z.even (Z.pos p) = true.
Proof.
  intros E T.
  assert (N : Qnum q <> 0%Z).
  { intros Z0. unfold Q2SF in E. rewrite Z0 in E. discriminate. }
  pose proof (Q2SF_nonzero q N) as H.
  pose proof (rounded_nearest (Z.abs (Qnum q)) (Z.pos (Qden q)) ltac:(lia) ltac:(lia)) as R.
  pose proof (rounded_tie (Z.abs (Qnum q)) (Z.pos (Qden q)) ltac:(lia) ltac:(lia)) as Ti.
  destruct (rounded _ _) as [m e0]. destruct H as [_ P]. rewrite E in P.
  assert (V : SF2Q (S754_finite s p e) = Some (signed s (scaleQ p e))) by reflexivity.
  destruct (Packed_value _ _ _ _ _ P V) as [Hv _].
  rewrite Hv in T. inversion P as [| | p' e' He Hm Hb Hs]; subst p' e'.
  rewrite (Q_signed q) in T at 1. rewrite signed_diff in T.
  assert (D : (e = e0 \/ e = e0 + 1)%Z) by lia. destruct D as [-> | ->].
  - rewrite Z.sub_diag, Z.mul_1_r in Hm. rewrite Hm. now apply Ti.
  - rewrite T, pow2Q_succ in R. pose proof (pow2Q_pos e0) as Hp.
    setoid_replace (2 * 2 ^ e0 / 2) with (2 ^ e0) in R by field.
    apply (Qmult_le_compat_r _ _ 2) in R; [|discriminate].
    setoid_replace (2 ^ e0 / 2 * 2) with (2 ^ e0) in R by field. lra.
Qed.

(** ** A bound from the magnitude *)

(** A fraction that is at most [2^l] has a logarithm of at most [l]. *)
Lemma floorLog2_le (a d l : Z) :
  (0 < a)%Z -> (0 < d)%Z -> leS a d (- l) -> (floorLog2 a d <= l)%Z.
Proof.
  intros Ha Hd Hl. destruct (floorLog2_spec a d Ha Hd) as [Hlo _].
  set (L := floorLog2 a d) in *. set (K := (Z.abs L + Z.abs l)%Z).
  replace L with (L + K - K)%Z in Hlo by lia.
  apply (proj2 (leS_iff d a (L + K) K ltac:(lia) ltac:(lia))) in Hlo.
  replace (- l)%Z with (K - (l + K))%Z in Hl by lia.
  apply (proj2 (leS_iff a d K (l + K) ltac:(lia) ltac:(lia))) in Hl.
  assert (P : (2 ^ (L + K) <= 2 ^ (l + K))%Z) by nia.
  apply Z.pow_le_mono_r_iff in P; lia.
Qed.

(** A bound on a fraction in [Q] is a bound on integers. *)
Lemma Qle_leS (a : Z) (d : positive) (l : Z) : a # d <= 2 ^ l -> leS a (Z.pos d) (- l).
Proof.
  intros H. unfold leS. rewrite Z.opp_involutive.
  set (P := Z.max (- l) 0). set (R := Z.max l 0).
  assert (E : 2 ^ l == 2 ^ R / 2 ^ P).
  { replace l with (R - P)%Z at 1 by lia. apply Qpower_minus. discriminate. }
  rewrite E, Qmake_Qdiv in H. rewrite Zle_Qle, !inject_Z_mult, !Zpower_Qpower by lia.
  change (inject_Z 2) with 2.
  pose proof (pow2Q_pos P) as HP.
  assert (Hd : 0 < inject_Z (Z.pos d)) by (unfold Qlt, inject_Z; cbn; lia).
  apply (Qmult_le_compat_r _ _ (inject_Z (Z.pos d) * 2 ^ P)) in H;
    [| apply Qlt_le_weak, Qmult_lt_0_compat; assumption].
  setoid_replace (inject_Z a / inject_Z (Z.pos d) * (inject_Z (Z.pos d) * 2 ^ P))
    with (inject_Z a * 2 ^ P) in H by (field; lra).
  setoid_replace (2 ^ R / 2 ^ P * (inject_Z (Z.pos d) * 2 ^ P))
    with (inject_Z (Z.pos d) * 2 ^ R) in H by (field; lra).
  exact H.
Qed.

(** The exponent chosen for a rational of magnitude at most [2^l]. *)
Lemma binExp_le (q : Q) (l : Z) :
  (-1022 <= l)%Z -> Qnum q <> 0%Z -> Qabs q <= 2 ^ l ->
  (binExp (Z.abs (Qnum q)) (Z.pos (Qden q)) <= l - 52)%Z.
Proof.
  intros Hl N Hq.
  assert (F : (floorLog2 (Z.abs (Qnum q)) (Z.pos (Qden q)) <= l)%Z).
  { apply floorLog2_le; [lia | lia |]. apply Qle_leS. destruct q as [n d]. exact Hq. }
  unfold binExp. lia.
Qed.

(** A rational of magnitude at most [2^l], for [l] in the normal range,
    converts to a finite double and is moved by at most [2^(l-53)]. *)
Theorem Q2SF_bound (q : Q) (l : Z) :
  (-1022 <= l <= 1022)%Z -> Qabs q <= 2 ^ l ->
  exists v, SF2Q (Q2SF q) = Some v /\ Qabs (q - v) <= 2 ^ (l - 53).
Proof.
  intros Hl Hq. destruct (Z.eq_dec (Qnum q) 0) as [Z0 | N].
  - destruct (Q2SF_zero q Z0) as [Ez D]. exists 0. rewrite Ez, D.
    split; [reflexivity | apply pow2Q_nonneg].
  - pose proof (binExp_le q l ltac:(lia) N Hq) as B.
    assert (F : exists v, SF2Q (Q2SF q) = Some v).
    { pose proof (Q2SF_nonzero q N) as H. rewrite <- rounded_snd in B.
      destruct (rounded _ _) as [m e]. cbn [snd] in B. destruct H as [_ P].
      destruct P; cbn [SF2Q]; [eexists; reflexivity | lia | eexists; reflexivity]. }
    destruct F as [v E]. exists v. split; [exact E|].
    destruct (Q2SF_error q v N E) as [R _]. apply (Qle_trans _ _ _ R).
    rewrite pow2Q_half. apply pow2Q_le. lia.
Qed.
