(* ===== verification/Binary64.v ===== *)
(** * Binary64: the script's numbers as IEEE-754 doubles

    The instance [FNum] of [JSNumber] on the kernel's primitive binary64
    floats: the arithmetic a JavaScript engine performs, bit for bit.

    - [Q2F] rounds a rational to the nearest double, ties to even, with
      gradual underflow and overflow to infinity.  It gives numeric
      literals and unary plus their value.  It is [Rounding.Q2SF] turned
      into a primitive float, and inherits its theorems: [Q2F_nearest],
      [Q2F_F2Q].
    - [F2Q] is the exact value of a finite double.
    - [Fmin] and [Fround] are [Math.min] and [Math.round] with their
      treatment of [NaN] and of the two zeros.
    - [Fstr] is [Number::toString] (ECMA-262 6.1.6.1.20): the shortest
      decimal that reads back as the same double, the closest one when
      there are several, printed in positional or exponent notation. *)

From Stdlib Require Import List String Ascii Bool ZArith QArith Qround Qabs Qpower Lia Lqa.
From Stdlib Require Import Floats.
From S2P Require Import Prelude Decimal JSNumber Rounding.
Import ListNotations.

#[local] Open Scope Z_scope.

(** ** Rounding a rational to a double *)

(** The double nearest to [q]. *)
Definition Q2F (q : Q) : float := SF2Prim (Q2SF q).

(** The exact value of a finite double. *)
Definition F2Q (x : float) : option Q := SF2Q (Prim2SF x).

(** ** Math.min and Math.round *)

(** [Math.min(a, b)]: [NaN] if either is [NaN], [-0] below [+0]. *)
Definition Fmin (a b : float) : float :=
  if PrimFloat.is_nan a || PrimFloat.is_nan b then PrimFloat.nan
  else if PrimFloat.ltb a b then a
  else if PrimFloat.ltb b a then b
  else if PrimFloat.get_sign a then a else b.

(** [Math.round(x)]: [x] itself when it is not finite or is an integer;
    otherwise [floor(x + 0.5)], computed exactly, with the sign of [x] on
    a zero result. *)
Definition Fround (x : float) : float :=
  match F2Q x with
  | None => x
  | Some q =>
      if isIntegerQ q then x
      else
        let n := roundHalfUp q in
        if n =? 0 then (if PrimFloat.get_sign x then PrimFloat.neg_zero else PrimFloat.zero)
        else Q2F (inject_Z n)
  end.

(** ** Number::toString *)

Definition pow10Q (z : Z) : Q :=
  if 0 <=? z then inject_Z (10 ^ z) else 1 # Z.to_pos (10 ^ (- z)).

(** Moves an estimate [n] of the decimal exponent until
    [10^(n-1) <= q < 10^n]. *)
Fixpoint adjustExp (fuel : nat) (q : Q) (n : Z) : Z :=
  match fuel with
  | O => n
  | S fuel' =>
      if Qltb q (pow10Q (n - 1)) then adjustExp fuel' q (n - 1)
      else if Qleb (pow10Q n) q then adjustExp fuel' q (n + 1)
      else n
  end.

(** The [n] with [10^(n-1) <= q < 10^n], for [q > 0]: the binary
    logarithm times [log10 2] is within two of it. *)
Definition decExp (q : Q) : Z :=
  let l := Z.log2 (Qnum q) - Z.log2 (Z.pos (Qden q)) in
  adjustExp 6 q (l * 30103 / 100000).

(** Does [s * 10^(n - k)] read back as [x]? *)
Definition readsBack (x : float) (s n k : Z) : bool :=
  PrimFloat.eqb (Q2F (inject_Z s * pow10Q (n - k))) x.

(** The [k]-digit candidates around [q]: the multiples of [10^(n-k)] just
    below and just above it.  The result is the one that reads back as
    [x], the closer to [q] if both do, the even one on a tie. *)
Definition candidate (x : float) (q : Q) (n k : Z) : option Z :=
  let sc := (q / pow10Q (n - k))%Q in
  let lo := Qfloor sc in
  let hi := lo + 1 in
  let okLo := readsBack x lo n k in
  let okHi := readsBack x hi n k && negb (isIntegerQ sc) in
  match okLo, okHi with
  | true, false => Some lo
  | false, true => Some hi
  | false, false => None
  | true, true =>
      let dLo := (sc - inject_Z lo)%Q in
      let dHi := (inject_Z hi - sc)%Q in
      if Qltb dLo dHi then Some lo
      else if Qltb dHi dLo then Some hi
      else if Z.even lo then Some lo else Some hi
  end.

(** The least [k] from [k] on with a candidate, and the candidate. *)
Fixpoint shortest (fuel : nat) (x : float) (q : Q) (n k : Z) : option (Z * Z) :=
  match fuel with
  | O => None
  | S fuel' =>
      match candidate x q n k with
      | Some s => Some (s, k)
      | None => shortest fuel' x q n (k + 1)
      end
  end.

(** Drops the zeros at the end of [s], counting down [k]. *)
Fixpoint stripZeros (fuel : nat) (s k : Z) : Z * Z :=
  match fuel with
  | O => (s, k)
  | S fuel' =>
      if (1 <? k) && (s mod 10 =? 0) then stripZeros fuel' (s / 10) (k - 1)
      else (s, k)
  end.

#[local] Open Scope string_scope.

(** Steps 6-10 of [Number::toString]: the digits [ds] of [s] ([k] of
    them) with the decimal exponent [n]. *)
Definition layout (ds : string) (k n : Z) : string :=
  if ((k <=? n) && (n <=? 21))%Z then ds ++ zeros (Z.to_nat (n - k))
  else if ((0 <? n) && (n <=? 21))%Z then
    substring 0 (Z.to_nat n) ds ++ "." ++ substring (Z.to_nat n) (Z.to_nat (k - n)) ds
  else if ((-6 <? n) && (n <=? 0))%Z then "0." ++ zeros (Z.to_nat (- n)) ++ ds
  else
    let e := (n - 1)%Z in
    let es := (if (e <? 0)%Z then "-" else "+") ++ digits (Z.abs e) in
    if (k =? 1)%Z then ds ++ "e" ++ es
    else substring 0 1 ds ++ "." ++ substring 1 (Z.to_nat (k - 1)) ds ++ "e" ++ es.

(** [Number::toString] on a positive finite value [q] of the double [x]. *)
Definition showPositive (x : float) (q : Q) : string :=
  let n := decExp q in
  match shortest 17 x q n 1 with
  | None => "?"
  | Some (s, k) =>
      (* a candidate [10^k] has one more integer digit *)
      let carry := (s =? 10 ^ k)%Z in
      let '(s', k') := stripZeros 17 s (if carry then k + 1 else k)%Z in
      layout (digits s') k' (if carry then n + 1 else n)%Z
  end.

Definition Fstr (x : float) : string :=
  match F2Q x with
  | None =>
      if PrimFloat.is_nan x then "NaN"
      else if PrimFloat.ltb x PrimFloat.zero then "-Infinity" else "Infinity"
  | Some q =>
      if Qeq_bool q 0 then "0"
      else if Qltb q 0 then "-" ++ showPositive (PrimFloat.opp x) (Qopp q)
      else showPositive x q
  end.

(** ** The instance *)

#[export] Instance FNum : JSNumber float := {|
  lit := Q2F;
  nan := PrimFloat.nan;
  nneg := PrimFloat.opp;
  nadd := PrimFloat.add;
  nsub := PrimFloat.sub;
  nmul := PrimFloat.mul;
  ndiv := PrimFloat.div;
  nabs := PrimFloat.abs;
  nmin := Fmin;
  nround := Fround;
  nltb := PrimFloat.ltb;
  nleb := PrimFloat.leb;
  toQ := F2Q;
  toStr := Fstr
|}.

(** ** The conversion is correctly rounded *)

(** [Q2F] computes the double that [Q2SF] specifies. *)
Lemma Q2F_spec (q : Q) : Prim2SF (Q2F q) = Q2SF q.
Proof. apply Prim2SF_SF2Prim, Q2SF_valid. Qed.

(** A literal is within half the spacing of the doubles of the double it
    denotes. *)
Theorem Q2F_nearest (q v : Q) :
  F2Q (Q2F q) = Some v -> (Qabs (q - v) <= 2 ^ ulpExp (Prim2SF (Q2F q)) / 2)%Q.
Proof. unfold F2Q. rewrite Q2F_spec. apply Q2SF_nearest. Qed.

(** A literal exactly half way between two doubles denotes the one with
    the even significand. *)
Theorem Q2F_tie (q : Q) (s : bool) (p : positive) (e : Z) :
  Prim2SF (Q2F q) = S754_finite s p e ->
  (Qabs (q - signed s (scaleQ p e)) == 2 ^ e / 2)%Q ->
  Z.even (Z.pos p) = true.
Proof. rewrite Q2F_spec. apply Q2SF_tie. Qed.

(** A literal of magnitude at most [2^l] denotes a finite double at most
    [2^(l-53)] away. *)
Theorem Q2F_bound (q : Q) (l : Z) :
  (-1022 <= l <= 1022)%Z -> (Qabs q <= 2 ^ l)%Q ->
  exists v, F2Q (Q2F q) = Some v /\ (Qabs (q - v) <= 2 ^ (l - 53))%Q.
Proof. unfold F2Q. rewrite Q2F_spec. apply Q2SF_bound. Qed.

(** Reading the exact value of a double gives the double back; the only
    exception is [-0], whose value [0] reads as [+0]. *)
Theorem Q2F_F2Q (x : float) (q : Q) :
  F2Q x = Some q -> Prim2SF x <> S754_zero true -> Q2F q = x.
Proof.
  unfold F2Q, Q2F. intros E N. rewrite <- (SF2Prim_Prim2SF x).
  f_equal. pose proof (Prim2SF_valid x) as V.
  destruct (Prim2SF x) as [[|] | | | s m e]; try discriminate;
    cbn [SF2Q] in E; injection E as <-; [contradiction | reflexivity |].
  now apply Q2SF_exact.
Qed.

(** Negation changes the sign of the value and nothing else. *)
Lemma F2Q_opp (x : float) : F2Q (PrimFloat.opp x) = option_map Qopp (F2Q x).
Proof.
  unfold F2Q. rewrite opp_spec.
  destruct (Prim2SF x) as [[|] | | | [|] m e]; cbn [SFopp SF2Q option_map negb signed];
    try reflexivity.
  destruct (scaleQ m e) as [n d]. unfold Qopp. cbn [Qnum Qden]. now rewrite Z.opp_involutive.
Qed.

Lemma ulpExp_opp (x : float) : ulpExp (Prim2SF (PrimFloat.opp x)) = ulpExp (Prim2SF x).
Proof. rewrite opp_spec. now destruct (Prim2SF x). Qed.

(** The negation of a literal is as near to the negated rational. *)
Lemma Q2F_opp_nearest (q v : Q) :
  F2Q (PrimFloat.opp (Q2F q)) = Some v ->
  (Qabs (- q - v) <= 2 ^ ulpExp (Prim2SF (PrimFloat.opp (Q2F q))) / 2)%Q.
Proof.
  rewrite F2Q_opp, ulpExp_opp. destruct (F2Q (Q2F q)) as [v'|] eqn:E; [|discriminate].
  intros [= <-]. setoid_replace (- q - - v')%Q with (- (q - v'))%Q by ring.
  rewrite Qabs_opp. now apply Q2F_nearest.
Qed.

(** Unary plus on a decimal literal gives a double within half the
    spacing of the doubles of the number the literal denotes. *)
Theorem ofStr_nearest (s : string) (q v : Q) :
  parseDecimal s = Some q -> toQ (ofStr (num := float) s) = Some v ->
  (Qabs (q - v) <= 2 ^ ulpExp (Prim2SF (ofStr s)) / 2)%Q.
Proof.
  destruct s as [|c s]; [discriminate|].
  destruct c as [[] [] [] [] [] [] [] []];
    cbn [ofStr parseDecimal option_map lit nneg toQ FNum];
    destruct (readUnsigned _); intros [= <-];
    first [apply Q2F_nearest | apply Q2F_opp_nearest].
Qed.

(** A literal of magnitude at most [2^l] reads as a finite double at most
    [2^(l-53)] away. *)
Theorem ofStr_bound (s : string) (q : Q) (l : Z) :
  (-1022 <= l <= 1022)%Z -> (Qabs q <= 2 ^ l)%Q -> parseDecimal s = Some q ->
  exists v, toQ (ofStr (num := float) s) = Some v /\ (Qabs (q - v) <= 2 ^ (l - 53))%Q.
Proof.
  intros Hl Hq. destruct s as [|c s]; [discriminate|].
  destruct c as [[] [] [] [] [] [] [] []];
    cbn [ofStr parseDecimal option_map lit nneg toQ FNum];
    destruct (readUnsigned _) as [q'|]; intros [= <-]; try now apply Q2F_bound.
  rewrite Qabs_opp in Hq. destruct (Q2F_bound q' l Hl Hq) as (v & E & B).
  exists (- v)%Q. rewrite F2Q_opp, E. split; [reflexivity|].
  setoid_replace (- q' - - v)%Q with (- (q' - v))%Q by ring. now rewrite Qabs_opp.
Qed.

(** ** Doubles against rationals *)

(** The distance of a double from a rational; [None] if the double is not
    finite. *)
Definition distance (x : float) (q : Q) : option Q :=
  option_map (fun v => Qabs (v - q)) (F2Q x).

(** The double [x] is finite and at most [tol] away from [q]. *)
Definition close (tol : Q) (x : float) (q : Q) : Prop :=
  exists v, F2Q x = Some v /\ (Qabs (v - q) <= tol)%Q.

Definition within (x : float) (q : Q) (tol : Q) : bool :=
  match distance x q with
  | Some d => Qleb d tol
  | None => false
  end.

(** The same for two lists, element by element. *)
Fixpoint allWithin (tol : Q) (xs : list float) (qs : list Q) : bool :=
  match xs, qs with
  | [], [] => true
  | x :: xs', q :: qs' => within x q tol && allWithin tol xs' qs'
  | _, _ => false
  end.

Lemma within_spec (x : float) (q tol : Q) : within x q tol = true -> close tol x q.
Proof.
  unfold within, distance, close. destruct (F2Q x) as [v|]; [|discriminate].
  intros Hle. exists v. split; [reflexivity | now apply Qleb_le].
Qed.

Lemma allWithin_spec (tol : Q) (xs : list float) (qs : list Q) :
  allWithin tol xs qs = true -> Forall2 (close tol) xs qs.
Proof.
  revert qs. induction xs as [|x xs IH]; intros [|q qs] Hall; try discriminate;
    [constructor|].
  cbn [allWithin] in Hall. apply andb_prop in Hall as [Hx Hall].
  constructor; [now apply within_spec | now apply IH].
Qed.

(** ** Evaluation *)

#[local] Open Scope float_scope.
#[local] Set Warnings "-inexact-float".

(** [Q2F] agrees with the literals of the proof assistant, which are read
    by the correctly rounding reader of the host. *)
Example Q2F_examples :
  Q2F (1 # 100) = 0x1.47ae147ae147bp-7 /\
  Q2F (1 # 10) = 0x1.999999999999ap-4 /\
  Q2F (1 # 3) = 0x1.5555555555555p-2 /\
  Q2F (3 # 2) = 1.5 /\
  Q2F (- (201 # 100)) = -0x1.0147ae147ae14p+1 /\
  Q2F (1 # 1000000000) = 0x1.12e0be826d695p-30 /\
  Q2F (inject_Z (10 ^ 23)) = 0x1.52d02c7e14af6p+76 /\
  Q2F (inject_Z (2 ^ 1024)) = infinity /\
  Q2F (1 # Z.to_pos (2 ^ 1074)) = 0x0.0000000000001p-1022 /\
  Q2F (1 # Z.to_pos (2 ^ 1075)) = 0.
Proof. vm_compute. repeat split. Qed.

Example Fstr_examples :
  Fstr (0.1 + 0.2) = "0.30000000000000004"%string /\
  Fstr 0.5 = "0.5"%string /\
  Fstr 100 = "100"%string /\
  Fstr (Q2F (inject_Z (10 ^ 21))) = "1e+21"%string /\
  Fstr (Q2F (inject_Z (10 ^ 23))) = "1e+23"%string /\
  Fstr (Q2F (123456789012345680000 # 1)) = "123456789012345680000"%string /\
  Fstr (Q2F (1 # 1000000)) = "0.000001"%string /\
  Fstr (Q2F (1 # 10000000)) = "1e-7"%string /\
  Fstr (Q2F (15 # 100000000)) = "1.5e-7"%string /\
  Fstr 0x0.0000000000001p-1022 = "5e-324"%string /\
  Fstr 0x1.fffffffffffffp+1023 = "1.7976931348623157e+308"%string /\
  Fstr (- 2.5) = "-2.5"%string /\
  Fstr neg_zero = "0"%string /\
  Fstr nan = "NaN"%string /\
  Fstr neg_infinity = "-Infinity"%string /\
  Fstr (131.25 * 3 + 55) = "448.75"%string.
Proof. vm_compute. repeat split. Qed.

Example Fround_examples :
  Fround 2.5 = 3 /\ Fround (-2.5) = -2 /\ Fround 0.4 = 0 /\
  Fround 140.99999999999997 = 141 /\
  PrimFloat.get_sign (Fround (-0.2)) = true /\
  Fround 0x1p+60 = 0x1p+60 /\ PrimFloat.is_nan (Fround nan) = true.
Proof. vm_compute. repeat split. Qed.

Example Fmin_examples :
  Fmin 1 0.5 = 0.5 /\ Fmin 1 2 = 1 /\ PrimFloat.is_nan (Fmin 1 nan) = true /\
  PrimFloat.get_sign (Fmin 0 neg_zero) = true.
Proof. vm_compute. repeat split. Qed.

Example toFixed_float_examples :
  toFixed 2.0099999999999341 4 = "2.0100"%string /\
  toFixed 1.005 2 = "1.00"%string /\
  toFixed 2.5 0 = "3"%string /\
  toFixed (- 0.00001) 4 = "-0.0000"%string /\
  toFixed nan 2 = "NaN"%string /\
  toFixed (Q2F (inject_Z (10 ^ 21))) 2 = "1e+21"%string.
Proof. vm_compute. repeat split. Qed.
