(* ===== verification/MathModel.v ===== *)
(** * MathModel: the function and its derivative

    [f] and [df] of App.svelte (part_000 lines 25-30), over any [JSNumber];
    then, on the exact instance, what makes [df] the derivative of [f]: the
    difference quotient of [f] at [x] with step [h] is [df x + h], the
    parabola lies above each of its tangents, and its minimum is [f 1 = 2]. *)

From Stdlib Require Import QArith Qabs Lqa.
From S2P Require Import Prelude Decimal JSNumber Exact.

Section MathModel.
Context {num : Type} `{JSNumber num}.
#[local] Open Scope js_scope.

(** [const f = x => x * x - 2 * x + 3;] *)
Definition f (x : num) : num := x * x - lit 2 * x + lit 3.

(** [const df = x => 2 * x - 2;] *)
Definition df (x : num) : num := lit 2 * x - lit 2.

End MathModel.

(** ** Exact semantics *)

#[local] Open Scope Q_scope.

Lemma f_exact (x : Q) : f x == x * x - 2 * x + 3.
Proof. unfold f. js_exact. reflexivity. Qed.

Lemma df_exact (x : Q) : df x == 2 * x - 2.
Proof. unfold df. js_exact. reflexivity. Qed.

#[export] Instance f_Proper : Proper (Qeq ==> Qeq) (f (num := Q)).
Proof. intros x y E. rewrite !f_exact. now rewrite E. Qed.

#[export] Instance df_Proper : Proper (Qeq ==> Qeq) (df (num := Q)).
Proof. intros x y E. rewrite !df_exact. now rewrite E. Qed.

(** Unfolds the model to polynomials over [Q]. *)
Ltac math_exact := rewrite ?f_exact, ?df_exact in *.

(** [f] in vertex form: a parabola with vertex [(1, 2)]. *)
Lemma f_vertex_form (x : Q) : f x == (x - 1) * (x - 1) + 2.
Proof. math_exact. ring. Qed.

(** [f] is never below 2. *)
Lemma f_ge_2 (x : Q) : 2 <= f x.
Proof. rewrite f_vertex_form. pose proof (Qsquare_nonneg (x - 1)). lra. Qed.

(** The increment of [f] over a step [h], without division. *)
Lemma f_increment (x h : Q) : f (x + h) - f x == h * (df x + h).
Proof. math_exact. ring. Qed.



(** The gap between the parabola and its tangent at [a] is the square of
    the distance to [a]. *)
Lemma tangent_gap (a x : Q) :
  f x - (f a + df a * (x - a)) == (x - a) * (x - a).
Proof. math_exact. ring. Qed.

(** [f] lies on or above each of its tangents (convexity). *)
Theorem f_above_tangent (a x : Q) : f a + df a * (x - a) <= f x.
Proof. pose proof (tangent_gap a x). pose proof (Qsquare_nonneg (x - a)). lra. Qed.

(** [f] increases to the right of the vertex. *)
Lemma f_increasing (x y : Q) : 1 <= x -> x < y -> f x < f y.
Proof. intros Hx Hxy. math_exact. nra. Qed.

(** [f] decreases to the left of the vertex. *)
Lemma f_decreasing (x y : Q) : x < y -> y <= 1 -> f y < f x.
Proof. intros Hxy Hy. math_exact. nra. Qed.

Example f_values : f 0 == 3 /\ f 1 == 2 /\ f 2 == 3 /\ f 3 == 6 /\ f 4 == 11.
Proof. repeat split; vm_compute; reflexivity. Qed.
