(* ===== verification/Mapper.v ===== *)
(** * Mapper: from mathematical to SVG coordinates

    The view box, the padding, the window of the plot and the two
    coordinate transformations of App.svelte (part_000 lines 40-62).  On
    the exact instance: both maps are affine, [toSvgX] increases and
    [toSvgY] decreases (the vertical flip), the corners of the window go to
    the corners of the plot rectangle, the window goes into the rectangle,
    and nothing is clamped: a point outside the window lands outside the
    rectangle.  [toSvgX] is characterised as the only affine map with its two
    endpoint values. *)

From Stdlib Require Import QArith Qabs Lqa.
From S2P Require Import Prelude Decimal JSNumber Exact.

Section Mapper.
Context {num : Type} `{JSNumber num}.
#[local] Open Scope js_scope.

(** [const VW = 600;  const VH = 400;] *)
Definition VW : num := lit 600.
Definition VH : num := lit 400.

(** [const PAD = { top: 20, right: 20, bottom: 50, left: 55 };] *)
Record Padding : Type := mkPadding {
  top : num;
  right : num;
  bottom : num;
  left : num
}.

Definition PAD : Padding :=
  {| top := lit 20; right := lit 20; bottom := lit 50; left := lit 55 |}.

(** [const xMin = 0, xMax = 4;  const yMin = 0, yMax = 9;] *)
Definition xMin : num := lit 0.
Definition xMax : num := lit 4.
Definition yMin : num := lit 0.
Definition yMax : num := lit 9.

(** [const plotW = VW - PAD.left - PAD.right;] *)
Definition plotW : num := VW - left PAD - right PAD.

(** [const plotH = VH - PAD.top - PAD.bottom;] *)
Definition plotH : num := VH - top PAD - bottom PAD.

(** [const toSvgX = x => PAD.left + (x - xMin) / (xMax - xMin) * plotW;] *)
Definition toSvgX (x : num) : num :=
  left PAD + (x - xMin) / (xMax - xMin) * plotW.

(** [const toSvgY = y => PAD.top + (1 - (y - yMin) / (yMax - yMin)) * plotH;] *)
Definition toSvgY (y : num) : num :=
  top PAD + (lit 1 - (y - yMin) / (yMax - yMin)) * plotH.

End Mapper.

Arguments Padding num : clear implicits.

(** ** Exact semantics *)

#[local] Open Scope Q_scope.

Ltac mapper_unfold :=
  cbv beta iota delta
    [toSvgX toSvgY plotW plotH VW VH PAD xMin xMax yMin yMax top right bottom left] in *;
  js_exact.

Lemma plot_size : plotW == 525 /\ plotH == 330.
Proof. split; vm_compute; reflexivity. Qed.

(** [toSvgX] is the affine map [x |-> 55 + 131.25 x]. *)
Lemma toSvgX_exact (x : Q) : toSvgX x == 55 + x * (525 # 4).
Proof. mapper_unfold. field. Qed.

(** [toSvgY] is the affine map [y |-> 350 - (110/3) y]. *)
Lemma toSvgY_exact (y : Q) : toSvgY y == 350 - y * (110 # 3).
Proof. mapper_unfold. field. Qed.

#[export] Instance toSvgX_Proper : Proper (Qeq ==> Qeq) (toSvgX (num := Q)).
Proof. intros x y E. now rewrite !toSvgX_exact, E. Qed.

#[export] Instance toSvgY_Proper : Proper (Qeq ==> Qeq) (toSvgY (num := Q)).
Proof. intros x y E. now rewrite !toSvgY_exact, E. Qed.

Ltac mapper_exact := rewrite ?toSvgX_exact, ?toSvgY_exact in *.

(** C9: the corners of the window are the corners of the plot rectangle:
    [x = 0] is drawn at 55 and [x = 4] at 580, [y = 0] at 350 and [y = 9]
    at 20. *)
Theorem mapper_corners :
  toSvgX xMin == left PAD /\ toSvgX xMin == 55 /\
  toSvgX xMax == left PAD + plotW /\ toSvgX xMax == 580 /\
  toSvgY yMin == top PAD + plotH /\ toSvgY yMin == 350 /\
  toSvgY yMax == top PAD /\ toSvgY yMax == 20.
Proof. repeat split; vm_compute; reflexivity. Qed.

Lemma toSvgX_lt (x y : Q) : x < y -> toSvgX x < toSvgX y.
Proof. mapper_exact. lra. Qed.

Lemma toSvgY_lt (y1 y2 : Q) : y1 < y2 -> toSvgY y2 < toSvgY y1.
Proof. mapper_exact. lra. Qed.

(** C8: [toSvgX] preserves the order of abscissas and [toSvgY] reverses the
    order of ordinates: larger values are drawn further right and higher,
    that is at a smaller SVG ordinate. *)
Theorem mapper_orientation (a b : Q) :
  (a < b <-> toSvgX a < toSvgX b) /\ (a < b <-> toSvgY b < toSvgY a).
Proof. mapper_exact. split; lra. Qed.

Lemma toSvgX_le (x y : Q) : x <= y <-> toSvgX x <= toSvgX y.
Proof. mapper_exact. lra. Qed.

Lemma toSvgY_le (y1 y2 : Q) : y1 <= y2 <-> toSvgY y2 <= toSvgY y1.
Proof. mapper_exact. lra. Qed.

Lemma toSvgX_inj (x y : Q) : toSvgX x == toSvgX y -> x == y.
Proof. mapper_exact. lra. Qed.

Lemma toSvgY_inj (x y : Q) : toSvgY x == toSvgY y -> x == y.
Proof. mapper_exact. lra. Qed.

Lemma toSvgX_bounds (x : Q) :
  xMin <= x <= xMax -> left PAD <= toSvgX x <= VW - right PAD.
Proof. mapper_exact. mapper_unfold. lra. Qed.

Lemma toSvgY_bounds (y : Q) :
  yMin <= y <= yMax -> top PAD <= toSvgY y <= VH - bottom PAD.
Proof. mapper_exact. mapper_unfold. lra. Qed.

(** C7: A point is inside the window exactly when its image is inside the plot
    rectangle, edge for edge: the window is mapped into the rectangle and
    nothing outside it is clamped into it. *)
Theorem window_to_plot (x y : Q) :
  (xMin <= x <= xMax <-> left PAD <= toSvgX x <= VW - right PAD) /\
  (yMin <= y <= yMax <-> top PAD <= toSvgY y <= VH - bottom PAD).
Proof. mapper_exact. mapper_unfold. split; lra. Qed.

(** Differences of abscissas are scaled by [plotW / (xMax - xMin)]: the
    width in SVG units of an interval of the x axis. *)
Lemma toSvgX_diff (x y : Q) : toSvgX y - toSvgX x == (y - x) * (525 # 4).
Proof. mapper_exact. ring. Qed.

Lemma toSvgY_diff (x y : Q) : toSvgY x - toSvgY y == (y - x) * (110 # 3).
Proof. mapper_exact. ring. Qed.

(** Specification of the horizontal map: an affine map that sends the ends
    of the window to the left and right edges of the plot rectangle. *)
Definition affine_onto (g : Q -> Q) (a b lo hi : Q) : Prop :=
  (exists c s, forall x, g x == c + s * x) /\ g a == lo /\ g b == hi.

(** [toSvgX] meets its specification. *)
Lemma toSvgX_affine_onto :
  affine_onto toSvgX xMin xMax (left PAD) (left PAD + plotW).
Proof.
  split; [exists 55, (525 # 4); intros x; rewrite toSvgX_exact; ring|].
  split; vm_compute; reflexivity.
Qed.

(** [toSvgY] meets the flipped specification: the bottom of the window goes
    to the bottom edge, the top to the top edge. *)
Lemma toSvgY_affine_onto :
  affine_onto toSvgY yMin yMax (top PAD + plotH) (top PAD).
Proof.
  split; [exists 350, (- (110 # 3)); intros x; rewrite toSvgY_exact; ring|].
  split; vm_compute; reflexivity.
Qed.

(** The specification determines the map: two affine maps with the same
    values at two distinct points agree everywhere. *)
Theorem affine_onto_unique (g h : Q -> Q) (a b lo hi : Q) :
  ~ a == b -> affine_onto g a b lo hi -> affine_onto h a b lo hi ->
  forall x, g x == h x.
Proof.
  intros Hab ((c & s & Hg) & Ha & Hb) ((c' & s' & Hh) & Ha' & Hb') x.
  rewrite Hg in Ha, Hb. rewrite Hh in Ha', Hb'. rewrite Hg, Hh.
  assert (Hs : (s - s') * (b - a) == 0) by lra.
  apply Qmult_integral in Hs as [Hs | Hs]; [|lra].
  assert (s == s') as Es by lra. rewrite Es in *. lra.
Qed.

Lemma affine_onto_unique_witness : toSvgX 2 == 55 + (525 # 4) * 2.
Proof.
  apply (affine_onto_unique toSvgX (fun x => 55 + (525 # 4) * x)
           xMin xMax (left PAD) (left PAD + plotW)).
  - vm_compute. discriminate.
  - exact toSvgX_affine_onto.
  - split; [exists 55, (525 # 4); reflexivity | split; vm_compute; reflexivity].
Defined.
