(* ===== verification/Sampler.v ===== *)
(** * Sampler: polyline points

    [makeLine] and the sample abscissas [xs] of App.svelte (part_000 lines
    64-72).  [makeLine] produces the value of an SVG [points] attribute;
    [linePoints] is the sequence of coordinate pairs behind that string, on
    which the theorems are stated.  On the exact instance: [xs] has 300
    elements, starts at [xMin], ends at [xMax], is evenly spaced and
    strictly increasing, and a polyline drawn over it keeps the order of the
    samples and stays between the left and the right edge of the plot.  On
    doubles: the samples are strictly increasing, the last one is [xMax]
    itself, and every point of the curve's polyline is a finite pair within
    [1e-12] of the exact point. *)

From Stdlib Require Import List String Bool ZArith QArith Qabs Lia Lqa Floats.
From S2P Require Import Prelude Decimal JSNumber Exact Binary64 MathModel Mapper.
Import ListNotations.

Section Sampler.
Context {num : Type} `{JSNumber num}.
#[local] Open Scope js_scope.

(** The interpolation [`${toSvgX(x)},${toSvgY(fn(x))}`] for one pair. *)
Definition pointString (p : num * num) : string :=
  (toStr (fst p) ++ "," ++ toStr (snd p))%string.

(** The coordinate pairs [makeLine] prints, in order. *)
Definition linePoints (xArr : list num) (fn : num -> num) : list (num * num) :=
  map (fun x => (toSvgX x, toSvgY (fn x))) xArr.

(** [function makeLine(xArr, fn) {
      return xArr.map(x => `${toSvgX(x)},${toSvgY(fn(x))}`).join(' '); }] *)
Definition makeLine (xArr : list num) (fn : num -> num) : string :=
  String.concat " "
    (map (fun x => (toStr (toSvgX x) ++ "," ++ toStr (toSvgY (fn x)))%string) xArr).

(** [const xs = Array.from({ length: 300 },
                           (_, i) => xMin + i * (xMax - xMin) / 299);] *)
Definition xs : list num :=
  map (fun i => xMin + ofNat i * (xMax - xMin) / lit 299) (seq 0 300).

(** ** For every instance *)

Lemma makeLine_linePoints (xArr : list num) (fn : num -> num) :
  makeLine xArr fn = String.concat " " (map pointString (linePoints xArr fn)).
Proof. unfold makeLine, linePoints. now rewrite map_map. Qed.

Lemma linePoints_length (xArr : list num) (fn : num -> num) :
  List.length (linePoints xArr fn) = List.length xArr.
Proof. apply length_map. Qed.

Lemma linePoints_nth (xArr : list num) (fn : num -> num) (i : nat) (d : num) :
  (i < List.length xArr)%nat ->
  nth i (linePoints xArr fn) (d, d) =
  (toSvgX (nth i xArr d), toSvgY (fn (nth i xArr d))).
Proof. intros Hi. unfold linePoints. now rewrite (nth_map_in _ _ _ d). Qed.

Lemma linePoints_app (l1 l2 : list num) (fn : num -> num) :
  linePoints (l1 ++ l2) fn = linePoints l1 fn ++ linePoints l2 fn.
Proof. apply map_app. Qed.

Lemma xs_length : List.length xs = 300%nat.
Proof. unfold xs. now rewrite length_map, length_seq. Qed.

End Sampler.

(** ** Exact semantics *)

#[local] Open Scope Q_scope.

(** The [i]-th sample is [4 i / 299]. *)
Lemma xs_nth (i : nat) :
  (i < 300)%nat -> nth i xs 0 == ofNat i * (4 # 299).
Proof.
  intros Hi. unfold xs. rewrite nth_map_seq by exact Hi.
  mapper_unfold. field.
Qed.

(** C10: the 300 samples start at the left end of the window, stop at its right
    end, and consecutive ones are [(xMax - xMin) / 299] apart. *)
Theorem xs_evenly_spaced :
  List.length (xs (num := Q)) = 300%nat /\
  nth 0 xs 0 == xMin /\ nth 299 xs 0 == xMax /\
  forall i, (S i < 300)%nat -> nth (S i) xs 0 - nth i xs 0 == (xMax - xMin) / 299.
Proof.
  split; [apply xs_length|]. split; [vm_compute; reflexivity|].
  split; [vm_compute; reflexivity|].
  intros i Hi. rewrite !xs_nth by lia. rewrite ofNat_S. mapper_unfold. field.
Qed.

Lemma xs_evenly_spaced_witness :
  nth 1 xs 0 - nth 0 xs 0 == (xMax - xMin) / 299.
Proof.
  apply (proj2 (proj2 (proj2 xs_evenly_spaced)) 0%nat). lia.
Defined.

(** The samples are strictly increasing. *)
Lemma xs_increasing (i j : nat) :
  (i < j)%nat -> (j < 300)%nat -> nth i xs 0 < nth j xs 0.
Proof.
  intros Hij Hj. rewrite !xs_nth by lia. apply ofNat_lt in Hij. lra.
Qed.

(** Every sample lies in the window. *)
Lemma xs_in_window : Forall (fun x => xMin <= x <= xMax) xs.
Proof.
  apply (Forall_nth_iff _ _ 0). rewrite xs_length. intros i Hi.
  rewrite xs_nth by exact Hi.
  pose proof (ofNat_nonneg i). assert (Hle : (i <= 299)%nat) by lia.
  apply ofNat_le in Hle. change (ofNat 299) with 299 in Hle.
  mapper_unfold. lra.
Qed.

(** A polyline over [xs] has 300 points; its [i]-th point is the image of
    the [i]-th sample. *)
Lemma linePoints_xs_nth (fn : Q -> Q) (i : nat) :
  (i < 300)%nat ->
  nth i (linePoints xs fn) (0, 0) =
  (toSvgX (nth i xs 0), toSvgY (fn (nth i xs 0))).
Proof. intros Hi. apply linePoints_nth. now rewrite xs_length. Qed.

(** A polyline over [xs] runs from left to right: the abscissas of its
    points are strictly increasing, whatever the function. *)
Theorem polyline_left_to_right (fn : Q -> Q) (i j : nat) :
  (i < j)%nat -> (j < 300)%nat ->
  fst (nth i (linePoints xs fn) (0, 0)) < fst (nth j (linePoints xs fn) (0, 0)).
Proof.
  intros Hij Hj. rewrite !linePoints_xs_nth by lia. cbn [fst].
  apply toSvgX_lt. now apply xs_increasing.
Qed.

Lemma polyline_left_to_right_witness :
  fst (nth 0 (linePoints xs (fun x => x)) (0, 0))
  < fst (nth 299 (linePoints xs (fun x => x)) (0, 0)).
Proof. apply (polyline_left_to_right (fun x => x) 0 299); lia. Defined.

(** A polyline over [xs] stays between the left and the right edge of the
    plot rectangle. *)
Theorem polyline_between_edges (fn : Q -> Q) :
  Forall (fun p => left PAD <= fst p <= VW - right PAD) (linePoints xs fn).
Proof.
  unfold linePoints. apply Forall_map.
  eapply Forall_impl; [|exact xs_in_window].
  intros x Hx. cbn [fst]. now apply toSvgX_bounds.
Qed.

(** C34: the curve itself leaves the drawing: [f] exceeds [yMax] near the right
    end of the window ([f 4 = 11]), so the last point of the polyline of
    [f] over [xs] has a negative SVG ordinate, above the view box. *)
Theorem curve_leaves_viewbox :
  yMax < f (nth 299 xs 0) /\ snd (nth 299 (linePoints xs f) (0, 0)) < 0.
Proof. split; vm_compute; reflexivity. Qed.

(** ** Binary64 semantics *)

(** Checked on sample [i] of the list [l]: it is within [1e-15] of
    [4 i / 299] and below the next sample. *)
Definition sample_ok (l : list float) (i : nat) : bool :=
  within (nth i l PrimFloat.zero) (ofNat i * (4 # 299)) (1 # 10 ^ 15) &&
  PrimFloat.ltb (nth i l PrimFloat.zero) (nth (S i) l PrimFloat.zero).

(** Checked on point [i] of a polyline [ps] against the exact polyline
    [qs]: both coordinates are within [1e-12]. *)
Definition point_ok (ps : list (float * float)) (qs : list (Q * Q)) (i : nat) : bool :=
  let p := nth i ps (PrimFloat.zero, PrimFloat.zero) in
  let q := nth i qs (0, 0) in
  within (fst p) (fst q) (1 # 10 ^ 12) && within (snd p) (snd q) (1 # 10 ^ 12).

Lemma samples_ok : forallb (sample_ok xs) (seq 0 299) = true.
Proof. vm_compute. reflexivity. Qed.

Lemma points_ok : forallb (point_ok (linePoints xs f) (linePoints xs f)) (seq 0 300) = true.
Proof. vm_compute. reflexivity. Qed.

(** C18: in doubles the samples are strictly increasing and within [1e-15] of
    the exact ones; the first is [xMin] and the last is [xMax] itself, so
    that the polylines run over the whole window. *)
Theorem xs_binary64 (i : nat) :
  (i < 299)%nat ->
  PrimFloat.ltb (nth i xs PrimFloat.zero) (nth (S i) xs PrimFloat.zero) = true /\
  close (1 # 10 ^ 15) (nth i xs PrimFloat.zero) (nth i xs 0) /\
  nth 0 xs PrimFloat.zero = xMin /\ nth 299 xs PrimFloat.zero = xMax.
Proof.
  intros Hi. pose proof (forallb_range _ 0 299 i samples_ok ltac:(lia)) as Hok.
  apply andb_prop in Hok as [Hw Hlt]. split; [exact Hlt|]. split.
  - destruct (within_spec _ _ _ Hw) as (v & E & Hv). exists v. split; [exact E|].
    now rewrite xs_nth by lia.
  - split; vm_compute; reflexivity.
Qed.

Lemma xs_binary64_witness :
  PrimFloat.ltb (nth 7 xs PrimFloat.zero) (nth 8 xs PrimFloat.zero) = true.
Proof. apply (xs_binary64 7). lia. Defined.

(** In doubles every point of the curve's polyline is a pair of finite
    numbers within [1e-12] of the exact point: the curve drawn is the
    curve meant, far below the resolution of any screen. *)
Theorem curve_binary64 (i : nat) :
  (i < 300)%nat ->
  let p := nth i (linePoints xs f) (PrimFloat.zero, PrimFloat.zero) in
  let q := nth i (linePoints (num := Q) xs f) (0, 0) in
  close (1 # 10 ^ 12) (fst p) (fst q) /\ close (1 # 10 ^ 12) (snd p) (snd q).
Proof.
  intros Hi p q. pose proof (forallb_range _ 0 300 i points_ok ltac:(lia)) as Hok.
  apply andb_prop in Hok as [Hx Hy]. split; now apply within_spec.
Qed.

Lemma curve_binary64_witness :
  close (1 # 10 ^ 12)
    (fst (nth 150 (linePoints xs f) (PrimFloat.zero, PrimFloat.zero)))
    (fst (nth 150 (linePoints (num := Q) xs f) (0, 0))).
Proof. apply (curve_binary64 150). lia. Defined.
