(* ===== verification/Ticks.v ===== *)
(** * Ticks: the tick values of an axis

    [ticks], [xTicks] and [yTicks] of App.svelte (part_000 lines 106-114).
    The [for] loop of [ticks] is driven by a number, so it is a [Fixpoint]
    on fuel that returns [None] when the fuel runs out before the loop
    condition fails.  On the exact instance the loop runs [tick_count]
    times when [step] is positive, any larger fuel gives the same list, and
    the [i]-th tick is [min + i * step] sent through [toFixed(6)] and back;
    with a step that is not positive and a non-empty range the loop never
    ends, whatever the fuel.  On every instance the loop never ends when
    the step does not move the first value ([ticks_stalls]); in doubles
    that happens for positive steps too.  [xTicks] and [yTicks] are
    computed with [ticks_fuel = 32] iterations, which the theorems show to
    be enough on both instances. *)

From Stdlib Require Import List String ZArith QArith Qround Qabs Lia Lqa Floats.
From S2P Require Import Prelude Decimal JSNumber Exact Binary64 Mapper.
Import ListNotations.

Section Ticks.
Context {num : Type} `{JSNumber num}.
#[local] Open Scope js_scope.

(** [+v.toFixed(6)]: the value pushed for the loop variable [v]. *)
Definition tickValue (v : num) : num := ofStr (toFixed v 6).

(** [for (let v = min; v <= max + 1e-9; v += step)
      result.push(+v.toFixed(6));] with [v] the current loop variable and
    [result] the array built so far. *)
Fixpoint ticks_loop (fuel : nat) (v max step : num) (result : list num)
  : option (list num) :=
  match fuel with
  | O => None
  | S fuel' =>
      if v <=? max + lit (1 # 1000000000)
      then ticks_loop fuel' (v + step) max step (result ++ [tickValue v])
      else Some result
  end.

(** [function ticks(min, max, step) { const result = []; for ...;
      return result; }] *)
Definition ticks (fuel : nat) (min max step : num) : option (list num) :=
  ticks_loop fuel min max step [].

(** Iterations granted to the two calls of the script. *)
Definition ticks_fuel : nat := 32.

Definition ticks_result (r : option (list num)) : list num :=
  match r with Some l => l | None => [] end.

(** [const xTicks = ticks(xMin, xMax, 0.5);] *)
Definition xTicks : list num := ticks_result (ticks ticks_fuel xMin xMax (lit (1 # 2))).

(** [const yTicks = ticks(yMin, yMax, 1);] *)
Definition yTicks : list num := ticks_result (ticks ticks_fuel yMin yMax (lit 1)).

(** ** For every instance *)

(** A loop variable that the step does not move never passes a bound it
    is within: the fuel always runs out. *)
Lemma ticks_loop_stalls (fuel : nat) (v max step : num) (result : list num) :
  v + step = v -> (v <=? max + lit (1 # 1000000000)) = true ->
  ticks_loop fuel v max step result = None.
Proof.
  intros Hs Hv. revert result.
  induction fuel as [|fuel IH]; intros result; cbn [ticks_loop]; [reflexivity|].
  rewrite Hv, Hs. apply IH.
Qed.

(** C28: [ticks] does not return when adding the step leaves the first
    value as it is and that value is within the bound: every fuel runs
    out.  With exact numbers this is a step of zero; with doubles it is
    every step below half the spacing of the doubles at [min], however
    positive. *)
Theorem ticks_stalls (fuel : nat) (min max step : num) :
  min + step = min -> (min <=? max + lit (1 # 1000000000)) = true ->
  ticks fuel min max step = None.
Proof. intros Hs Hv. now apply ticks_loop_stalls. Qed.

End Ticks.

(** ** Exact semantics *)

#[local] Open Scope Q_scope.

(** The tolerance [1e-9] of the loop condition. *)
#[local] Abbreviation eps := (1 # 1000000000) (only parsing).

#[export] Instance tickValue_Proper : Proper (Qeq ==> eq) (tickValue (num := Q)).
Proof. intros x y E. unfold tickValue. now rewrite E. Qed.

(** C12: what a tick is: the loop variable rounded to six decimals, so within
    [5e-7] of it; a value with at most six decimals is kept as it is. *)
Theorem tickValue_rounds (v : Q) :
  Qabs v < inject_Z (10 ^ 21) ->
  tickValue v == roundTo 6 v /\
  Qabs (tickValue v - v) <= 1 # 2000000 /\
  (forall z, v * 1000000 == inject_Z z -> tickValue v == v).
Proof.
  intros Hv. unfold tickValue. destruct (ofStr_toFixed v 6 Hv) as [E B].
  split; [exact E|]. split; [exact B|].
  intros z Hz. rewrite E. now apply (roundTo_grid 6 v z).
Qed.

Lemma tickValue_rounds_witness :
  tickValue (1 # 3) == roundTo 6 (1 # 3) /\
  Qabs (tickValue (1 # 3) - (1 # 3)) <= 1 # 2000000 /\
  (forall z, (1 # 3) * 1000000 == inject_Z z -> tickValue (1 # 3) == 1 # 3).
Proof. apply (tickValue_rounds (1 # 3)). reflexivity. Defined.

(** How many times the loop of [ticks min max step] runs when [step > 0]. *)
Definition tick_count (min max step : Q) : nat :=
  if Qltb (max + eps) min then 0%nat
  else S (Z.to_nat (Qfloor ((max + eps - min) / step))).

Section Loop.
Variables max step : Q.

(** The loop started at [v] runs exactly [n] times when [v + i * step] is
    within the bound for [i < n] and beyond it for [i = n]; it then returns
    the ticks of [v], [v + step], ..., [v + (n-1) step] after [result]. *)
Lemma ticks_loop_exact (n : nat) :
  forall (fuel : nat) (v : Q) (result : list Q),
  (n < fuel)%nat ->
  (forall i, (i < n)%nat -> v + ofNat i * step <= max + eps) ->
  max + eps < v + ofNat n * step ->
  ticks_loop fuel v max step result =
  Some (result ++ map (fun i => tickValue (v + ofNat i * step)) (seq 0 n)).
Proof.
  induction n as [|n IH]; intros fuel v result Hfuel Hin Hout;
    (destruct fuel as [|fuel]; [lia|]); cbn [ticks_loop]; js_exact.
  - change (ofNat 0) with 0 in Hout.
    replace (Qleb v (max + eps)) with false by (symmetry; qbool; lra).
    now rewrite app_nil_r.
  - pose proof (Hin 0%nat ltac:(lia)) as H0. change (ofNat 0) with 0 in H0.
    replace (Qleb v (max + eps)) with true by (symmetry; qbool; lra).
    rewrite (IH fuel (v + step) (result ++ [tickValue v])); [|lia| |].
    + rewrite <- app_assoc. cbn [app seq map]. apply f_equal, f_equal, f_equal2.
      * apply tickValue_Proper. change (ofNat 0) with 0. ring.
      * rewrite <- seq_shift, map_map. apply map_ext. intros i.
        apply tickValue_Proper. rewrite ofNat_S. ring.
    + intros i Hi. specialize (Hin (S i) ltac:(lia)). rewrite ofNat_S in Hin. lra.
    + rewrite ofNat_S in Hout. lra.
Qed.

(** Without a positive step the loop variable never passes a bound it
    starts below: the fuel always runs out. *)
Lemma ticks_loop_diverges (fuel : nat) :
  forall (v : Q) (result : list Q),
  step <= 0 -> v <= max + eps -> ticks_loop fuel v max step result = None.
Proof.
  induction fuel as [|fuel IH]; intros v result Hs Hv; cbn [ticks_loop]; js_exact.
  - reflexivity.
  - replace (Qleb v (max + eps)) with true by (symmetry; qbool; lra).
    apply IH; lra.
Qed.

End Loop.

Lemma ofNat_to_nat (z : Z) : (0 <= z)%Z -> ofNat (num := Q) (Z.to_nat z) = inject_Z z.
Proof. intros Hz. rewrite ofNat_exact. now rewrite Z2Nat.id. Qed.

(** The bounds [ticks_loop_exact] asks for hold for [tick_count]. *)
Lemma tick_count_bounds (min max step : Q) :
  0 < step ->
  (forall i, (i < tick_count min max step)%nat -> min + ofNat i * step <= max + eps) /\
  max + eps < min + ofNat (tick_count min max step) * step.
Proof.
  intros Hs. unfold tick_count. destruct (Qltb (max + eps) min) eqn:E; qbool.
  - split; [intros i Hi; lia | change (ofNat 0) with 0; lra].
  - set (q := (max + eps - min) / step).
    assert (Hq : q * step == max + eps - min) by (unfold q; field; lra).
    assert (Hq0 : 0 <= q) by (apply Qle_shift_div_l; lra).
    assert (Hk : (0 <= Qfloor q)%Z).
    { change 0%Z with (Qfloor 0). now apply Qfloor_resp_le. }
    pose proof (Qfloor_le q) as Hlo. pose proof (Qlt_floor q) as Hhi.
    rewrite inject_Z_plus in Hhi. change (inject_Z 1) with 1 in Hhi.
    split.
    + intros i Hi. assert (Hle : (i <= Z.to_nat (Qfloor q))%nat) by lia.
      apply ofNat_le in Hle. rewrite ofNat_to_nat in Hle by exact Hk.
      pose proof (ofNat_nonneg i). nra.
    + rewrite ofNat_S, ofNat_to_nat by exact Hk. nra.
Qed.

(** C11: termination and contents of [ticks] for a positive step: any fuel
    above [tick_count] yields the same list, the ticks of [min],
    [min + step], ..., [min + (tick_count - 1) step]. *)
Theorem ticks_terminates (fuel : nat) (min max step : Q) :
  0 < step -> (tick_count min max step < fuel)%nat ->
  ticks fuel min max step =
  Some (map (fun i => tickValue (min + ofNat i * step)) (seq 0 (tick_count min max step))).
Proof.
  intros Hs Hf. destruct (tick_count_bounds min max step Hs) as [Hin Hout].
  unfold ticks. now rewrite (ticks_loop_exact max step _ fuel min [] Hf Hin Hout).
Qed.

Lemma ticks_terminates_witness :
  ticks 10 0 4 1 = Some (map (fun i => tickValue (0 + ofNat i * 1)) (seq 0 (tick_count 0 4 1))).
Proof. apply (ticks_terminates 10 0 4 1); [reflexivity | vm_compute; lia]. Defined.

(** C27: with a step that is not positive and a first value within the bound,
    [ticks] does not return, whatever the fuel. *)
Theorem ticks_diverges (fuel : nat) (min max step : Q) :
  step <= 0 -> min <= max + eps -> ticks fuel min max step = None.
Proof. intros Hs Hm. now apply ticks_loop_diverges. Qed.

Lemma ticks_diverges_witness : ticks 1000 0 4 0 = None.
Proof. apply (ticks_diverges 1000 0 4 0); [apply Qle_refl | discriminate]. Defined.

(** C26: [ticks(0, 4, 0.5)] and [ticks(0, 9, 1)] end within [ticks_fuel];
    the first is [0, 0.5, ..., 4], nine values, the second [0, 1, ..., 9],
    ten values. *)
Theorem axis_ticks_exact :
  ticks ticks_fuel xMin xMax (1 # 2) <> None /\
  Forall2 Qeq xTicks [0; 1 # 2; 1; 3 # 2; 2; 5 # 2; 3; 7 # 2; 4] /\
  ticks ticks_fuel yMin yMax 1 <> None /\
  Forall2 Qeq yTicks [0; 1; 2; 3; 4; 5; 6; 7; 8; 9].
Proof.
  split; [vm_compute; discriminate|]. split; [vm_compute; repeat constructor|].
  split; [vm_compute; discriminate|]. vm_compute. repeat constructor.
Qed.

(** ** Binary64 semantics *)

(** In doubles the two axes get the same ticks, each the double nearest to
    its exact value, and they print as the labels of the axes. *)
Theorem axis_ticks_binary64 :
  xTicks (num := float) = map lit [0; 1 # 2; 1; 3 # 2; 2; 5 # 2; 3; 7 # 2; 4] /\
  yTicks (num := float) = map lit [0; 1; 2; 3; 4; 5; 6; 7; 8; 9] /\
  map toStr (xTicks (num := float)) =
    ["0"; "0.5"; "1"; "1.5"; "2"; "2.5"; "3"; "3.5"; "4"]%string /\
  map toStr (yTicks (num := float)) =
    ["0"; "1"; "2"; "3"; "4"; "5"; "6"; "7"; "8"; "9"]%string.
Proof. vm_compute. repeat split. Qed.

(** In doubles [1 + 1e-17] is [1]: [ticks(1, 2, 1e-17)] has a positive
    step and a range of length one, and never returns. *)
Lemma ticks_stalls_witness :
  ticks (num := float) 1000 (lit 1) (lit 2) (lit (1 # 10 ^ 17)) = None.
Proof.
  apply (ticks_stalls (num := float) 1000 (lit 1) (lit 2) (lit (1 # 10 ^ 17)));
    vm_compute; reflexivity.
Defined.

(** The step is positive all the same. *)
Example absorbed_step_positive :
  (lit 0 <? lit (1 # 10 ^ 17))%js = true /\
  toStr (lit (num := float) (1 # 10 ^ 17)) = "1e-17"%string.
Proof. vm_compute. split; reflexivity. Qed.

(** Three steps of one tenth, as the loop accumulates them in doubles. *)
Definition threeTenths : float :=
  (lit 0 + lit (1 # 10) + lit (1 # 10) + lit (1 # 10))%js.

(** What the tolerance and the trip through [toFixed(6)] are for: in
    doubles three steps of [0.1] overshoot [0.3].  Without the tolerance
    the loop would stop before the last tick; without the trip the tick
    would be labelled [0.30000000000000004].  With both, [ticks(0, 0.3, 0.1)]
    is the four doubles nearest to [0], [0.1], [0.2] and [0.3]. *)
Example ticks_absorb_rounding :
  toStr threeTenths = "0.30000000000000004"%string /\
  (threeTenths <=? lit (3 # 10))%js = false /\
  (threeTenths <=? lit (3 # 10) + lit eps)%js = true /\
  tickValue threeTenths = lit (3 # 10) /\
  ticks ticks_fuel (lit 0) (lit (3 # 10)) (lit (1 # 10)) =
    Some (map lit [0; 1 # 10; 2 # 10; 3 # 10]) /\
  ticks ticks_fuel (lit 0) (lit 1) (lit (1 # 10)) =
    Some (map (fun i => lit (inject_Z (Z.of_nat i) / 10)) (seq 0 11)).
Proof. vm_compute. repeat split. Qed.
