(* ===== verification/Color.v ===== *)
(** * Color: the colours of the applet

    The colour constants and [interpolateColor] of App.svelte (part_000
    lines 116-134).  [colorChannels] is the three [const] lines of
    [interpolateColor]; the function itself adds the template literal.  On
    the exact instance: the end points of the ramp are the two colours of
    the comment, every channel of a ratio in [0, 1] lies between its end
    points (hence in [0, 255]) and within one half of the linear
    interpolation, and the ramp is monotone in each channel. *)

From Stdlib Require Import String ZArith QArith Qround Qabs Lia Lqa.
From S2P Require Import Prelude Decimal JSNumber Exact.

Section Color.
Context {num : Type} `{JSNumber num}.
#[local] Open Scope js_scope.
#[local] Open Scope string_scope.

(** [const COLOR_FUNC = '#005A94';] and the three that follow. *)
Definition COLOR_FUNC : string := "#005A94".
Definition COLOR_SEK : string := "#E60000".
Definition COLOR_TAN : string := "#27ae60".
Definition COLOR_POINT : string := "#e87846".

(** [const r = Math.round(0x27 + t * (0xc0 - 0x27));
     const g = Math.round(0xae + t * (0x39 - 0xae));
     const b = Math.round(0x60 + t * (0x2b - 0x60));] *)
Definition colorChannels (t : num) : num * num * num :=
  let r := nround (lit (0x27 # 1) + t * (lit (0xc0 # 1) - lit (0x27 # 1))) in
  let g := nround (lit (0xae # 1) + t * (lit (0x39 # 1) - lit (0xae # 1))) in
  let b := nround (lit (0x60 # 1) + t * (lit (0x2b # 1) - lit (0x60 # 1))) in
  (r, g, b).

(** [function interpolateColor(t) { ...; return `rgb(${r},${g},${b})`; }] *)
Definition interpolateColor (t : num) : string :=
  let '(r, g, b) := colorChannels t in
  "rgb(" ++ toStr r ++ "," ++ toStr g ++ "," ++ toStr b ++ ")".

(** The components of a colour. *)
Definition chR (c : num * num * num) : num := fst (fst c).
Definition chG (c : num * num * num) : num := snd (fst c).
Definition chB (c : num * num * num) : num := snd c.

End Color.

(** ** Exact semantics *)

#[local] Open Scope Q_scope.

(** The channels as integers: the ramp from (39, 174, 96) to (192, 57, 43). *)
Definition red (t : Q) : Z := roundHalfUp (39 + t * 153).
Definition green (t : Q) : Z := roundHalfUp (174 - t * 117).
Definition blue (t : Q) : Z := roundHalfUp (96 - t * 53).

Lemma colorChannels_exact (t : Q) :
  colorChannels t = (inject_Z (red t), inject_Z (green t), inject_Z (blue t)).
Proof.
  assert (E : forall a b, a == b -> inject_Z (roundHalfUp a) = inject_Z (roundHalfUp b))
    by (intros a b Hab; now rewrite Hab).
  unfold colorChannels, red, green, blue. js_exact.
  f_equal; [f_equal|]; apply E; ring.
Qed.

#[export] Instance colorChannels_Proper : Proper (Qeq ==> eq) (colorChannels (num := Q)).
Proof.
  intros x y E. rewrite !colorChannels_exact. unfold red, green, blue. now rewrite E.
Qed.

#[export] Instance interpolateColor_Proper :
  Proper (Qeq ==> eq) (interpolateColor (num := Q)).
Proof. intros x y E. unfold interpolateColor. now rewrite E. Qed.

(** The ramp starts at the green [#27ae60] and ends at the red [#c0392b]. *)
Theorem interpolateColor_endpoints :
  interpolateColor 0 = "rgb(39,174,96)"%string /\
  interpolateColor 1 = "rgb(192,57,43)"%string.
Proof. split; vm_compute; reflexivity. Qed.

(** Rounding a value between two integers stays between them. *)
Lemma roundHalfUp_between (lo hi : Z) (x : Q) :
  inject_Z lo <= x <= inject_Z hi -> (lo <= roundHalfUp x <= hi)%Z.
Proof.
  intros [H1 H2]. rewrite <- (roundHalfUp_Z lo), <- (roundHalfUp_Z hi).
  split; now apply roundHalfUp_mono.
Qed.

Lemma red_exact (t : Q) : chR (colorChannels t) = inject_Z (red t).
Proof. now rewrite colorChannels_exact. Qed.

Lemma green_exact (t : Q) : chG (colorChannels t) = inject_Z (green t).
Proof. now rewrite colorChannels_exact. Qed.

Lemma blue_exact (t : Q) : chB (colorChannels t) = inject_Z (blue t).
Proof. now rewrite colorChannels_exact. Qed.

Ltac color_exact := rewrite ?red_exact, ?green_exact, ?blue_exact in *.

Lemma red_mono (s t : Q) : s <= t -> (red s <= red t)%Z.
Proof. intros H. unfold red. apply roundHalfUp_mono. lra. Qed.

Lemma green_anti (s t : Q) : s <= t -> (green t <= green s)%Z.
Proof. intros H. unfold green. apply roundHalfUp_mono. lra. Qed.

Lemma blue_anti (s t : Q) : s <= t -> (blue t <= blue s)%Z.
Proof. intros H. unfold blue. apply roundHalfUp_mono. lra. Qed.

(** C25: for a ratio in [0, 1] every channel is an integer between its two end
    values, so it is a valid colour component. *)
Theorem channels_in_range (t : Q) :
  0 <= t <= 1 ->
  39 <= chR (colorChannels t) <= 192 /\
  57 <= chG (colorChannels t) <= 174 /\
  43 <= chB (colorChannels t) <= 96.
Proof.
  intros Ht. color_exact.
  change 39 with (inject_Z (red 0)). change 192 with (inject_Z (red 1)).
  change 57 with (inject_Z (green 1)). change 174 with (inject_Z (green 0)).
  change 43 with (inject_Z (blue 1)). change 96 with (inject_Z (blue 0)).
  rewrite <- !Zle_Qle.
  repeat split;
    [apply red_mono | apply red_mono | apply green_anti | apply green_anti
    | apply blue_anti | apply blue_anti]; lra.
Qed.

Lemma channels_in_range_witness :
  39 <= chR (colorChannels (1 # 2)) <= 192 /\
  57 <= chG (colorChannels (1 # 2)) <= 174 /\
  43 <= chB (colorChannels (1 # 2)) <= 96.
Proof. apply (channels_in_range (1 # 2)). split; discriminate. Defined.

(** A larger ratio is redder: red does not decrease, green and blue do not
    increase. *)
Theorem channels_monotone (s t : Q) :
  s <= t ->
  chR (colorChannels s) <= chR (colorChannels t) /\
  chG (colorChannels t) <= chG (colorChannels s) /\
  chB (colorChannels t) <= chB (colorChannels s).
Proof.
  intros Hst. color_exact. rewrite <- !Zle_Qle.
  repeat split; [apply red_mono | apply green_anti | apply blue_anti]; exact Hst.
Qed.

Lemma channels_monotone_witness :
  chR (colorChannels 0) <= chR (colorChannels 1) /\
  chG (colorChannels 1) <= chG (colorChannels 0) /\
  chB (colorChannels 1) <= chB (colorChannels 0).
Proof. apply (channels_monotone 0 1). discriminate. Defined.

(** Each channel is within one half of the linear interpolation between
    the two colours. *)
Theorem channels_nearest (t : Q) :
  Qabs (chR (colorChannels t) - (39 + t * 153)) <= 1 # 2 /\
  Qabs (chG (colorChannels t) - (174 - t * 117)) <= 1 # 2 /\
  Qabs (chB (colorChannels t) - (96 - t * 53)) <= 1 # 2.
Proof.
  color_exact. unfold red, green, blue.
  split; [|split]; apply Qabs_Qle_condition;
    match goal with |- context [roundHalfUp ?x] => pose proof (roundHalfUp_bounds x) end;
    lra.
Qed.
