(* ===== verification/Style.v ===== *)
(** * Style: the style sheet

    The [<style>] block of App.svelte (part_000 lines 361-587) as a list of
    rules in source order.  A rule has a group of selectors and a list of
    declarations; a selector is a chain of compound selectors joined by
    the descendant combinator; a declared value is a list of parts, so that
    a reference [var(--name)] to a design token stays a reference.

    The operations are those of the cascade (CSS Cascading and Inheritance,
    section 6): [matchSelector] decides whether a selector selects an
    element given its ancestors, [specificity] orders the selectors,
    [cascaded] picks among the declarations of a property the one of the
    most specific selector, the last one on a tie, and [resolve] replaces
    the references to tokens.  Inheritance and the scoping class that
    Svelte adds to every selector are not modelled: the theorems speak of
    the value the style sheet specifies on an element of this component.

    Theorems: every reference to a token resolves; the tokens are
    literals; [matchAncestors] is monotone in the ancestors. *)

From Stdlib Require Import List String Bool Arith Lia.
From S2P Require Import Prelude.
Import ListNotations.

#[local] Open Scope string_scope.

(** ** Syntax *)

(** A part of a declared value: text, or [var(--name)]. *)
Inductive Part : Type :=
  | Lit (s : string)
  | Var (name : string).

Definition Value : Type := list Part.

(** The pseudo-class or pseudo-element of a compound selector. *)
Inductive Pseudo : Type :=
  | Plain
  | Root
  | Hover
  | LastChild
  | Before
  | After.

(** A compound selector: [tag.class[attr=value]:pseudo], each part
    optional; all absent is the universal selector. *)
Record Compound : Type := mkCompound {
  c_tag : option string;
  c_class : option string;
  c_attr : option (string * string);
  c_pseudo : Pseudo
}.

(** A chain of compounds joined by the descendant combinator, the
    outermost first. *)
Definition Selector : Type := list Compound.

Record Rule : Type := mkRule {
  selectors : list Selector;
  declarations : list (string * Value)
}.

Definition anyElem : Compound := mkCompound None None None Plain.
Definition byTag (t : string) : Compound := mkCompound (Some t) None None Plain.
Definition byClass (c : string) : Compound := mkCompound None (Some c) None Plain.
Definition txt (s : string) : Value := [Lit s].
Definition ref (name : string) : Value := [Var name].

(** A rule with one selector. *)
Definition rule (s : Selector) (ds : list (string * Value)) : Rule := mkRule [s] ds.

(** ** The style sheet *)

(** [:root { --bg: ...; ... }]: the design tokens. *)
Definition rootRule : Rule :=
  rule [mkCompound None None None Root]
    [ ("--bg", txt "#fafaf7"); ("--surface", txt "#ffffff"); ("--border", txt "#ddddd0");
      ("--text", txt "#1c1c1a"); ("--muted", txt "#666660"); ("--radius", txt "10px");
      ("--shadow", txt "0 3px 16px rgba(0,0,0,.09)");
      ("--font-body", txt "'Georgia', 'Times New Roman', serif");
      ("--font-ui", txt "'Helvetica Neue', Helvetica, Arial, sans-serif") ].

(** Reset, container, heading and the wrapper of the chart. *)
Definition pageRules : list Rule :=
  [ mkRule [[anyElem]; [mkCompound None None None Before]; [mkCompound None None None After]]
      [("box-sizing", txt "border-box"); ("margin", txt "0"); ("padding", txt "0")];
    rule [byClass "applet"]
      [ ("font-family", ref "--font-body"); ("color", ref "--text");
        ("background", ref "--surface");
        ("border", [Lit "1px solid "; Var "--border"]);
        ("border-radius", ref "--radius"); ("box-shadow", ref "--shadow");
        ("overflow", txt "hidden"); ("max-width", txt "680px"); ("margin", txt "0 auto") ];
    rule [byTag "header"]
      [ ("padding", txt "20px 24px 16px");
        ("border-bottom", [Lit "1px solid "; Var "--border"]);
        ("background", txt "#f3f4f6") ];
    rule [byTag "header"; byTag "h1"]
      [ ("font-size", txt "1.1rem"); ("font-weight", txt "normal");
        ("letter-spacing", txt ".02em") ];
    rule [byTag "header"; byTag "p"]
      [ ("margin-top", txt "5px"); ("font-size", txt ".82rem");
        ("font-family", ref "--font-ui"); ("color", ref "--muted");
        ("line-height", txt "1.5") ];
    rule [byClass "chart-wrap"]
      [ ("padding", txt "16px 20px 0"); ("background", ref "--surface") ];
    rule [byClass "chart-wrap"; byTag "svg"]
      [ ("width", txt "100%"); ("height", txt "auto"); ("display", txt "block") ] ].

(** The rules for the elements of the chart. *)
Definition svgRules : list Rule :=
  [ rule [byClass "grid-line"] [("stroke", txt "#e8e8e0"); ("stroke-width", txt "1")];
    rule [byClass "axis"] [("stroke", txt "#aaa"); ("stroke-width", txt "1.5")];
    rule [byClass "tick-label"]
      [("font-family", ref "--font-ui"); ("font-size", txt "11px"); ("fill", ref "--muted")];
    rule [byClass "axis-title"]
      [ ("font-family", ref "--font-ui"); ("font-size", txt "12px");
        ("fill", ref "--muted"); ("font-style", txt "italic") ];
    rule [byClass "delta-label"]
      [ ("font-family", ref "--font-ui"); ("font-size", txt "11px");
        ("fill", txt "#e60000"); ("font-weight", txt "600") ];
    rule [byClass "point-label"]
      [("font-family", ref "--font-ui"); ("font-size", txt "11px"); ("fill", txt "#8e44ad")];
    rule [byClass "legend-text"]
      [ ("font-family", ref "--font-ui"); ("font-size", txt "11px");
        ("fill", ref "--text"); ("dominant-baseline", txt "middle") ];
    rule [byClass "line-func"]
      [ ("fill", txt "none"); ("stroke", txt "#1a5276"); ("stroke-width", txt "2.5");
        ("stroke-linejoin", txt "round") ];
    rule [byClass "line-sekante"]
      [ ("fill", txt "none"); ("stroke", txt "#c0392b"); ("stroke-width", txt "2");
        ("stroke-linejoin", txt "round"); ("transition", txt "stroke 0.2s") ];
    rule [byClass "line-tangente"]
      [ ("fill", txt "none"); ("stroke", txt "#27ae60"); ("stroke-width", txt "1.8");
        ("stroke-dasharray", txt "7 4"); ("stroke-linejoin", txt "round") ] ].

(** The slider, the preset buttons and the info tiles. *)
Definition controlRules : list Rule :=
  [ rule [byClass "controls"]
      [ ("padding", txt "16px 24px 14px"); ("display", txt "flex");
        ("flex-direction", txt "column"); ("gap", txt "10px");
        ("border-top", [Lit "1px solid "; Var "--border"]) ];
    rule [byClass "slider-row"]
      [ ("display", txt "flex"); ("align-items", txt "center"); ("gap", txt "12px");
        ("font-family", ref "--font-ui"); ("font-size", txt ".85rem") ];
    rule [byClass "slider-row"; byTag "label"]
      [("min-width", txt "24px"); ("color", ref "--muted"); ("font-style", txt "italic")];
    rule [byClass "slider-row"; mkCompound (Some "input") None (Some ("type", "range")) Plain]
      [ ("flex", txt "1"); ("accent-color", txt "#c0392b"); ("cursor", txt "pointer");
        ("height", txt "6px") ];
    rule [byClass "dx-value"]
      [ ("min-width", txt "40px"); ("font-weight", txt "700"); ("font-size", txt ".95rem");
        ("text-align", txt "right"); ("font-variant-numeric", txt "tabular-nums");
        ("color", txt "#c0392b") ];
    rule [byClass "presets"]
      [ ("display", txt "flex"); ("align-items", txt "center"); ("gap", txt "8px");
        ("flex-wrap", txt "wrap") ];
    rule [byClass "preset-label"]
      [ ("font-family", ref "--font-ui"); ("font-size", txt ".78rem");
        ("color", ref "--muted"); ("margin-right", txt "2px") ];
    rule [byTag "button"]
      [ ("font-family", ref "--font-ui"); ("font-size", txt ".8rem");
        ("padding", txt "3px 10px"); ("border", [Lit "1px solid "; Var "--border"]);
        ("border-radius", txt "4px"); ("background", ref "--bg");
        ("cursor", txt "pointer"); ("color", ref "--text");
        ("transition", txt "background .15s, border-color .15s") ];
    rule [mkCompound (Some "button") None None Hover]
      [("background", txt "#f0ede0"); ("border-color", txt "#bbb")];
    rule [mkCompound (Some "button") (Some "active") None Plain]
      [("background", txt "#c0392b"); ("color", txt "white"); ("border-color", txt "#c0392b")];
    rule [byClass "info-bar"]
      [ ("display", txt "flex"); ("border-top", [Lit "1px solid "; Var "--border"]);
        ("background", txt "#f3f4f6") ];
    rule [byClass "info-tile"]
      [ ("flex", txt "1"); ("padding", txt "12px 16px"); ("display", txt "flex");
        ("flex-direction", txt "column"); ("gap", txt "2px");
        ("border-right", [Lit "1px solid "; Var "--border"]) ];
    rule [mkCompound None (Some "info-tile") None LastChild] [("border-right", txt "none")];
    rule [byClass "info-label"]
      [ ("font-family", ref "--font-ui"); ("font-size", txt ".7rem");
        ("text-transform", txt "uppercase"); ("letter-spacing", txt ".05em");
        ("color", ref "--muted") ];
    rule [byClass "info-value"]
      [ ("font-family", ref "--font-ui"); ("font-size", txt "1.15rem");
        ("font-weight", txt "700"); ("font-variant-numeric", txt "tabular-nums") ] ].

Definition styleSheet : list Rule := rootRule :: pageRules ++ svgRules ++ controlRules.

(** The design tokens. *)
Definition tokens : list (string * Value) := declarations rootRule.

(** ** Elements *)

(** What a selector can see of an element. *)
Record Elem : Type := mkElem {
  e_tag : string;
  e_classes : list string;
  e_attrs : list (string * string);
  e_root : bool;       (* the root of the document *)
  e_hover : bool;      (* the pointer is over it *)
  e_last : bool        (* the last element among its siblings *)
}.

Definition optMatches {A : Type} (want : option A) (have : A -> bool) : bool :=
  match want with
  | None => true
  | Some a => have a
  end.

Definition hasAttr (e : Elem) (kv : string * string) : bool :=
  existsb (fun a => String.eqb (fst a) (fst kv) && String.eqb (snd a) (snd kv)) (e_attrs e).

Definition matchPseudo (p : Pseudo) (e : Elem) : bool :=
  match p with
  | Plain => true
  | Root => e_root e
  | Hover => e_hover e
  | LastChild => e_last e
  | Before | After => false     (* a generated box, never an element *)
  end.

Definition matchCompound (c : Compound) (e : Elem) : bool :=
  optMatches (c_tag c) (String.eqb (e_tag e)) &&
  optMatches (c_class c) (fun k => existsb (String.eqb k) (e_classes e)) &&
  optMatches (c_attr c) (hasAttr e) &&
  matchPseudo (c_pseudo c) e.

(** The compounds [cs], nearest first, are matched by ancestors in that
    order; [ancestors] lists the parent first. *)
Fixpoint matchAncestors (cs : list Compound) (ancestors : list Elem) : bool :=
  match cs with
  | [] => true
  | c :: cs' =>
      match ancestors with
      | [] => false
      | a :: rest =>
          if matchCompound c a then matchAncestors cs' rest else matchAncestors cs rest
      end
  end.

(** Does the selector select element [e] under [ancestors]? *)
Definition matchSelector (s : Selector) (ancestors : list Elem) (e : Elem) : bool :=
  match rev s with
  | [] => false
  | c :: outer => matchCompound c e && matchAncestors outer ancestors
  end.

(** ** The cascade *)

(** The specificity of a selector: the number of classes, attribute
    selectors and pseudo-classes, then the number of type selectors and
    pseudo-elements.  (The style sheet has no id selector.) *)
Definition count {A : Type} (o : option A) : nat :=
  match o with Some _ => 1 | None => 0 end.

Definition compoundSpecificity (c : Compound) : nat * nat :=
  let b := (count (c_class c) + count (c_attr c))%nat in
  match c_pseudo c with
  | Plain => (b, count (c_tag c))
  | Root | Hover | LastChild => (S b, count (c_tag c))
  | Before | After => (b, S (count (c_tag c)))
  end.

Definition specificity (s : Selector) : nat * nat :=
  fold_right (fun c acc => (fst (compoundSpecificity c) + fst acc,
                            snd (compoundSpecificity c) + snd acc)%nat) (0, 0)%nat s.

(** [a] is at least as specific as [b]. *)
Definition specGeb (a b : nat * nat) : bool :=
  ((fst b <? fst a) || ((fst a =? fst b) && (snd b <=? snd a)))%nat.

(** The last value a list of declarations gives a property. *)
Fixpoint lastValue (prop : string) (ds : list (string * Value)) : option Value :=
  match ds with
  | [] => None
  | (p, v) :: ds' =>
      match lastValue prop ds' with
      | Some v' => Some v'
      | None => if String.eqb p prop then Some v else None
      end
  end.

(** The declarations of [prop] that apply to the element, each with the
    specificity of the selector that brought it, in source order. *)
Definition candidates (sheet : list Rule) (prop : string) (ancestors : list Elem) (e : Elem)
  : list (nat * nat * Value) :=
  flat_map (fun r =>
    match lastValue prop (declarations r) with
    | None => []
    | Some v =>
        map (fun s => (specificity s, v))
            (filter (fun s => matchSelector s ancestors e) (selectors r))
    end) sheet.

(** The winner: the most specific, the later one on a tie. *)
Definition winner (cands : list (nat * nat * Value)) : option (nat * nat * Value) :=
  fold_left (fun best c =>
               match best with
               | None => Some c
               | Some b => if specGeb (fst c) (fst b) then Some c else Some b
               end) cands None.

(** The value the style sheet gives [prop] on the element, if any. *)
Definition cascaded (prop : string) (ancestors : list Elem) (e : Elem) : option Value :=
  option_map snd (winner (candidates styleSheet prop ancestors e)).

(** ** Design tokens *)

Fixpoint lookup (name : string) (env : list (string * Value)) : option Value :=
  match env with
  | [] => None
  | (n, v) :: env' => if String.eqb n name then Some v else lookup name env'
  end.

(** The text of a value whose references have been replaced. *)
Definition literal (v : Value) : option string :=
  fold_right (fun p acc =>
                match p, acc with
                | Lit s, Some t => Some (s ++ t)
                | _, _ => None
                end) (Some "") v.

(** [var(--name)] is replaced by the token's value; a reference to a
    token that is not declared makes the declaration invalid. *)
Definition resolve (v : Value) : option string :=
  fold_right (fun p acc =>
                match acc with
                | None => None
                | Some t =>
                    match p with
                    | Lit s => Some (s ++ t)
                    | Var name =>
                        match option_map literal (lookup name tokens) with
                        | Some (Some s) => Some (s ++ t)
                        | _ => None
                        end
                    end
                end) (Some "") v.

(** The resolved value of [prop] on the element. *)
Definition specified (prop : string) (ancestors : list Elem) (e : Elem) : option string :=
  match cascaded prop ancestors e with
  | Some v => resolve v
  | None => None
  end.

(** The references of a value, and of the whole sheet. *)
Definition references (v : Value) : list string :=
  flat_map (fun p => match p with Var n => [n] | Lit _ => [] end) v.

Definition allValues (sheet : list Rule) : list Value :=
  flat_map (fun r => map snd (declarations r)) sheet.

(** ** Properties *)

Lemma resolve_references (v : Value) :
  Forall (fun n => exists s, option_map literal (lookup n tokens) = Some (Some s)) (references v) ->
  exists s, resolve v = Some s.
Proof.
  induction v as [|p v IH]; intros H; [now exists ""|].
  destruct p as [s | n]; cbn [references flat_map app] in H.
  - destruct (IH H) as (t & E). exists (s ++ t).
    unfold resolve in *. cbn [fold_right]. now rewrite E.
  - inversion H as [|? ? (s & Hs) Hrest]; subst.
    destruct (IH Hrest) as (t & E). exists (s ++ t).
    unfold resolve in *. cbn [fold_right]. now rewrite E, Hs.
Qed.

(** Every token is a literal: no token refers to another. *)
Lemma tokens_literal : Forall (fun t => references (snd t) = []) tokens.
Proof. repeat constructor. Qed.

(** Every reference in the style sheet names a declared token. *)
Lemma references_declared :
  Forall (fun n => exists s, option_map literal (lookup n tokens) = Some (Some s))
         (flat_map references (allValues styleSheet)).
Proof. cbv [styleSheet]. repeat (constructor; [eexists; reflexivity|]). constructor. Qed.

(** C31: no declaration of the style sheet is invalid for want of a token:
    every declared value resolves to a text. *)
Theorem tokens_resolve (v : Value) :
  In v (allValues styleSheet) -> exists s, resolve v = Some s.
Proof.
  intros Hv. apply resolve_references.
  pose proof references_declared as H. rewrite Forall_forall in *.
  intros n Hn. apply H, in_flat_map. now exists v.
Qed.

Lemma tokens_resolve_witness : exists s, resolve [Lit "1px solid "; Var "--border"] = Some s.
Proof. apply (tokens_resolve [Lit "1px solid "; Var "--border"]). cbn. auto 20. Defined.

(** A match survives dropping the nearest requirement and adding a nearer
    ancestor. *)
Lemma matchAncestors_mono (ancestors : list Elem) (cs : list Compound) :
  (forall c, matchAncestors (c :: cs) ancestors = true -> matchAncestors cs ancestors = true) /\
  (forall a, matchAncestors cs ancestors = true -> matchAncestors cs (a :: ancestors) = true).
Proof.
  revert cs. induction ancestors as [|b rest IH]; intros cs.
  - split; [discriminate|]. destruct cs; [reflexivity | discriminate].
  - assert (D : forall cs c, matchAncestors (c :: cs) (b :: rest) = true ->
                             matchAncestors cs (b :: rest) = true).
    { intros cs' c H. cbn [matchAncestors] in H. destruct (matchCompound c b).
      - now apply IH.
      - apply IH. now apply (proj1 (IH cs') c). }
    split; [apply D|]. intros a H. destruct cs as [|c cs']; [reflexivity|].
    change (matchAncestors (c :: cs') (a :: b :: rest))
      with (if matchCompound c a then matchAncestors cs' (b :: rest)
            else matchAncestors (c :: cs') (b :: rest)).
    destruct (matchCompound c a); [now apply (D cs' c) | exact H].
Qed.

(** More ancestors never lose a match. *)
Lemma matchAncestors_cons (cs : list Compound) (a : Elem) (ancestors : list Elem) :
  matchAncestors cs ancestors = true -> matchAncestors cs (a :: ancestors) = true.
Proof. apply matchAncestors_mono. Qed.

Example resolve_examples :
  resolve [Lit "1px solid "; Var "--border"] = Some "1px solid #ddddd0" /\
  resolve (ref "--muted") = Some "#666660" /\
  resolve (ref "--no-such-token") = None /\
  resolve (txt "none") = Some "none".
Proof. vm_compute. repeat split. Qed.

Example specificity_examples :
  specificity [byTag "button"] = (0, 1)%nat /\
  specificity [mkCompound (Some "button") (Some "active") None Plain] = (1, 1)%nat /\
  specificity [mkCompound (Some "button") None None Hover] = (1, 1)%nat /\
  specificity [byClass "slider-row"; mkCompound (Some "input") None (Some ("type", "range")) Plain]
    = (2, 1)%nat /\
  specificity [byTag "header"; byTag "h1"] = (0, 2)%nat.
Proof. vm_compute. repeat split. Qed.
