(* ===== verification/Reactive.v ===== *)
(** * Reactive: the state and the reactive declarations

    The two state variables of App.svelte, the slider constants and every
    [$:] declaration (part_000 lines 32-38, 74-104, 125-126, 136-139), each
    as a function of the state; [recompute] evaluates them in source order
    into the record [Derived], which is what the template reads.

    On the exact instance, for a step [deltaX <> 0]: the secant slope is
    [2 x0 - 2 + deltaX], so the approximation error is [|deltaX|]; the
    secant passes through both marked points, the tangent touches the curve
    at the first; the curve lies below the secant between the two points
    and above it elsewhere; the error ratio is [min 1 (|deltaX| / 3)].
    The exact instance divides by zero with the convention [x / 0 = 0]; the
    theorems therefore carry the hypothesis [deltaX <> 0], which [Widget]
    discharges for every reachable state. *)

From Stdlib Require Import List String ZArith QArith Qround Qabs Qminmax Lia Lqa Floats.
From S2P Require Import Prelude Decimal JSNumber Exact Binary64.
From S2P Require Import MathModel Mapper Sampler Color.
Import ListNotations.

Section Reactive.
Context {num : Type} `{JSNumber num}.
#[local] Open Scope js_scope.

(** [let deltaX = 1.5;  let x0 = 2.0;] *)
Record State : Type := mkState {
  deltaX : num;
  x0 : num
}.

Definition init : State := {| deltaX := lit (3 # 2); x0 := lit 2 |}.

(** [const DX_MIN = 0.01;  const DX_MAX = 2.0;  const DX_STEP = 0.01;] *)
Definition DX_MIN : num := lit (1 # 100).
Definition DX_MAX : num := lit 2.
Definition DX_STEP : num := lit (1 # 100).

(** [$: slope_sek = (f(x0 + deltaX) - f(x0)) / deltaX;] *)
Definition slope_sek (st : State) : num :=
  (f (x0 st + deltaX st) - f (x0 st)) / deltaX st.

(** [$: slope_tan = df(x0);] *)
Definition slope_tan (st : State) : num := df (x0 st).

(** [$: slopeDisplay = slope_sek.toFixed(4);] *)
Definition slopeDisplay (st : State) : string := toFixed (slope_sek st) 4.

(** [$: errorDisplay = Math.abs(slope_sek - slope_tan).toFixed(4);] *)
Definition errorDisplay (st : State) : string :=
  toFixed (nabs (slope_sek st - slope_tan st)) 4.

(** [$: funcPoints = makeLine(xs, f);] *)
Definition funcPoints (st : State) : string := makeLine xs f.

(** The arrow function [x => f(x0) + slope_sek * (x - x0)]. *)
Definition sekante (st : State) (x : num) : num :=
  f (x0 st) + slope_sek st * (x - x0 st).

(** [$: sekantePoints = makeLine(xs, x => f(x0) + slope_sek * (x - x0));] *)
Definition sekantePoints (st : State) : string := makeLine xs (sekante st).

(** The arrow function [x => f(x0) + slope_tan * (x - x0)]. *)
Definition tangente (st : State) (x : num) : num :=
  f (x0 st) + slope_tan st * (x - x0 st).

(** [$: tangentePoints = makeLine(xs, x => f(x0) + slope_tan * (x - x0));] *)
Definition tangentePoints (st : State) : string := makeLine xs (tangente st).

(** An object [{ x: ..., y: ... }]; the fields are [px] and [py] here
    because [x] and [y] name variables throughout. *)
Record Point : Type := mkPoint {
  px : num;
  py : num
}.

(** [$: px0 = { x: toSvgX(x0), y: toSvgY(f(x0)) };] *)
Definition px0 (st : State) : Point :=
  {| px := toSvgX (x0 st); py := toSvgY (f (x0 st)) |}.

(** [$: px1 = { x: toSvgX(x0 + deltaX), y: toSvgY(f(x0 + deltaX)) };] *)
Definition px1 (st : State) : Point :=
  {| px := toSvgX (x0 st + deltaX st); py := toSvgY (f (x0 st + deltaX st)) |}.

(** [$: errorRatio = Math.min(1, Math.abs(slope_sek - slope_tan) / 3);] *)
Definition errorRatio (st : State) : num :=
  nmin (lit 1) (nabs (slope_sek st - slope_tan st) / lit 3).

(** [$: errorColor = interpolateColor(errorRatio);] *)
Definition errorColor (st : State) : string := interpolateColor (errorRatio st).

(** The reactive variables of the component. *)
Record Derived : Type := mkDerived {
  d_slope_sek : num;
  d_slope_tan : num;
  d_slopeDisplay : string;
  d_errorDisplay : string;
  d_funcPoints : string;
  d_sekantePoints : string;
  d_tangentePoints : string;
  d_px0 : Point;
  d_px1 : Point;
  d_errorRatio : num;
  d_errorColor : string
}.

(** One run of all reactive declarations, in the order of the source;
    each declaration reads the variables assigned before it. *)
Definition recompute (st : State) : Derived :=
  let slope_sek := (f (x0 st + deltaX st) - f (x0 st)) / deltaX st in
  let slope_tan := df (x0 st) in
  let slopeDisplay := toFixed slope_sek 4 in
  let errorDisplay := toFixed (nabs (slope_sek - slope_tan)) 4 in
  let funcPoints := makeLine xs f in
  let sekantePoints := makeLine xs (fun x => f (x0 st) + slope_sek * (x - x0 st)) in
  let tangentePoints := makeLine xs (fun x => f (x0 st) + slope_tan * (x - x0 st)) in
  let px0 := {| px := toSvgX (x0 st); py := toSvgY (f (x0 st)) |} in
  let px1 := {| px := toSvgX (x0 st + deltaX st);
                py := toSvgY (f (x0 st + deltaX st)) |} in
  let errorRatio := nmin (lit 1) (nabs (slope_sek - slope_tan) / lit 3) in
  let errorColor := interpolateColor errorRatio in
  {| d_slope_sek := slope_sek; d_slope_tan := slope_tan;
     d_slopeDisplay := slopeDisplay; d_errorDisplay := errorDisplay;
     d_funcPoints := funcPoints; d_sekantePoints := sekantePoints;
     d_tangentePoints := tangentePoints; d_px0 := px0; d_px1 := px1;
     d_errorRatio := errorRatio; d_errorColor := errorColor |}.

(** What Svelte runs after an assignment to [deltaX]: only the
    declarations that depend on [deltaX], directly or through another
    reactive variable; the others keep the value in [d]. *)
Definition refresh_deltaX (d : Derived) (st : State) : Derived :=
  let slope_sek := (f (x0 st + deltaX st) - f (x0 st)) / deltaX st in
  let slopeDisplay := toFixed slope_sek 4 in
  let errorDisplay := toFixed (nabs (slope_sek - d_slope_tan d)) 4 in
  let sekantePoints := makeLine xs (fun x => f (x0 st) + slope_sek * (x - x0 st)) in
  let px1 := {| px := toSvgX (x0 st + deltaX st);
                py := toSvgY (f (x0 st + deltaX st)) |} in
  let errorRatio := nmin (lit 1) (nabs (slope_sek - d_slope_tan d) / lit 3) in
  let errorColor := interpolateColor errorRatio in
  {| d_slope_sek := slope_sek; d_slope_tan := d_slope_tan d;
     d_slopeDisplay := slopeDisplay; d_errorDisplay := errorDisplay;
     d_funcPoints := d_funcPoints d; d_sekantePoints := sekantePoints;
     d_tangentePoints := d_tangentePoints d; d_px0 := d_px0 d; d_px1 := px1;
     d_errorRatio := errorRatio; d_errorColor := errorColor |}.

(** ** For every instance *)

(** [recompute] is the per-variable functions put together. *)
Lemma recompute_fields (st : State) :
  recompute st =
  {| d_slope_sek := slope_sek st; d_slope_tan := slope_tan st;
     d_slopeDisplay := slopeDisplay st; d_errorDisplay := errorDisplay st;
     d_funcPoints := funcPoints st; d_sekantePoints := sekantePoints st;
     d_tangentePoints := tangentePoints st; d_px0 := px0 st; d_px1 := px1 st;
     d_errorRatio := errorRatio st; d_errorColor := errorColor st |}.
Proof. reflexivity. Qed.

(** C4: running only the declarations that depend on [deltaX] gives the same
    variables as running all of them, provided [x0] did not change since the
    variables in [d] were computed. *)
Theorem refresh_deltaX_recompute (st st' : State) :
  x0 st' = x0 st -> refresh_deltaX (recompute st) st' = recompute st'.
Proof. intros E. unfold refresh_deltaX, recompute. cbn. now rewrite E. Qed.

End Reactive.

Arguments State num : clear implicits.
Arguments Point num : clear implicits.
Arguments Derived num : clear implicits.

(** ** Exact semantics *)

#[local] Open Scope Q_scope.

Ltac reactive_unfold :=
  unfold slope_sek, slope_tan, sekante, tangente, errorRatio, px0, px1 in *;
  cbn [deltaX x0 px py] in *; js_exact.

(** The secant slope is the derivative plus the step. *)
Lemma slope_sek_exact (st : State Q) :
  ~ deltaX st == 0 -> slope_sek st == 2 * x0 st - 2 + deltaX st.
Proof.
  intros Hd. reactive_unfold. rewrite f_increment, df_exact. field. exact Hd.
Qed.

Lemma slope_tan_exact (st : State Q) : slope_tan st == 2 * x0 st - 2.
Proof. reactive_unfold. now math_exact. Qed.

(** The approximation error of the secant slope is the size of the step. *)
Lemma error_exact (st : State Q) :
  ~ deltaX st == 0 -> Qabs (slope_sek st - slope_tan st) == Qabs (deltaX st).
Proof.
  intros Hd. rewrite slope_sek_exact, slope_tan_exact by exact Hd.
  apply Qabs_wd. ring.
Qed.

(** C1: for a step that is not zero, the secant slope is the tangent slope
    plus the step, so the approximation error is the size of the step. *)
Theorem secant_slope_and_error (st : State Q) :
  ~ deltaX st == 0 ->
  slope_sek st == slope_tan st + deltaX st /\
  Qabs (slope_sek st - slope_tan st) == Qabs (deltaX st).
Proof.
  intros Hd. split; [|now apply error_exact].
  rewrite slope_sek_exact, slope_tan_exact by exact Hd. ring.
Qed.

Lemma secant_slope_and_error_witness :
  slope_sek {| deltaX := 1; x0 := 2 |} == slope_tan {| deltaX := 1; x0 := 2 |} + 1 /\
  Qabs (slope_sek {| deltaX := 1; x0 := 2 |} - slope_tan {| deltaX := 1; x0 := 2 |})
  == Qabs 1.
Proof. apply (secant_slope_and_error {| deltaX := 1; x0 := 2 |}). discriminate. Defined.

(** The secant slope converges to the tangent slope as the step shrinks:
    any tolerance is met by every non-zero step below it. *)
Theorem secant_converges (st : State Q) (tol : Q) :
  ~ deltaX st == 0 -> Qabs (deltaX st) < tol ->
  Qabs (slope_sek st - slope_tan st) < tol.
Proof. intros Hd Ht. now rewrite error_exact. Qed.

Lemma secant_converges_witness :
  Qabs (slope_sek {| deltaX := 1 # 100; x0 := 2 |}
        - slope_tan {| deltaX := 1 # 100; x0 := 2 |}) < 1 # 50.
Proof.
  apply (secant_converges {| deltaX := 1 # 100; x0 := 2 |} (1 # 50));
    [discriminate | reflexivity].
Defined.

(** A smaller positive step gives a strictly smaller error. *)
Theorem error_monotone (st st' : State Q) :
  0 < deltaX st -> deltaX st < deltaX st' ->
  Qabs (slope_sek st - slope_tan st) < Qabs (slope_sek st' - slope_tan st').
Proof.
  intros H0 Hlt. rewrite !error_exact by lra.
  rewrite !Qabs_pos by lra. exact Hlt.
Qed.

Lemma error_monotone_witness :
  Qabs (slope_sek {| deltaX := 1 # 10; x0 := 2 |} - slope_tan {| deltaX := 1 # 10; x0 := 2 |})
  < Qabs (slope_sek {| deltaX := 1; x0 := 2 |} - slope_tan {| deltaX := 1; x0 := 2 |}).
Proof.
  apply (error_monotone {| deltaX := 1 # 10; x0 := 2 |} {| deltaX := 1; x0 := 2 |});
    reflexivity.
Defined.

(** The secant as a function of [x], with the slope in closed form. *)
Lemma sekante_exact (st : State Q) (x : Q) :
  ~ deltaX st == 0 ->
  sekante st x == f (x0 st) + (2 * x0 st - 2 + deltaX st) * (x - x0 st).
Proof.
  intros Hd. unfold sekante. js_exact. now rewrite (slope_sek_exact st Hd).
Qed.

(** C33: the secant line passes through both marked points of the curve, and
    the two markers are drawn on it. *)
Theorem sekante_through_points (st : State Q) :
  ~ deltaX st == 0 ->
  sekante st (x0 st) == f (x0 st) /\
  sekante st (x0 st + deltaX st) == f (x0 st + deltaX st) /\
  py (px0 st) == toSvgY (sekante st (x0 st)) /\
  py (px1 st) == toSvgY (sekante st (x0 st + deltaX st)).
Proof.
  intros Hd.
  assert (H1 : sekante st (x0 st) == f (x0 st))
    by (rewrite sekante_exact by exact Hd; ring).
  assert (H2 : sekante st (x0 st + deltaX st) == f (x0 st + deltaX st))
    by (rewrite sekante_exact by exact Hd; math_exact; ring).
  unfold px0, px1. cbn [py]. js_exact. now rewrite H1, H2.
Qed.

Lemma sekante_through_points_witness :
  sekante {| deltaX := 1; x0 := 2 |} 2 == f 2 /\
  sekante {| deltaX := 1; x0 := 2 |} (2 + 1) == f (2 + 1) /\
  py (px0 {| deltaX := 1; x0 := 2 |}) == toSvgY (sekante {| deltaX := 1; x0 := 2 |} 2) /\
  py (px1 {| deltaX := 1; x0 := 2 |}) == toSvgY (sekante {| deltaX := 1; x0 := 2 |} (2 + 1)).
Proof. apply (sekante_through_points {| deltaX := 1; x0 := 2 |}). discriminate. Defined.

(** The gap between the curve and the secant at [x] is the product of the
    distances to the two marked abscissas. *)
Lemma sekante_gap (st : State Q) (x : Q) :
  ~ deltaX st == 0 ->
  f x - sekante st x == (x - x0 st) * (x - (x0 st + deltaX st)).
Proof.
  intros Hd. rewrite sekante_exact by exact Hd. math_exact. ring.
Qed.

(** C38: for a positive step the curve is on or below the secant exactly
    between the two marked points. *)
Theorem curve_below_sekante (st : State Q) (x : Q) :
  0 < deltaX st ->
  (f x <= sekante st x <-> x0 st <= x <= x0 st + deltaX st).
Proof.
  intros Hd. pose proof (sekante_gap st x ltac:(lra)) as Hg.
  split.
  - intros Hle. destruct (Qlt_le_dec x (x0 st)); [nra|].
    destruct (Qlt_le_dec (x0 st + deltaX st) x); [nra|]. lra.
  - intros [H1 H2]. nra.
Qed.

Lemma curve_below_sekante_witness :
  f (5 # 2) <= sekante {| deltaX := 1; x0 := 2 |} (5 # 2) <-> 2 <= 5 # 2 <= 2 + 1.
Proof. apply (curve_below_sekante {| deltaX := 1; x0 := 2 |} (5 # 2)). reflexivity. Defined.

(** The tangent touches the curve at [x0] and is nowhere above it. *)
Theorem tangente_touches (st : State Q) (x : Q) :
  tangente st (x0 st) == f (x0 st) /\ tangente st x <= f x.
Proof.
  unfold tangente, slope_tan. js_exact. split; [ring|].
  pose proof (tangent_gap (x0 st) x). pose proof (Qsquare_nonneg (x - x0 st)). lra.
Qed.

(** The error ratio is the step over three, capped at one. *)
Lemma errorRatio_exact (st : State Q) :
  ~ deltaX st == 0 -> errorRatio st == Qmin 1 (Qabs (deltaX st) / 3).
Proof.
  intros Hd. unfold errorRatio. js_exact.
  now rewrite (error_exact st Hd).
Qed.

Lemma refresh_deltaX_recompute_witness :
  refresh_deltaX (recompute {| deltaX := 3 # 2; x0 := 2 |}) {| deltaX := 1; x0 := 2 |}
  = recompute {| deltaX := 1; x0 := 2 |}.
Proof.
  apply (refresh_deltaX_recompute {| deltaX := 3 # 2; x0 := 2 |} {| deltaX := 1; x0 := 2 |}).
  reflexivity.
Defined.

(** The numbers displayed for the specification's two examples. *)
Example displays_exact :
  slopeDisplay {| deltaX := 1; x0 := 2 |} = "3.0000"%string /\
  errorDisplay {| deltaX := 1; x0 := 2 |} = "1.0000"%string /\
  slopeDisplay {| deltaX := 1 # 100; x0 := 2 |} = "2.0100"%string /\
  errorDisplay {| deltaX := 1 # 100; x0 := 2 |} = "0.0100"%string.
Proof. vm_compute. repeat split. Qed.

(** ** Binary64 semantics *)

(** The state with the step [dx] and the initial [x0], in doubles. *)
Definition withStep (dx : Q) : State float := {| deltaX := lit dx; x0 := lit 2 |}.

(** What [DX_MIN] guards against.  With a step of zero the difference
    quotient is [0 / 0]: the slope is [NaN], both displays read [NaN] and
    the colour is not a colour.  (On the exact instance [x / 0] is [0], so
    only the doubles show this case.) *)
Example zero_step_NaN :
  toQ (slope_sek (withStep 0)) = None /\
  slopeDisplay (withStep 0) = "NaN"%string /\
  errorDisplay (withStep 0) = "NaN"%string /\
  errorColor (withStep 0) = "rgb(NaN,NaN,NaN)"%string.
Proof. vm_compute. repeat split. Qed.

(** Steps far below the slider's resolution: at [1e-13] the increment of
    [f] is lost to cancellation and the displayed slope is wrong in its
    third decimal; at [1e-16] the step is absorbed, [x0 + deltaX] is [x0],
    and the slope is displayed as zero.  The slider's minimum
    [DX_MIN = 0.01] keeps the step eleven orders of magnitude away from
    that. *)
Theorem tiny_step_cancellation :
  slopeDisplay (withStep (1 # 10 ^ 16)) = "0.0000"%string /\
  slopeDisplay (withStep (1 # 10 ^ 13)) = "1.9984"%string /\
  slopeDisplay (withStep (1 # 10 ^ 11)) = "2.0000"%string /\
  slopeDisplay (withStep (1 # 100)) = "2.0100"%string.
Proof. vm_compute. repeat split. Qed.

(** The displays at mount and at the presets, in doubles. *)
Example displays_binary64 :
  map (fun dx => (slopeDisplay (withStep dx), errorDisplay (withStep dx), errorColor (withStep dx)))
      [3 # 2; 2; 1; 1 # 2; 1 # 10; 1 # 100] =
  [("3.5000", "1.5000", "rgb(116,116,70)"); ("4.0000", "2.0000", "rgb(141,96,61)");
   ("3.0000", "1.0000", "rgb(90,135,78)"); ("2.5000", "0.5000", "rgb(65,155,87)");
   ("2.1000", "0.1000", "rgb(44,170,94)"); ("2.0100", "0.0100", "rgb(40,174,96)")]%string.
Proof. vm_compute. reflexivity. Qed.
