(* ===== verification/Widget.v ===== *)
(** * Widget: the component as a state machine

    main.js (part_001) creates the component; the slider binding
    [bind:value={deltaX}] (part_000 lines 296-303) and the click handler of
    the preset buttons (lines 311-318) are the only code that assigns a
    state variable.  A widget is the state with the reactive variables
    computed from it; an event assigns [deltaX] and Svelte then runs the
    declarations that depend on it ([Reactive.refresh_deltaX]) before the
    next event is taken.

    The browser delivers the slider's value as a string and keeps it on the
    grid [min + k * step] within [min, max]: [rangeValues] computes these
    strings from the attributes of the input element, [sliderValues] are
    those of the component's slider (the strings of [DX_MIN], [DX_MAX] and
    [DX_STEP]), and membership in them is the premise of the rule
    [step_slider].  On both instances they are the 200 strings
    [sliderString k] ([SliderGrid]).  Reachability is the reflexive
    transitive closure of [step] from [mount].

    On the exact instance, every reachable widget has [deltaX] on the grid
    [k / 100], [1 <= k <= 200], and [x0 = 2]; its reactive variables are
    those of its state; the difference quotient never divides by zero; the
    displayed error is [deltaX] itself; the clamp of the error ratio is
    never active, so the colour never gets past two thirds of the ramp; and
    the widget after an event does not depend on the events before it.

    On doubles: the slider's strings and the doubles on the grid determine
    each other; the handler stores the double nearest to whatever decimal
    it is given; the secant slope is within [1e-13] of its exact value; and
    after any sequence of the user's actions the displayed slope, error and
    colour are those of the exact instance.  [allowed_check] and
    [after_actions] reduce a claim about every reachable state to a check
    on the 200 positions and the five buttons. *)

From Stdlib Require Import List String Bool ZArith QArith Qround Qabs Qminmax Lia Lqa Floats.
From S2P Require Import Prelude Decimal Roundtrip JSNumber Exact Binary64.
From S2P Require Import MathModel Mapper Sampler Color Reactive.
Import ListNotations.

(** The string the browser holds for slider position [k]: the decimal
    representation of [k * 0.01], for [1 <= k <= 200].  It is the browser's,
    whatever numbers the component computes with. *)
Definition sliderString (k : nat) : string :=
  showQ (inject_Z (Z.of_nat k) / 100).

(** The values a range input offers, given its attributes [min], [max]
    and [step] as the strings the element holds: [min + k * step] for every
    [k] that keeps it at or below [max], in decimal arithmetic, each as the
    string the element reports in [value].  The rounding of a value to the
    steps is the browser's; it is described for a positive step and
    [min <= max], the only case the component sets up. *)
Definition rangeValues (min max step : string) : list string :=
  match parseDecimal min, parseDecimal max, parseDecimal step with
  | Some lo, Some hi, Some st =>
      if Qltb 0 st && Qleb lo hi
      then map (fun k => showQ (lo + inject_Z (Z.of_nat k) * st))
               (seq 0 (S (Z.to_nat (Qfloor ((hi - lo) / st)))))
      else []
  | _, _, _ => []
  end.

Section Widget.
Context {num : Type} `{JSNumber num}.
#[local] Open Scope js_scope.

(** The array literal [[2.0, 1.0, 0.5, 0.1, 0.01]] of the [#each] block. *)
Definition presets : list num :=
  [lit 2; lit 1; lit (1 # 2); lit (1 # 10); lit (1 # 100)].

(** What the user can do: move the slider, which delivers the value of the
    input element as a string, or click the button of a preset. *)
Inductive Event : Type :=
  | SliderInput (value : string)
  | PresetClick (preset : num).

(** The assignment an event makes: [deltaX = to_number(this.value)] for
    the binding, which is unary plus on every string a range input can
    hold, [deltaX = preset] for [on:click={() => deltaX = preset}]. *)
Definition handle (e : Event) (st : State num) : State num :=
  match e with
  | SliderInput value => {| deltaX := ofStr value; x0 := x0 st |}
  | PresetClick preset => {| deltaX := preset; x0 := x0 st |}
  end.

(** A mounted component: the state and the reactive variables. *)
Record Widget : Type := mkWidget {
  w_state : State num;
  w_derived : Derived num
}.

(** [onMount(() => { ... })]: the callback Svelte runs once the component
    is in the document.  Its body holds only a comment. *)
Definition onMount (w : Widget) : Widget := w.

(** [const app = new App({ target: ... });]: the initial values of the
    state variables, a first run of every reactive declaration, and the
    [onMount] callback. *)
Definition mount : Widget :=
  onMount {| w_state := init; w_derived := recompute init |}.

(** One event: the handler's assignment, then the update of the reactive
    variables that depend on [deltaX]. *)
Definition dispatch (e : Event) (w : Widget) : Widget :=
  let st' := handle e (w_state w) in
  {| w_state := st'; w_derived := refresh_deltaX (w_derived w) st' |}.

(** A sequence of events, oldest first. *)
Definition run (es : list Event) (w : Widget) : Widget :=
  fold_left (fun w e => dispatch e w) es w.

(** [<input type="range" min={DX_MIN} max={DX_MAX} step={DX_STEP} ...>]:
    the strings the slider can deliver.  The attributes reach the element
    as the strings of the three constants. *)
Definition sliderValues : list string :=
  rangeValues (toStr DX_MIN) (toStr DX_MAX) (toStr DX_STEP).

(** The transitions the user interface can make: an input of the slider
    with one of its values, or a click on the button of a preset. *)
Inductive step : Widget -> Widget -> Prop :=
  | step_slider (w : Widget) (value : string) :
      In value sliderValues ->
      step w (dispatch (SliderInput value) w)
  | step_preset (w : Widget) (p : num) :
      In p presets ->
      step w (dispatch (PresetClick p) w).

Inductive reachable : Widget -> Prop :=
  | reachable_mount : reachable mount
  | reachable_step (w w' : Widget) : reachable w -> step w w' -> reachable w'.

(** ** For every instance *)

Lemma handle_x0 (e : Event) (st : State num) : x0 (handle e st) = x0 st.
Proof. now destruct e. Qed.

(** The new state does not depend on the old step size. *)
Lemma handle_forgets (e : Event) (st st' : State num) :
  x0 st = x0 st' -> handle e st = handle e st'.
Proof. intros E. destruct e; cbn; now rewrite E. Qed.

(** The reactive variables of a widget are those of its state. *)
Definition consistent (w : Widget) : Prop := w_derived w = recompute (w_state w).

Lemma mount_consistent : consistent mount.
Proof. reflexivity. Qed.

Lemma dispatch_consistent (e : Event) (w : Widget) :
  consistent w -> consistent (dispatch e w).
Proof.
  unfold consistent, dispatch. cbn [w_state w_derived]. intros ->.
  unfold refresh_deltaX, recompute. cbn. now rewrite handle_x0.
Qed.

(** C3: no event leaves the template with stale values: after every event the
    reactive variables are exactly those a full recomputation gives. *)
Theorem reachable_consistent (w : Widget) : reachable w -> consistent w.
Proof.
  induction 1 as [|w w' _ IH Hstep]; [apply mount_consistent|].
  destruct Hstep; now apply dispatch_consistent.
Qed.

(** [x0] is never assigned. *)
Lemma reachable_x0 (w : Widget) : reachable w -> x0 (w_state w) = lit 2.
Proof.
  induction 1 as [|w w' _ IH Hstep]; [reflexivity|].
  destruct Hstep; cbn [dispatch w_state]; now rewrite handle_x0.
Qed.

(** A consistent widget after an event is determined by the event and by
    [x0]: what happened before is forgotten. *)
Lemma dispatch_forgets (e : Event) (w w' : Widget) :
  consistent w -> consistent w' -> x0 (w_state w) = x0 (w_state w') ->
  dispatch e w = dispatch e w'.
Proof.
  intros Hc Hc' Hx.
  pose proof (dispatch_consistent e w Hc) as H1.
  pose proof (dispatch_consistent e w' Hc') as H2.
  unfold consistent in H1, H2.
  destruct (dispatch e w) as [s d] eqn:E1, (dispatch e w') as [s' d'] eqn:E2.
  cbn [w_state w_derived] in H1, H2. subst d d'.
  assert (s = s') as ->; [|reflexivity].
  apply (f_equal w_state) in E1, E2. cbn [dispatch w_state] in E1, E2.
  rewrite <- E1, <- E2. now apply handle_forgets.
Qed.

(** Delivering the same event twice is the same as delivering it once. *)
Theorem dispatch_idempotent (e : Event) (w : Widget) :
  consistent w -> dispatch e (dispatch e w) = dispatch e w.
Proof.
  intros Hc. apply dispatch_forgets; [now apply dispatch_consistent | exact Hc|].
  cbn [dispatch w_state]. apply handle_x0.
Qed.

Lemma run_app (es es' : list Event) (w : Widget) :
  run (es ++ es') w = run es' (run es w).
Proof. apply fold_left_app. Qed.

Lemma run_consistent (es : list Event) (w : Widget) :
  consistent w -> consistent (run es w).
Proof.
  revert w. induction es as [|e es IH]; intros w Hc; [exact Hc|].
  cbn [run fold_left]. apply IH. now apply dispatch_consistent.
Qed.

Lemma run_x0 (es : list Event) (w : Widget) :
  x0 (w_state (run es w)) = x0 (w_state w).
Proof.
  revert w. induction es as [|e es IH]; intros w; [reflexivity|].
  cbn [run fold_left]. fold (run es (dispatch e w)). rewrite IH.
  cbn [dispatch w_state]. apply handle_x0.
Qed.

(** The state after a sequence of events is the one the last event's
    assignment makes from the initial state. *)
Lemma run_state_snoc (es : list Event) (e : Event) :
  w_state (run (es ++ [e]) mount) = handle e init.
Proof.
  rewrite run_app. cbn [run fold_left dispatch w_state].
  apply handle_forgets, run_x0.
Qed.

(** C36: after any sequence of events the widget is the one the last event
    alone produces from the mounted component, and its step is the one
    that event assigns: the number the slider's string reads as, or the
    preset of the button. *)
Theorem last_event_wins (es : list Event) (e : Event) :
  run (es ++ [e]) mount = dispatch e mount /\
  deltaX (w_state (run (es ++ [e]) mount)) =
    match e with
    | SliderInput value => ofStr value
    | PresetClick preset => preset
    end.
Proof.
  split; [|rewrite run_state_snoc; now destruct e].
  rewrite run_app. cbn [run fold_left].
  apply dispatch_forgets;
    [apply run_consistent, mount_consistent | apply mount_consistent | apply run_x0].
Qed.

End Widget.

Arguments Event num : clear implicits.
Arguments Widget num : clear implicits.

(** ** The slider's grid *)

(** The constants give the slider the 200 values [0.01], [0.02], ...,
    [2]: a property of the instance, since the attributes are printed by
    it. *)
Class SliderGrid (num : Type) `{JSNumber num} : Prop :=
  slider_grid : sliderValues = map sliderString (seq 1 200).

#[export] Instance SliderGrid_exact : SliderGrid Q.
Proof. vm_compute. reflexivity. Qed.

#[export] Instance SliderGrid_binary64 : SliderGrid float.
Proof. vm_compute. reflexivity. Qed.

Section Grid.
Context {num : Type} `{JSNumber num} `{!SliderGrid num}.

Lemma sliderValues_In (value : string) :
  In value (sliderValues (num := num)) <->
  exists k, (1 <= k <= 200)%nat /\ value = sliderString k.
Proof.
  rewrite slider_grid, in_map_iff. split; intros (k & H1 & H2).
  - exists k. apply in_seq in H2. split; [lia | now symmetry].
  - exists k. split; [now symmetry | apply in_seq; lia].
Qed.

(** The slider can be put on each of its 200 positions. *)
Lemma step_slide (w : Widget num) (k : nat) :
  (1 <= k <= 200)%nat -> step w (dispatch (SliderInput (sliderString k)) w).
Proof. intros Hk. apply step_slider, sliderValues_In. now exists k. Qed.

(** Every transition is one of these, or a click on a preset. *)
Lemma step_cases (w w' : Widget num) :
  step w w' ->
  (exists k, (1 <= k <= 200)%nat /\ w' = dispatch (SliderInput (sliderString k)) w) \/
  (exists p, In p presets /\ w' = dispatch (PresetClick p) w).
Proof.
  intros [w0 value Hv | w0 p Hp].
  - apply sliderValues_In in Hv as (k & Hk & ->). left. now exists k.
  - right. now exists p.
Qed.

End Grid.

(** ** Exact semantics *)

#[local] Open Scope Q_scope.

(** The value of slider position [k]. *)
Definition gridValue (k : nat) : Q := inject_Z (Z.of_nat k) / 100.

(** [deltaX] is one of the 200 slider values. *)
Definition on_grid (st : State Q) : Prop :=
  exists k, (1 <= k <= 200)%nat /\ deltaX st == gridValue k.

Definition slider_ok (k : nat) : bool :=
  Qeq_bool (ofStr (sliderString k)) (gridValue k).

(** Checked on each of the 200 positions: reading the slider's string
    gives back the slider's value. *)
Lemma slider_ok_all : forallb slider_ok (seq 1 200) = true.
Proof. vm_compute. reflexivity. Qed.

Lemma slider_value (k : nat) :
  (1 <= k <= 200)%nat -> ofStr (sliderString k) == gridValue k.
Proof.
  intros Hk. apply Qeq_bool_iff.
  apply (proj1 (forallb_forall slider_ok (seq 1 200)) slider_ok_all).
  apply in_seq. lia.
Qed.

Lemma gridValue_mul (k : nat) : gridValue k == inject_Z (Z.of_nat k) * (1 # 100).
Proof. unfold gridValue. field. Qed.

Lemma gridValue_bounds (k : nat) :
  (1 <= k <= 200)%nat -> 1 # 100 <= gridValue k <= 2.
Proof.
  intros [H1 H2]. rewrite gridValue_mul.
  apply nat_le_Q in H1, H2.
  change (inject_Z (Z.of_nat 1)) with 1 in H1.
  change (inject_Z (Z.of_nat 200)) with 200 in H2.
  lra.
Qed.

(** The presets are slider values. *)
Lemma presets_on_grid (p : Q) :
  In p presets -> exists k, (1 <= k <= 200)%nat /\ p == gridValue k.
Proof.
  intros Hp. cbn in Hp.
  destruct Hp as [<- | [<- | [<- | [<- | [<- | []]]]]];
    [exists 200%nat | exists 100%nat | exists 50%nat | exists 10%nat | exists 1%nat];
    (split; [lia | vm_compute; reflexivity]).
Qed.

Lemma reachable_grid (w : Widget Q) : reachable w -> on_grid (w_state w).
Proof.
  intros Hr. destruct Hr as [|w w' _ Hstep].
  - exists 150%nat. split; [lia | unfold mount, onMount; cbn [w_state]; vm_compute; reflexivity].
  - destruct (step_cases _ _ Hstep) as [(k & Hk & ->) | (p & Hp & ->)];
      cbn [dispatch handle w_state deltaX].
    + exists k. split; [exact Hk | exact (slider_value k Hk)].
    + now apply presets_on_grid.
Qed.

Lemma reachable_x0_exact (w : Widget Q) : reachable w -> x0 (w_state w) == 2.
Proof. intros Hr. now rewrite (reachable_x0 w Hr). Qed.

Lemma reachable_bounds (w : Widget Q) :
  reachable w -> 1 # 100 <= deltaX (w_state w) <= 2.
Proof.
  intros Hr. destruct (reachable_grid w Hr) as (k & Hk & E).
  rewrite E. now apply gridValue_bounds.
Qed.

(** The difference quotient never divides by zero. *)
Lemma reachable_nonzero (w : Widget Q) :
  reachable w -> ~ deltaX (w_state w) == 0.
Proof. intros Hr. pose proof (reachable_bounds w Hr). lra. Qed.

(** A widget reached by one click, for the examples below. *)
Definition clicked (p : Q) : Widget Q := dispatch (PresetClick p) mount.

Ltac reach_clicked :=
  eapply reachable_step; [apply reachable_mount | apply step_preset; cbn; auto 6].

(** C2: the state invariant: in every reachable widget [deltaX] is one of the
    slider values, hence within [[DX_MIN, DX_MAX]] and not zero, and [x0]
    is 2. *)
Theorem reachable_invariant (w : Widget Q) :
  reachable w ->
  on_grid (w_state w) /\
  DX_MIN <= deltaX (w_state w) <= DX_MAX /\
  ~ deltaX (w_state w) == 0 /\
  x0 (w_state w) == 2.
Proof.
  intros Hr. split; [now apply reachable_grid|].
  split; [exact (reachable_bounds w Hr)|].
  split; [now apply reachable_nonzero | now apply reachable_x0_exact].
Qed.

Lemma reachable_invariant_witness :
  on_grid (w_state (clicked 2)) /\
  DX_MIN <= deltaX (w_state (clicked 2)) <= DX_MAX /\
  ~ deltaX (w_state (clicked 2)) == 0 /\
  x0 (w_state (clicked 2)) == 2.
Proof. apply (reachable_invariant (clicked 2)). reach_clicked. Defined.

Lemma reachable_consistent_witness : consistent (clicked 1).
Proof. apply (reachable_consistent (clicked 1)). reach_clicked. Defined.

Lemma dispatch_idempotent_witness :
  dispatch (PresetClick 1) (dispatch (PresetClick 1) mount) = dispatch (PresetClick 1) mount.
Proof. apply (dispatch_idempotent (PresetClick 1) mount). reflexivity. Defined.

(** The slopes of a reachable widget. *)
Lemma slopes_on_reachable (w : Widget Q) :
  reachable w ->
  slope_sek (w_state w) == 2 + deltaX (w_state w) /\
  slope_tan (w_state w) == 2 /\
  Qabs (slope_sek (w_state w) - slope_tan (w_state w)) == deltaX (w_state w).
Proof.
  intros Hr. pose proof (reachable_nonzero w Hr) as Hd.
  pose proof (reachable_bounds w Hr) as [Hlo _].
  pose proof (reachable_x0_exact w Hr) as Hx.
  rewrite error_exact, slope_sek_exact, slope_tan_exact by exact Hd.
  rewrite Hx, Qabs_pos by lra. repeat split; ring.
Qed.

(** C5: in every reachable widget the secant slope is [2 + deltaX], the
    tangent slope is 2 and the approximation error is [deltaX]. *)
Theorem reachable_slopes (w : Widget Q) :
  reachable w ->
  slope_sek (w_state w) == 2 + deltaX (w_state w) /\
  slope_tan (w_state w) == 2 /\
  Qabs (slope_sek (w_state w) - slope_tan (w_state w)) == deltaX (w_state w).
Proof. exact (slopes_on_reachable w). Qed.

Lemma reachable_slopes_witness :
  slope_sek (w_state (clicked 1)) == 2 + deltaX (w_state (clicked 1)) /\
  slope_tan (w_state (clicked 1)) == 2 /\
  Qabs (slope_sek (w_state (clicked 1)) - slope_tan (w_state (clicked 1)))
  == deltaX (w_state (clicked 1)).
Proof. apply (reachable_slopes (clicked 1)). reach_clicked. Defined.

Lemma reachable_errorRatio (w : Widget Q) :
  reachable w ->
  errorRatio (w_state w) == deltaX (w_state w) * (1 # 3) /\
  errorRatio (w_state w) <= 2 # 3.
Proof.
  intros Hr. pose proof (reachable_nonzero w Hr) as Hd.
  pose proof (reachable_bounds w Hr) as [Hlo Hhi].
  rewrite errorRatio_exact by exact Hd. rewrite Qabs_pos by lra.
  setoid_replace (deltaX (w_state w) / 3) with (deltaX (w_state w) * (1 # 3)) by field.
  rewrite Q.min_r by lra. split; [reflexivity | lra].
Qed.

(** C23: the clamp [Math.min(1, ...)] of the error ratio is never active: the
    ratio is a third of [deltaX], at most two thirds.  Hence the error
    colour stops at [rgb(141,96,61)]; the red end of the ramp,
    [rgb(192,57,43)], is never displayed. *)
Theorem clamp_never_active (w : Widget Q) :
  reachable w ->
  errorRatio (w_state w) == deltaX (w_state w) * (1 # 3) /\
  errorRatio (w_state w) < 1 /\
  chR (colorChannels (errorRatio (w_state w))) <= 141 /\
  96 <= chG (colorChannels (errorRatio (w_state w))) /\
  61 <= chB (colorChannels (errorRatio (w_state w))).
Proof.
  intros Hr. destruct (reachable_errorRatio w Hr) as [He Hle].
  split; [exact He|]. split; [lra|]. color_exact.
  change 141 with (inject_Z (red (2 # 3))). change 96 with (inject_Z (green (2 # 3))).
  change 61 with (inject_Z (blue (2 # 3))). rewrite <- !Zle_Qle.
  repeat split; [apply red_mono | apply green_anti | apply blue_anti]; exact Hle.
Qed.

Lemma clamp_never_active_witness :
  errorRatio (w_state (clicked 2)) == deltaX (w_state (clicked 2)) * (1 # 3) /\
  errorRatio (w_state (clicked 2)) < 1 /\
  chR (colorChannels (errorRatio (w_state (clicked 2)))) <= 141 /\
  96 <= chG (colorChannels (errorRatio (w_state (clicked 2)))) /\
  61 <= chB (colorChannels (errorRatio (w_state (clicked 2)))).
Proof. apply (clamp_never_active (clicked 2)). reach_clicked. Defined.

(** Every slider value can be selected from every widget. *)
Theorem slider_reaches (w : Widget Q) (k : nat) :
  (1 <= k <= 200)%nat ->
  exists w', step w w' /\ deltaX (w_state w') == gridValue k.
Proof.
  intros Hk. exists (dispatch (SliderInput (sliderString k)) w).
  split; [now apply step_slide | now apply slider_value].
Qed.

Lemma slider_reaches_witness :
  exists w', step mount w' /\ deltaX (w_state w') == gridValue 37.
Proof. apply (slider_reaches mount 37). lia. Defined.

(** C22: where the second marker is drawn.  Its abscissa is always inside the
    plot; its ordinate is above the top edge of the view box, at a negative
    SVG coordinate, exactly when [deltaX >= 1.75]: for those slider values,
    the preset 2.0 among them, the point P2 is not visible. *)
Theorem marker_px1_position (w : Widget Q) :
  reachable w ->
  left PAD <= px (px1 (w_state w)) <= VW - right PAD /\
  (py (px1 (w_state w)) < 0 <-> 7 # 4 <= deltaX (w_state w)).
Proof.
  intros Hr. destruct (reachable_grid w Hr) as (k & Hk & E).
  pose proof (reachable_x0_exact w Hr) as Hx.
  pose proof (gridValue_bounds k Hk) as [Hlo Hhi].
  unfold px1. cbn [px py]. js_exact. split.
  - apply toSvgX_bounds. mapper_unfold. lra.
  - rewrite toSvgY_exact, f_exact, Hx, E, gridValue_mul in *.
    split; intros H.
    + destruct (le_lt_dec 175 k) as [Hge | Hlt].
      * apply nat_le_Q in Hge. change (inject_Z (Z.of_nat 175)) with 175 in Hge. lra.
      * assert (Hle : (k <= 174)%nat) by lia.
        apply nat_le_Q in Hle. change (inject_Z (Z.of_nat 174)) with 174 in Hle. nra.
    + nra.
Qed.

Lemma marker_px1_position_witness :
  left PAD <= px (px1 (w_state (clicked 2))) <= VW - right PAD /\
  (py (px1 (w_state (clicked 2))) < 0 <-> 7 # 4 <= deltaX (w_state (clicked 2))).
Proof. apply (marker_px1_position (clicked 2)). reach_clicked. Defined.

(** At the preset 2.0 the second marker is at [(580, -160/3)]: above the
    view box, whose ordinates run from 0 to 400. *)
Example marker_px1_at_2 :
  px (px1 (w_state (clicked 2))) == 580 /\ py (px1 (w_state (clicked 2))) == - (160 # 3).
Proof.
  unfold clicked, dispatch, mount, onMount. cbn [w_state handle].
  split; vm_compute; reflexivity.
Qed.

(** ** Actions of the user *)

(** What a user does: move the slider to position [k], or click the
    [i]-th preset button. *)
Inductive Action : Type :=
  | Slide (k : nat)
  | Click (i : nat).

(** The slider has the positions 1 to 200, the row has five buttons. *)
Definition allowed (a : Action) : bool :=
  match a with
  | Slide k => (1 <=? k)%nat && (k <=? 200)%nat
  | Click i => (i <? 5)%nat
  end.

(** A check that passes on the 200 positions of the slider and on the five
    buttons passes on every allowed action. *)
Lemma allowed_check (chk : Action -> bool) :
  forallb (fun k => chk (Slide k)) (seq 1 200) = true ->
  forallb (fun i => chk (Click i)) (seq 0 5) = true ->
  forall a, allowed a = true -> chk a = true.
Proof.
  intros Hs Hc [k | i] Ha; cbn [allowed] in Ha.
  - apply andb_prop in Ha as [H1 H2]. apply Nat.leb_le in H1, H2.
    apply (forallb_range _ 1 200 k Hs). lia.
  - apply Nat.ltb_lt in Ha. apply (forallb_range _ 0 5 i Hc). lia.
Qed.

Section Actions.
Context {num : Type} `{JSNumber num} `{!SliderGrid num}.

(** The event an action raises. *)
Definition event (a : Action) : Event num :=
  match a with
  | Slide k => SliderInput (sliderString k)
  | Click i => PresetClick (nth i presets nan)
  end.

(** The widget after a sequence of actions on the mounted component. *)
Definition perform (acts : list Action) : Widget num :=
  run (map event acts) mount.

(** The texts the info bar shows: the secant slope, the error, and the
    colour the error is printed in. *)
Definition shown (w : Widget num) : list string :=
  [d_slopeDisplay (w_derived w); d_errorDisplay (w_derived w); d_errorColor (w_derived w)].

(** The same texts, computed from a state. *)
Definition shownOf (st : State num) : list string :=
  [slopeDisplay st; errorDisplay st; errorColor st].

Lemma shown_consistent (w : Widget num) : consistent w -> shown w = shownOf (w_state w).
Proof. unfold consistent, shown. intros ->. reflexivity. Qed.

Lemma allowed_step (a : Action) (w : Widget num) :
  allowed a = true -> step w (dispatch (event a) w).
Proof.
  destruct a as [k | i]; cbn [allowed event]; intros Ha.
  - apply step_slide. apply andb_prop in Ha as [H1 H2].
    apply Nat.leb_le in H1, H2. lia.
  - apply step_preset, nth_In. apply Nat.ltb_lt in Ha. exact Ha.
Qed.

Lemma step_allowed (w w' : Widget num) :
  step w w' -> exists a, allowed a = true /\ w' = dispatch (event a) w.
Proof.
  intros Hs. destruct (step_cases _ _ Hs) as [(k & Hk & ->) | (p & Hp & ->)].
  - exists (Slide k). split; [|reflexivity].
    cbn [allowed]. apply andb_true_intro. split; apply Nat.leb_le; lia.
  - destruct (In_nth _ _ nan Hp) as (i & Hi & <-).
    exists (Click i). split; [|reflexivity]. now apply Nat.ltb_lt.
Qed.

Lemma perform_snoc (acts : list Action) (a : Action) :
  perform (acts ++ [a]) = dispatch (event a) (perform acts).
Proof. unfold perform. rewrite map_app, run_app. reflexivity. Qed.

Lemma allowed_last (acts : list Action) (a : Action) :
  forallb allowed (acts ++ [a]) = true -> allowed a = true.
Proof.
  rewrite forallb_app. intros Ha. apply andb_prop in Ha as [_ Hl].
  cbn [forallb] in Hl. now rewrite andb_true_r in Hl.
Qed.

(** The reachable widgets are those the sequences of allowed actions
    produce. *)
Lemma reachable_perform (w : Widget num) :
  reachable w <-> exists acts, forallb allowed acts = true /\ w = perform acts.
Proof.
  split.
  - induction 1 as [|w w' _ (acts & Ha & ->) Hstep]; [now exists []|].
    destruct (step_allowed _ _ Hstep) as (a & Hal & ->).
    exists (acts ++ [a]). rewrite forallb_app, Ha, perform_snoc. cbn. now rewrite Hal.
  - intros (acts & Ha & ->). induction acts as [|a acts IH] using rev_ind.
    + apply reachable_mount.
    + pose proof (allowed_last _ _ Ha) as Hl.
      rewrite forallb_app in Ha. apply andb_prop in Ha as [Ha _]. rewrite perform_snoc.
      eapply reachable_step; [now apply IH | now apply allowed_step].
Qed.

(** The state after a sequence of actions: the initial state, or the one
    the last action alone makes from it. *)
Definition lastState (acts : list Action) : State num :=
  fold_left (fun _ a => handle (event a) init) acts init.

Lemma perform_state (acts : list Action) : w_state (perform acts) = lastState acts.
Proof.
  unfold lastState. induction acts as [|a acts _] using rev_ind; [reflexivity|].
  unfold perform. rewrite map_app. cbn [map]. now rewrite fold_left_app, run_state_snoc.
Qed.

Lemma lastState_snoc (acts : list Action) (a : Action) :
  lastState (acts ++ [a]) = handle (event a) init.
Proof. unfold lastState. now rewrite fold_left_app. Qed.

(** What holds of the initial state and of the state every allowed action
    makes from it holds after every sequence of allowed actions. *)
Lemma after_actions (P : State num -> Prop) :
  P init -> (forall a, allowed a = true -> P (handle (event a) init)) ->
  forall acts, forallb allowed acts = true -> P (lastState acts).
Proof.
  intros H0 Hs acts Ha. destruct acts as [|a acts _] using rev_ind; [exact H0|].
  rewrite lastState_snoc. eapply Hs, allowed_last, Ha.
Qed.

(** What is shown after a sequence of actions. *)
Lemma shown_perform (acts : list Action) :
  shown (perform acts) = shownOf (lastState acts).
Proof.
  rewrite shown_consistent by apply run_consistent, mount_consistent.
  now rewrite perform_state.
Qed.


End Actions.

(** ** What the read-outs say *)

#[local] Open Scope Q_scope.

(** In a reachable widget the read-outs print the slope [2 + deltaX] and
    the error [deltaX] with four decimals. *)
Lemma reachable_displays (w : Widget Q) :
  reachable w ->
  d_slopeDisplay (w_derived w) = toFixedQ 4 (2 + deltaX (w_state w)) /\
  d_errorDisplay (w_derived w) = toFixedQ 4 (deltaX (w_state w)).
Proof.
  intros Hr. destruct (slopes_on_reachable w Hr) as (Hs & _ & He).
  pose proof (reachable_bounds w Hr) as [Hlo Hhi].
  apply reachable_perform in Hr as (acts & _ & ->).
  assert (Hc : consistent (perform (num := Q) acts)) by apply run_consistent, mount_consistent.
  unfold consistent in Hc. rewrite Hc, recompute_fields. cbn [d_slopeDisplay d_errorDisplay].
  unfold slopeDisplay, errorDisplay. js_exact. rewrite He, Hs.
  split; apply toFixed_exact; rewrite Qabs_pos by lra;
    apply (Qle_lt_trans _ 4); (lra || reflexivity).
Qed.

(** A value of the grid has two decimals: four lose nothing. *)
Lemma grid_four_decimals (k : nat) (c : Z) :
  exists z, (inject_Z c + gridValue k) * inject_Z (pow10 4) == inject_Z z.
Proof.
  exists (c * 10000 + Z.of_nat k * 100)%Z. rewrite gridValue_mul.
  rewrite inject_Z_plus, !inject_Z_mult. change (inject_Z (pow10 4)) with 10000.
  change (inject_Z 10000) with 10000. change (inject_Z 100) with 100. ring.
Qed.

(** C19: the read-outs are exact: in every reachable widget the string shown
    for the secant slope reads back as [2 + deltaX], and the string shown
    for the error as [deltaX]; rounding to four decimals loses nothing on
    the slider's grid. *)
Theorem displays_read_back (w : Widget Q) :
  reachable w ->
  exists s e,
    parseDecimal (d_slopeDisplay (w_derived w)) = Some s /\ s == 2 + deltaX (w_state w) /\
    parseDecimal (d_errorDisplay (w_derived w)) = Some e /\ e == deltaX (w_state w).
Proof.
  intros Hr. destruct (reachable_displays w Hr) as [-> ->].
  destruct (reachable_grid w Hr) as (k & _ & E).
  destruct (parseDecimal_toFixedQ 4 (2 + deltaX (w_state w))) as (s & Ps & Hs).
  destruct (parseDecimal_toFixedQ 4 (deltaX (w_state w))) as (e & Pe & He).
  exists s, e. split; [exact Ps|]. split.
  - rewrite Hs. destruct (grid_four_decimals k 2) as (z & Hz).
    apply (roundTo_grid 4 _ z). rewrite E. exact Hz.
  - split; [exact Pe|]. rewrite He. destruct (grid_four_decimals k 0) as (z & Hz).
    apply (roundTo_grid 4 _ z). rewrite E. rewrite <- Hz. change (inject_Z 0) with 0. ring.
Qed.

Lemma displays_read_back_witness :
  exists s e,
    parseDecimal (d_slopeDisplay (w_derived (clicked 1))) = Some s /\
    s == 2 + deltaX (w_state (clicked 1)) /\
    parseDecimal (d_errorDisplay (w_derived (clicked 1))) = Some e /\
    e == deltaX (w_state (clicked 1)).
Proof. apply (displays_read_back (clicked 1)). reach_clicked. Defined.

(** C21: every position of the slider is one move away: from any reachable
    widget the user can select any of the 200 values, the widget reached
    is again reachable, and its read-out shows the slope of that value. *)
Theorem every_position_live (w : Widget Q) (k : nat) :
  reachable w -> (1 <= k <= 200)%nat ->
  exists w', step w w' /\ reachable w' /\
             deltaX (w_state w') == gridValue k /\
             d_slopeDisplay (w_derived w') = toFixedQ 4 (2 + gridValue k).
Proof.
  intros Hr Hk. exists (dispatch (SliderInput (sliderString k)) w).
  assert (Hs : step w (dispatch (SliderInput (sliderString k)) w)) by now apply step_slide.
  assert (Hr' : reachable (dispatch (SliderInput (sliderString k)) w))
    by (eapply reachable_step; eassumption).
  assert (E : deltaX (w_state (dispatch (SliderInput (sliderString k)) w)) == gridValue k)
    by exact (slider_value k Hk).
  repeat split; [exact Hs | exact Hr' | exact E|].
  destruct (reachable_displays _ Hr') as [-> _]. now rewrite E.
Qed.

Lemma every_position_live_witness :
  exists w', step mount w' /\ reachable w' /\
             deltaX (w_state w') == gridValue 37 /\
             d_slopeDisplay (w_derived w') = toFixedQ 4 (2 + gridValue 37).
Proof. apply (every_position_live mount 37); [apply reachable_mount | lia]. Defined.

(** ** Binary64 semantics *)

(** The state of slider position [k] in doubles. *)
Definition gridState (k : nat) : State float :=
  {| deltaX := lit (gridValue k); x0 := lit 2 |}.

(** Checked on each of the 200 positions: the double nearest to the
    slider's value prints as the slider's string, and reading the string
    gives that double. *)
Definition slider_binary64_ok (k : nat) : bool :=
  String.eqb (toStr (deltaX (gridState k))) (sliderString k) &&
  PrimFloat.eqb (ofStr (sliderString k)) (deltaX (gridState k)) &&
  match Prim2SF (ofStr (sliderString k)), Prim2SF (deltaX (gridState k)) with
  | S754_finite s m e, S754_finite s' m' e' =>
      Bool.eqb s s' && Pos.eqb m m' && Z.eqb e e'
  | _, _ => false
  end.

(** Checked on one action: the texts shown after it are the same in
    doubles and in exact arithmetic. *)
Definition agrees (a : Action) : bool :=
  if list_eq_dec string_dec
       (shownOf (handle (event a) (init (num := float))))
       (shownOf (handle (event a) (init (num := Q))))
  then true else false.

(** The distance of the secant slope in doubles from its exact value
    [2 + deltaX]; [None] if the double is not finite. *)
Definition slopeError (k : nat) : option Q :=
  match toQ (slope_sek (gridState k)) with
  | Some q => Some (Qabs (q - (2 + gridValue k)))
  | None => None
  end.

Definition slopeError_ok (k : nat) : bool :=
  match slopeError k with
  | Some e => Qleb e (1 # 10000000000000)
  | None => false
  end.

Lemma slider_binary64_all : forallb slider_binary64_ok (seq 1 200) = true.
Proof. vm_compute. reflexivity. Qed.

Lemma slides_agree : forallb (fun k => agrees (Slide k)) (seq 1 200) = true.
Proof. vm_compute. reflexivity. Qed.

Lemma clicks_agree : forallb (fun i => agrees (Click i)) (seq 0 5) = true.
Proof. vm_compute. reflexivity. Qed.

Lemma slopeError_all : forallb slopeError_ok (seq 1 200) = true.
Proof. vm_compute. reflexivity. Qed.

(** The same for a relation between the state in doubles and the exact
    state after the same actions. *)
Lemma after_actions_both (R : State float -> State Q -> Prop) :
  R init init ->
  (forall a, allowed a = true -> R (handle (event a) init) (handle (event a) init)) ->
  forall acts, forallb allowed acts = true -> R (lastState acts) (lastState acts).
Proof.
  intros H0 Hs acts Ha. destruct acts as [|a acts _] using rev_ind; [exact H0|].
  rewrite !lastState_snoc. eapply Hs, allowed_last, Ha.
Qed.

Lemma allowed_agrees (a : Action) :
  allowed a = true ->
  shownOf (handle (event a) (init (num := float))) =
  shownOf (handle (event a) (init (num := Q))).
Proof.
  intros Ha. pose proof (allowed_check agrees slides_agree clicks_agree a Ha) as Hag.
  unfold agrees in Hag. now destruct (list_eq_dec _ _ _).
Qed.

(** The double on slider position [k] and the string of that position
    determine each other. *)
Lemma slider_binary64 (k : nat) :
  (1 <= k <= 200)%nat ->
  toStr (deltaX (gridState k)) = sliderString k /\
  Prim2SF (ofStr (sliderString k)) = Prim2SF (deltaX (gridState k)).
Proof.
  intros Hk.
  pose proof (forallb_range _ 1 200 k slider_binary64_all ltac:(lia)) as Hok.
  unfold slider_binary64_ok in Hok.
  apply andb_prop in Hok as [Hok Hsf]. apply andb_prop in Hok as [Hs _].
  split; [now apply String.eqb_eq|].
  destruct (Prim2SF (ofStr _)) as [| | |s m e], (Prim2SF (deltaX _)) as [| | |s' m' e'];
    try discriminate.
  apply andb_prop in Hsf as [Hsf He]. apply andb_prop in Hsf as [Hb Hm].
  apply Bool.eqb_prop in Hb. apply Pos.eqb_eq in Hm. apply Z.eqb_eq in He.
  now subst.
Qed.

(** C6: the same actions give the same texts: after any sequence of allowed
    actions the slope, the error and the error colour shown by the
    component computing in doubles are, character for character, those of
    the component computing exactly; both widgets are reachable, and every
    reachable widget arises this way ([reachable_perform]). *)
Theorem binary64_refines_exact (acts : list Action) :
  forallb allowed acts = true ->
  reachable (perform (num := float) acts) /\
  reachable (perform (num := Q) acts) /\
  shown (perform (num := float) acts) = shown (perform (num := Q) acts).
Proof.
  intros Ha. split; [apply reachable_perform; now exists acts|].
  split; [apply reachable_perform; now exists acts|].
  rewrite !shown_perform. revert acts Ha.
  apply (after_actions_both (fun st sq => shownOf st = shownOf sq));
    [vm_compute; reflexivity | exact allowed_agrees].
Qed.

Lemma binary64_refines_exact_witness :
  reachable (perform (num := float) [Click 0; Slide 1]) /\
  reachable (perform (num := Q) [Click 0; Slide 1]) /\
  shown (perform (num := float) [Click 0; Slide 1]) =
  shown (perform (num := Q) [Click 0; Slide 1]).
Proof. apply (binary64_refines_exact [Click 0; Slide 1]). reflexivity. Defined.

(** C13: the secant slope in doubles is a finite number within [1e-13] of the
    exact slope [2 + deltaX], on every slider position: the difference
    quotient loses at most three of its sixteen digits to cancellation,
    far below the four decimals that are displayed. *)
Theorem slope_sek_binary64 (k : nat) :
  (1 <= k <= 200)%nat ->
  exists e, slopeError k = Some e /\ e <= 1 # 10000000000000.
Proof.
  intros Hk.
  pose proof (forallb_range _ 1 200 k slopeError_all ltac:(lia)) as Hok.
  unfold slopeError_ok in Hok. destruct (slopeError k) as [e|]; [|discriminate].
  exists e. split; [reflexivity | now apply Qleb_le].
Qed.

Lemma slope_sek_binary64_witness :
  exists e, slopeError 1 = Some e /\ e <= 1 # 10000000000000.
Proof. apply (slope_sek_binary64 1). lia. Defined.

(** C17: whatever decimal of magnitude at most 2 the browser delivers, the
    handler of the slider stores a finite double at most [2^-52] away from
    the number the decimal denotes: the conversion by unary plus is
    correctly rounded, for every string and not only for the 200 positions
    of the slider. *)
Theorem slider_stores_nearest (value : string) (q : Q) (st : State float) :
  parseDecimal value = Some q -> Qabs q <= 2 ->
  exists v, toQ (deltaX (handle (SliderInput value) st)) = Some v /\
            Qabs (q - v) <= 1 # 4503599627370496.
Proof. intros E Hq. now apply (ofStr_bound value q 1). Qed.

Lemma slider_stores_nearest_witness :
  exists v, toQ (deltaX (handle (SliderInput "0.07") init)) = Some v /\
            Qabs ((7 # 100) - v) <= 1 # 4503599627370496.
Proof.
  apply (slider_stores_nearest "0.07" (7 # 100) init); [reflexivity | discriminate].
Defined.

(** At the smallest step the slope in doubles is [2.0099999999999341] (it
    prints with seventeen digits) and is displayed as [2.0100]. *)
Example slope_sek_smallest_step :
  toStr (slope_sek (gridState 1)) = "2.009999999999934"%string /\
  slopeDisplay (gridState 1) = "2.0100"%string /\
  errorDisplay (gridState 1) = "0.0100"%string.
Proof. vm_compute. repeat split. Qed.
