(* ===== verification/Curves.v ===== *)
(** * Curves: the three polylines in doubles

    The [points] attributes of the three polylines are the only texts of
    the page that differ between doubles and exact arithmetic: they print
    coordinates.  This file compares the coordinates: after any sequence of
    allowed actions every point of the curve, of the secant and of the
    tangent computed in doubles is a pair of finite numbers within [1e-10]
    of the exact point.  The secant is the line that needs the tolerance:
    the cancellation in the difference quotient (an error of up to [1e-13]
    in the slope) is carried two units to each side of [x0] and scaled to
    pixels. *)

From Stdlib Require Import List String Bool ZArith QArith Qabs Lia Lqa Floats.
From S2P Require Import Prelude Decimal JSNumber Exact Binary64.
From S2P Require Import MathModel Mapper Sampler Color Reactive Widget.
Import ListNotations.

Section Curves.
Context {num : Type} `{JSNumber num}.

(** The points of the three polylines of a state: the curve, the secant
    and the tangent. *)
Definition polylines (st : State num) : list (list (num * num)) :=
  [linePoints xs f; linePoints xs (sekante st); linePoints xs (tangente st)].

(** The abscissas and the ordinates of a polyline over [xs]. *)
Definition abscissas : list num := map toSvgX xs.
Definition ordinates (fn : num -> num) : list num := map (fun x => toSvgY (fn x)) xs.

(** ** For every instance *)

Lemma linePoints_fst (fn : num -> num) : map fst (linePoints xs fn) = abscissas.
Proof. unfold linePoints, abscissas. rewrite map_map. reflexivity. Qed.

Lemma linePoints_snd (fn : num -> num) : map snd (linePoints xs fn) = ordinates fn.
Proof. unfold linePoints, ordinates. rewrite map_map. reflexivity. Qed.

(** The strings of a consistent widget are the polylines of its state,
    printed. *)
Lemma points_of_polylines (w : Widget num) :
  consistent w ->
  map (fun ps => String.concat " " (map pointString ps)) (polylines (w_state w))
  = [d_funcPoints (w_derived w); d_sekantePoints (w_derived w);
     d_tangentePoints (w_derived w)].
Proof.
  unfold consistent. intros ->. rewrite recompute_fields.
  cbn [map polylines d_funcPoints d_sekantePoints d_tangentePoints].
  unfold funcPoints, sekantePoints, tangentePoints.
  now rewrite !makeLine_linePoints.
Qed.

(** The tangent does not depend on the step. *)
Lemma tangente_handle (e : Event num) (st : State num) :
  tangente (handle e st) = tangente st.
Proof. unfold tangente, slope_tan. now rewrite handle_x0. Qed.

End Curves.

(** Two lists of pairs are related when their first and their second
    components are. *)
Lemma Forall2_pairs {A B C D : Type} (P : A -> C -> Prop) (R : B -> D -> Prop)
    (l : list (A * B)) (l' : list (C * D)) :
  Forall2 P (map fst l) (map fst l') -> Forall2 R (map snd l) (map snd l') ->
  Forall2 (fun p q => P (fst p) (fst q) /\ R (snd p) (snd q)) l l'.
Proof.
  revert l'. induction l as [|p l IH]; intros [|q l'] H1 H2; inversion H1; inversion H2;
    subst; constructor; [split; assumption | now apply IH].
Qed.

Lemma Forall2_three {A B : Type} (P : A -> B -> Prop) (a1 a2 a3 : A) (b1 b2 b3 : B) :
  P a1 b1 -> P a2 b2 -> P a3 b3 -> Forall2 P [a1; a2; a3] [b1; b2; b3].
Proof. intros. repeat constructor; assumption. Qed.

(** ** Binary64 semantics *)

(** A polyline in doubles is point for point within [tol] of an exact one. *)
Definition closePoints (tol : Q) (ps : list (float * float)) (qs : list (Q * Q)) : Prop :=
  Forall2 (fun p q => close tol (fst p) (fst q) /\ close tol (snd p) (snd q)) ps qs.

Definition tolerance : Q := 1 # 10 ^ 10.

(** [toSvgY] on doubles with its constants evaluated: the same function,
    cheaper to run 61500 times. *)
Definition toSvgY_folded : float -> float :=
  Eval vm_compute in (fun y => toSvgY (num := float) y).

(** The ordinates of the line through [(a, c)] with the slope [s] over
    the abscissas [ys]. *)
Definition lineOrdinates (ys : list float) (c s a : float) : list float :=
  map (fun x => toSvgY_folded (c + s * (x - a))%float) ys.

(** Checked on one action, given the samples: the ordinates of the secant. *)
Definition secantClose (ys : list float) (a : Action) : bool :=
  let st := handle (event a) (init (num := float)) in
  allWithin tolerance
    (lineOrdinates ys (f (x0 st)) (slope_sek st) (x0 st))
    (ordinates (sekante (num := Q) (handle (event a) init))).

Lemma toSvgY_folded_eq (y : float) : toSvgY y = toSvgY_folded y.
Proof. vm_compute. reflexivity. Qed.

Lemma ordinates_sekante (st : State float) :
  ordinates (sekante st) = lineOrdinates xs (f (x0 st)) (slope_sek st) (x0 st).
Proof.
  unfold ordinates, lineOrdinates. apply map_ext. intros x.
  now rewrite toSvgY_folded_eq.
Qed.

Lemma abscissas_close : allWithin tolerance abscissas abscissas = true.
Proof. vm_compute. reflexivity. Qed.

Lemma curve_close : allWithin tolerance (ordinates f) (ordinates f) = true.
Proof. vm_compute. reflexivity. Qed.

Lemma tangent_close :
  allWithin tolerance (ordinates (tangente init)) (ordinates (tangente init)) = true.
Proof. vm_compute. reflexivity. Qed.

Lemma secant_mount :
  allWithin tolerance (ordinates (sekante init)) (ordinates (sekante init)) = true.
Proof. vm_compute. reflexivity. Qed.

(** The samples are evaluated once for the 200 positions. *)
Lemma slides_secant : forallb (fun k => secantClose xs (Slide k)) (seq 1 200) = true.
Proof.
  change ((let ys := xs in forallb (fun k => secantClose ys (Slide k)) (seq 1 200)) = true).
  vm_compute. reflexivity.
Qed.

Lemma clicks_secant : forallb (fun i => secantClose xs (Click i)) (seq 0 5) = true.
Proof.
  change ((let ys := xs in forallb (fun i => secantClose ys (Click i)) (seq 0 5)) = true).
  vm_compute. reflexivity.
Qed.

Lemma closePoints_intro (fn : float -> float) (gn : Q -> Q) :
  allWithin tolerance (ordinates fn) (ordinates gn) = true ->
  closePoints tolerance (linePoints xs fn) (linePoints xs gn).
Proof.
  intros Ho. apply Forall2_pairs.
  - rewrite !linePoints_fst. exact (allWithin_spec _ _ _ abscissas_close).
  - rewrite !linePoints_snd. now apply allWithin_spec.
Qed.

(** C15: the curves drawn are the curves meant: after any sequence of
    allowed actions each of the 300 points of the curve, of the secant and
    of the tangent computed in doubles is finite and within [1e-10] of
    the exact point, in both coordinates. *)
Theorem binary64_polylines (acts : list Action) :
  forallb allowed acts = true ->
  Forall2 (closePoints tolerance)
    (polylines (w_state (perform (num := float) acts)))
    (polylines (w_state (perform (num := Q) acts))).
Proof.
  rewrite !perform_state. revert acts.
  apply (after_actions_both
           (fun st sq => Forall2 (closePoints tolerance) (polylines st) (polylines sq))).
  - apply Forall2_three; apply closePoints_intro;
      [exact curve_close | exact secant_mount | exact tangent_close].
  - intros a Ha. unfold polylines. rewrite !tangente_handle.
    apply Forall2_three; apply closePoints_intro;
      [exact curve_close | | exact tangent_close].
    rewrite ordinates_sekante.
    exact (allowed_check (secantClose xs) slides_secant clicks_secant a Ha).
Qed.

Lemma binary64_polylines_witness :
  Forall2 (closePoints tolerance)
    (polylines (w_state (perform (num := float) [Slide 1])))
    (polylines (w_state (perform (num := Q) [Slide 1]))).
Proof. apply (binary64_polylines [Slide 1]). reflexivity. Defined.

(** The tolerance cannot be [1e-12], the one that holds for every other
    number of the page: at the smallest step the right end of the secant
    is off by more. *)
Example secant_needs_tolerance :
  allWithin (1 # 10 ^ 12) (ordinates (sekante (handle (event (Slide 1)) init)))
            (ordinates (sekante (num := Q) (handle (event (Slide 1)) init))) = false.
Proof. vm_compute. reflexivity. Qed.
