(* ===== verification/View.v ===== *)
(** * View: the template

    The markup of App.svelte (part_000 lines 162-347) as a function from a
    widget to a tree of elements.  An attribute or a text is a list of
    parts, so that a number the script computed stays a number in the tree
    ([VNum]) and the theorems can speak about it; [renderContent] is the
    string the DOM receives.  Event handlers are kept as the events of
    [Widget] they raise.

    Theorems: which preset button carries the class [active]; the number of
    grid lines and of tick labels; the geometry of the shaded interval; the
    slider's attributes; every handler of the tree raises an event that
    [Widget.step] allows; the numbers of the tree ([numbersOf]), split
    into those that depend on the state and those that do not.  On
    doubles: the same buttons are active as on exact numbers, every number
    of the tree is finite, and each is within [1e-12] of its exact value. *)

From Stdlib Require Import List String Bool ZArith QArith Qround Qabs Qminmax Lia Lqa Floats.
From S2P Require Import Prelude Decimal JSNumber Exact Binary64.
From S2P Require Import MathModel Mapper Sampler Ticks.
From S2P Require Import Color Reactive Widget.
Import ListNotations.

Section View.
Context {num : Type} `{JSNumber num}.
#[local] Open Scope js_scope.
#[local] Open Scope string_scope.

(** A part of an attribute value or of a text: markup as written, or the
    value of an expression in braces. *)
Inductive Val : Type :=
  | VStr (s : string)
  | VNum (n : num).

Definition Content : Type := list Val.

(** What an element asks Svelte to do on an event. *)
Inductive Handler : Type :=
  | OnClick (e : Event num)
  | OnInput (e : string -> Event num).

Inductive Node : Type :=
  | Element (tag : string) (attrs : list (string * Content))
            (handlers : list Handler) (children : list Node)
  | Text (c : Content).

(** The string Svelte hands to the DOM for a content. *)
Definition renderContent (c : Content) : string :=
  String.concat "" (map (fun v => match v with VStr s => s | VNum n => toStr n end) c).

Definition attr (name : string) (c : Content) : string * Content := (name, c).
Definition sattr (name value : string) : string * Content := (name, [VStr value]).
Definition nattr (name : string) (n : num) : string * Content := (name, [VNum n]).

Definition el (tag : string) (attrs : list (string * Content)) (children : list Node)
  : Node := Element tag attrs [] children.

(** [{#each xTicks as tx} <line x1=.. class="grid-line"/> {/each}] and the
    same over [yTicks]. *)
Definition gridLines : list Node :=
  map (fun tx =>
         el "line" [nattr "x1" (toSvgX tx); nattr "y1" (top PAD);
                    nattr "x2" (toSvgX tx); nattr "y2" (top PAD + plotH);
                    sattr "class" "grid-line"] []) xTicks
  ++
  map (fun ty =>
         el "line" [nattr "x1" (left PAD); nattr "y1" (toSvgY ty);
                    nattr "x2" (left PAD + plotW); nattr "y2" (toSvgY ty);
                    sattr "class" "grid-line"] []) yTicks.

(** The x axis and the y axis. *)
Definition axes : list Node :=
  [ el "line" [nattr "x1" (left PAD); nattr "y1" (toSvgY (lit 0));
               nattr "x2" (left PAD + plotW); nattr "y2" (toSvgY (lit 0));
               sattr "class" "axis"] [];
    el "line" [nattr "x1" (toSvgX (lit 0)); nattr "y1" (top PAD);
               nattr "x2" (toSvgX (lit 0)); nattr "y2" (top PAD + plotH);
               sattr "class" "axis"] [] ].

(** [{#each xTicks as tx} {#if tx > 0} <text ..>{tx}</text> {/if} {/each}]
    and the same over [yTicks]. *)
Definition tickLabels : list Node :=
  flat_map (fun tx =>
              if tx >? lit 0
              then [el "text" [nattr "x" (toSvgX tx); nattr "y" (top PAD + plotH + lit 18);
                               sattr "class" "tick-label"; sattr "text-anchor" "middle"]
                      [Text [VNum tx]]]
              else []) xTicks
  ++
  flat_map (fun ty =>
              if ty >? lit 0
              then [el "text" [nattr "x" (left PAD - lit 8); nattr "y" (toSvgY ty);
                               sattr "class" "tick-label"; sattr "text-anchor" "end";
                               sattr "dominant-baseline" "middle"]
                      [Text [VNum ty]]]
              else []) yTicks.

(** The titles of the two axes. *)
Definition axisTitles : list Node :=
  [ el "text" [nattr "x" (left PAD + plotW / lit 2); nattr "y" (VH - lit 4);
               sattr "class" "axis-title"; sattr "text-anchor" "middle"]
      [Text [VStr "x"]];
    el "text" [nattr "x" (lit 14); nattr "y" (top PAD + plotH / lit 2);
               sattr "class" "axis-title"; sattr "text-anchor" "middle";
               attr "transform" [VStr "rotate(-90, 14, ";
                                 VNum (top PAD + plotH / lit 2); VStr ")"]]
      [Text [VStr "f(x)"]] ].

(** The shaded rectangle over [[x0, x0 + deltaX]] on the x axis. *)
Definition intervalRect (st : State num) : Node :=
  el "rect" [nattr "x" (toSvgX (x0 st));
             nattr "y" (toSvgY (lit 0) - lit 6);
             nattr "width" (toSvgX (x0 st + deltaX st) - toSvgX (x0 st));
             nattr "height" (lit 12);
             sattr "fill" COLOR_SEK;
             sattr "opacity" "0.25"] [].

(** The label [Δx = ...] above the rectangle. *)
Definition intervalLabel (st : State num) : Node :=
  el "text" [nattr "x" ((toSvgX (x0 st) + toSvgX (x0 st + deltaX st)) / lit 2);
             nattr "y" (toSvgY (lit 0) - lit 10);
             sattr "class" "delta-label"; sattr "text-anchor" "middle"]
    [Text [VStr "Δx = "; VStr (toFixed (deltaX st) 2)]].

(** The three polylines: tangent, secant, and the curve on top. *)
Definition curves (d : Derived num) : list Node :=
  [ el "polyline" [sattr "points" (d_tangentePoints d); sattr "class" "line-tangente"] [];
    el "polyline" [sattr "points" (d_sekantePoints d); sattr "class" "line-sekante"] [];
    el "polyline" [sattr "points" (d_funcPoints d); sattr "class" "line-func"] [] ].

(** The two marked points with their labels. *)
Definition markers (d : Derived num) : list Node :=
  [ el "circle" [nattr "cx" (px (d_px0 d)); nattr "cy" (py (d_px0 d));
                 sattr "r" "5"; sattr "fill" COLOR_POINT] [];
    el "text" [nattr "x" (px (d_px0 d) - lit 8); nattr "y" (py (d_px0 d) - lit 10);
               sattr "class" "point-label"; sattr "text-anchor" "middle"]
      [Text [VStr "P₁"]];
    el "circle" [nattr "cx" (px (d_px1 d)); nattr "cy" (py (d_px1 d));
                 sattr "r" "5"; sattr "fill" COLOR_SEK] [];
    el "text" [nattr "x" (px (d_px1 d) - lit 8); nattr "y" (py (d_px1 d) - lit 10);
               sattr "class" "point-label"; sattr "text-anchor" "middle"]
      [Text [VStr "P₂"]] ].

(** The legend: a sample stroke and a text for each of the three lines. *)
Definition legend (st : State num) (d : Derived num) : Node :=
  el "g" [attr "transform" [VStr "translate("; VNum (left PAD + lit 8); VStr ", ";
                            VNum (top PAD + lit 10); VStr ")"]]
    [ el "line" [sattr "x1" "0"; sattr "y1" "8"; sattr "x2" "22"; sattr "y2" "8";
                 sattr "stroke" COLOR_FUNC; sattr "stroke-width" "2.5"] [];
      el "text" [sattr "x" "27"; sattr "y" "9"; sattr "class" "legend-text"]
        [Text [VStr "f(x) = x² − 2x + 3"]];
      el "line" [sattr "x1" "0"; sattr "y1" "26"; sattr "x2" "22"; sattr "y2" "26";
                 sattr "stroke" COLOR_SEK; sattr "stroke-width" "2.5"] [];
      el "text" [sattr "x" "27"; sattr "y" "27"; sattr "class" "legend-text"]
        [Text [VStr "Sekante (Steigung = "; VStr (d_slopeDisplay d); VStr ")"]];
      el "line" [sattr "x1" "0"; sattr "y1" "44"; sattr "x2" "22"; sattr "y2" "44";
                 sattr "stroke" COLOR_TAN; sattr "stroke-width" "2.5";
                 sattr "stroke-dasharray" "5,3"] [];
      el "text" [sattr "x" "27"; sattr "y" "45"; sattr "class" "legend-text"]
        [Text [VStr "Tangente f′("; VNum (x0 st); VStr ") = ";
               VStr (toFixed (d_slope_tan d) 2)]] ].

(** The [svg] element inside its wrapper. *)
Definition chart (st : State num) (d : Derived num) : Node :=
  el "div" [sattr "class" "chart-wrap"]
    [ el "svg" [attr "viewBox" [VStr "0 0 "; VNum VW; VStr " "; VNum VH];
                sattr "preserveAspectRatio" "xMidYMid meet";
                sattr "role" "img";
                sattr "aria-label" "Diagramm: Sekante nähert sich der Tangente"]
        (gridLines ++ axes ++ tickLabels ++ axisTitles
         ++ [intervalRect st; intervalLabel st]
         ++ curves d ++ markers d ++ [legend st d]) ].

(** The heading and the instruction. *)
Definition header : Node :=
  el "header" []
    [ el "h1" [] [Text [VStr "Applet Sekante → Tangente"]];
      el "p" []
        [Text [VStr "Verschiebe Sie den Schieberegler und beobachten Sie, wie sich die Sekante der Tangente annähert, wenn&nbsp;Δx&nbsp;→&nbsp;0."]] ].

(** The range input bound to [deltaX], its label and its read-out. *)
Definition sliderRow (st : State num) : Node :=
  el "div" [sattr "class" "slider-row"]
    [ el "label" [sattr "for" "dx-slider"] [Text [VStr "Δx"]];
      Element "input"
        [sattr "id" "dx-slider"; sattr "type" "range";
         nattr "min" DX_MIN; nattr "max" DX_MAX; nattr "step" DX_STEP;
         nattr "value" (deltaX st)]
        [OnInput SliderInput] [];
      el "span" [sattr "class" "dx-value"] [Text [VStr (toFixed (deltaX st) 2)]] ].

(** [class:active={Math.abs(deltaX - preset) < 0.005}] *)
Definition presetActive (st : State num) (preset : num) : bool :=
  (nabs (deltaX st - preset) <? lit (5 # 1000))%js.

(** One button of the [#each] block over the presets. *)
Definition presetButton (st : State num) (preset : num) : Node :=
  Element "button"
    (if presetActive st preset then [sattr "class" "active"] else [])
    [OnClick (PresetClick preset)]
    [Text [VNum preset]].

Definition presetRow (st : State num) : Node :=
  el "div" [sattr "class" "presets"]
    (el "span" [sattr "class" "preset-label"] [Text [VStr "Voreinstellungen:"]]
     :: map (presetButton st) presets).

Definition controls (st : State num) : Node :=
  el "div" [sattr "class" "controls"] [sliderRow st; presetRow st].

(** The two tiles: secant slope, and approximation error in its colour. *)
Definition infoBar (d : Derived num) : Node :=
  el "div" [sattr "class" "info-bar"]
    [ el "div" [sattr "class" "info-tile"]
        [ el "span" [sattr "class" "info-label"] [Text [VStr "Sekantensteigung"]];
          el "span" [sattr "class" "info-value";
                     attr "style" [VStr "color: "; VStr COLOR_SEK]]
            [Text [VStr (d_slopeDisplay d)]] ];
      el "div" [sattr "class" "info-tile"]
        [ el "span" [sattr "class" "info-label"] [Text [VStr "Approximationsfehler"]];
          el "span" [sattr "class" "info-value";
                     attr "style" [VStr "color: "; VStr (d_errorColor d)]]
            [Text [VStr (d_errorDisplay d)]] ] ].

(** The whole component. *)
Definition applet (w : Widget num) : Node :=
  el "div" [sattr "class" "applet"]
    [ header; chart (w_state w) (w_derived w); controls (w_state w);
      infoBar (w_derived w) ].

(** The handlers of a tree, in document order. *)
Fixpoint handlersOf (n : Node) : list Handler :=
  match n with
  | Element _ _ hs kids => hs ++ flat_map handlersOf kids
  | Text _ => []
  end.

Definition attrsOf (n : Node) : list (string * Content) :=
  match n with
  | Element _ attrs _ _ => attrs
  | Text _ => []
  end.

Fixpoint lookupAttr (name : string) (attrs : list (string * Content)) : option Content :=
  match attrs with
  | [] => None
  | (k, c) :: rest => if String.eqb k name then Some c else lookupAttr name rest
  end.

(** The value of a numeric attribute of an element. *)
Definition attrNum (name : string) (n : Node) : option num :=
  match lookupAttr name (attrsOf n) with
  | Some [VNum v] => Some v
  | _ => None
  end.

Definition valNumbers (v : Val) : list num :=
  match v with
  | VNum x => [x]
  | VStr _ => []
  end.

(** The numbers the tree hands to the DOM, in document order. *)
Fixpoint numbersOf (n : Node) : list num :=
  match n with
  | Element _ attrs _ kids =>
      flat_map (fun a => flat_map valNumbers (snd a)) attrs ++ flat_map numbersOf kids
  | Text c => flat_map valNumbers c
  end.

(** The widget of a state with the strings of its reactive variables left
    out: enough to know the numbers of the tree. *)
Definition outline (st : State num) : Widget num :=
  {| w_state := st;
     w_derived :=
       {| d_slope_sek := slope_sek st; d_slope_tan := slope_tan st;
          d_slopeDisplay := ""; d_errorDisplay := "";
          d_funcPoints := ""; d_sekantePoints := ""; d_tangentePoints := "";
          d_px0 := px0 st; d_px1 := px1 st;
          d_errorRatio := errorRatio st; d_errorColor := "" |} |}.

(** The numbers of the tree that do not depend on the state: the view
    box, the grid, the axes and their labels. *)
Definition fixedNumbers : list num :=
  VW :: VH :: flat_map numbersOf (gridLines ++ axes ++ tickLabels ++ axisTitles).

(** The numbers that do: the interval, the markers, the legend and the
    controls. *)
Definition stateNumbers (st : State num) : list num :=
  let d := w_derived (outline st) in
  flat_map numbersOf ([intervalRect st; intervalLabel st] ++ curves d ++ markers d
                      ++ [legend st d])
  ++ numbersOf (controls st) ++ numbersOf (infoBar d).

(** ** For every instance *)

Lemma flat_map_handlers_nil (l : list Node) :
  Forall (fun n => handlersOf n = []) l -> flat_map handlersOf l = [].
Proof.
  induction 1 as [|n l Hn _ IH]; [reflexivity|].
  cbn [flat_map]. now rewrite Hn, IH.
Qed.

Lemma Forall_flat_map {A B : Type} (P : B -> Prop) (g : A -> list B) (l : list A) :
  (forall a, Forall P (g a)) -> Forall P (flat_map g l).
Proof.
  intros Hg. induction l as [|a l IH]; [constructor|].
  cbn [flat_map]. apply Forall_app. split; [apply Hg | exact IH].
Qed.

(** The chart is passive: no element of it handles an event. *)
Lemma handlers_chart (st : State num) (d : Derived num) : handlersOf (chart st d) = [].
Proof.
  cbn [chart el handlersOf flat_map app]. rewrite app_nil_r.
  apply flat_map_handlers_nil.
  repeat (apply Forall_app; split);
    try (apply Forall_map, Forall_forall; intros; reflexivity);
    try (apply Forall_flat_map; intros; case_if; repeat constructor);
    repeat constructor.
Qed.

(** The handlers of the component: the slider's binding and one click
    handler for each preset, in the order of the presets. *)
Theorem handlers_applet (w : Widget num) :
  handlersOf (applet w) =
  OnInput SliderInput :: map (fun p => OnClick (PresetClick p)) presets.
Proof.
  unfold applet, el. cbn [handlersOf flat_map app]. rewrite handlers_chart.
  reflexivity.
Qed.

(** C39: every handler of the component raises an event of the transition
    relation: a click on a button is a [step_preset], an input of the
    slider with the string of a slider position is a [step_slider], on
    every instance whose constants give the slider its 200 positions. *)
Theorem handlers_enabled `{!SliderGrid num} (w : Widget num) (h : Handler) :
  In h (handlersOf (applet w)) ->
  match h with
  | OnClick e => step w (dispatch e w)
  | OnInput e =>
      forall k, (1 <= k <= 200)%nat -> step w (dispatch (e (sliderString k)) w)
  end.
Proof.
  rewrite handlers_applet. intros [<- | Hin].
  - intros k Hk. now apply step_slide.
  - apply in_map_iff in Hin as (p & <- & Hp). now constructor.
Qed.

Lemma numbersOf_split (st : State num) :
  numbersOf (applet (outline st)) = (fixedNumbers ++ stateNumbers st)%list.
Proof.
  unfold applet, chart, fixedNumbers, stateNumbers, header, el.
  cbn [numbersOf flat_map app w_state w_derived outline].
  rewrite !app_nil_r. cbn [sattr attr flat_map valNumbers snd app].
  rewrite !app_assoc, !flat_map_app. cbn [app]. rewrite <- !app_assoc. reflexivity.
Qed.

(** The numbers of the tree do not depend on the strings of the reactive
    variables. *)
Lemma numbersOf_outline (w : Widget num) :
  consistent w -> numbersOf (applet w) = numbersOf (applet (outline (w_state w))).
Proof.
  destruct w as [st d]. unfold consistent. cbn [w_state w_derived]. intros ->.
  unfold applet, outline, recompute. cbn [w_state w_derived].
  unfold chart, infoBar, curves, markers, legend, el.
  cbn [numbersOf flat_map app]. rewrite !flat_map_app.
  cbn [numbersOf flat_map valNumbers app snd fst sattr nattr attr
       d_px0 d_px1 d_slope_tan d_slopeDisplay d_errorDisplay d_errorColor
       d_funcPoints d_sekantePoints d_tangentePoints].
  reflexivity.
Qed.

End View.

Arguments Val num : clear implicits.
Arguments Content num : clear implicits.
Arguments Handler num : clear implicits.
Arguments Node num : clear implicits.

(** ** Exact semantics *)

#[local] Open Scope Q_scope.

Lemma presetActive_exact (st : State Q) (p : Q) :
  presetActive st p = true <-> Qabs (deltaX st - p) < 5 # 1000.
Proof. unfold presetActive. js_exact. apply Qltb_lt. Qed.

(** The presets as fractions. *)
Lemma presets_exact (p : Q) :
  In p presets <-> p = 2 \/ p = 1 \/ p = 1 # 2 \/ p = 1 # 10 \/ p = 1 # 100.
Proof. cbn. intuition congruence. Qed.

(** C24: whatever the step size, at most one preset button is active. *)
Theorem preset_active_unique (st : State Q) (p q : Q) :
  In p presets -> In q presets ->
  presetActive st p = true -> presetActive st q = true -> p = q.
Proof.
  intros Hp Hq Ap Aq.
  apply presetActive_exact, Qabs_lt_iff in Ap.
  apply presetActive_exact, Qabs_lt_iff in Aq.
  apply presets_exact in Hp, Hq.
  destruct Hp as [-> | [-> | [-> | [-> | ->]]]], Hq as [-> | [-> | [-> | [-> | ->]]]];
    try reflexivity; exfalso; lra.
Qed.

Lemma preset_active_unique_witness : (1 # 2) = (1 # 2).
Proof.
  apply (preset_active_unique {| deltaX := 1 # 2; x0 := 2 |} (1 # 2) (1 # 2));
    first [reflexivity | cbn; auto 6].
Defined.

(** A click on a preset button makes that button the active one. *)
Theorem preset_click_activates (st : State Q) (p : Q) :
  presetActive (handle (PresetClick p) st) p = true.
Proof.
  apply presetActive_exact. cbn [handle deltaX].
  setoid_replace (p - p) with 0 by ring. reflexivity.
Qed.

(** In a reachable widget a preset button is active exactly when [deltaX]
    is that preset: slider values are a hundredth apart, twice the
    tolerance of the test. *)
Theorem reachable_active_iff (w : Widget Q) (p : Q) :
  reachable w -> In p presets ->
  (presetActive (w_state w) p = true <-> deltaX (w_state w) == p).
Proof.
  intros Hr Hp. destruct (reachable_grid w Hr) as (k & Hk & E).
  destruct (presets_on_grid p Hp) as (m & Hm & Ep).
  rewrite presetActive_exact, Qabs_lt_iff, E, Ep, !gridValue_mul.
  split.
  - intros [H1 H2]. destruct (Nat.eq_dec k m) as [-> | Hne]; [reflexivity|].
    exfalso. destruct (Nat.lt_ge_cases k m) as [Hlt | Hge].
    + assert (Hle : (S k <= m)%nat) by lia. apply nat_le_Q in Hle.
      rewrite Nat2Z.inj_succ in Hle. unfold Z.succ in Hle.
      rewrite inject_Z_plus in Hle. change (inject_Z 1) with 1 in Hle.
      lra.
    + assert (Hle : (S m <= k)%nat) by lia. apply nat_le_Q in Hle.
      rewrite Nat2Z.inj_succ in Hle. unfold Z.succ in Hle.
      rewrite inject_Z_plus in Hle. change (inject_Z 1) with 1 in Hle.
      lra.
  - intros H. lra.
Qed.

Lemma reachable_active_iff_witness :
  presetActive (w_state (clicked 1)) 1 = true <-> deltaX (w_state (clicked 1)) == 1.
Proof.
  apply (reachable_active_iff (clicked 1) 1); [reach_clicked | cbn; auto 6].
Defined.

(** When the component is mounted ([deltaX = 1.5]) no preset is active. *)
Example mount_no_preset_active :
  forallb (fun p => negb (presetActive init p)) (presets (num := Q)) = true.
Proof. vm_compute. reflexivity. Qed.

(** The two cases of the specification: 0.499 activates the preset 0.5,
    0.51 does not. *)
Example presetActive_examples :
  presetActive {| deltaX := 499 # 1000; x0 := 2 |} (1 # 2) = true /\
  presetActive {| deltaX := 51 # 100; x0 := 2 |} (1 # 2) = false.
Proof. split; vm_compute; reflexivity. Qed.

(** The grid has one line per tick: nine vertical and ten horizontal. *)
Theorem gridLines_count : List.length (gridLines (num := Q)) = 19%nat.
Proof. vm_compute. reflexivity. Qed.

(** The origin is not labelled: eight labels on the x axis, nine on the y
    axis, none of them for the value zero. *)
Theorem tickLabels_count :
  List.length (tickLabels (num := Q)) = 17%nat /\
  Forall (fun n => match n with
                   | Element _ _ _ [Text [VNum v]] => 0 < v
                   | _ => False
                   end) (tickLabels (num := Q)).
Proof.
  split; [vm_compute; reflexivity|].
  vm_compute. repeat constructor.
Qed.

(** C37: the shaded rectangle starts at the image of [x0], is [deltaX] wide in
    the scale of the x axis, and in a reachable widget it is not empty and
    ends within the plot. *)
Theorem intervalRect_geometry (w : Widget Q) :
  reachable w ->
  exists x wd,
    attrNum "x" (intervalRect (w_state w)) = Some x /\
    attrNum "width" (intervalRect (w_state w)) = Some wd /\
    x == toSvgX 2 /\
    wd == deltaX (w_state w) * (525 # 4) /\
    0 < wd /\ x + wd <= VW - right PAD.
Proof.
  intros Hr. pose proof (reachable_x0_exact w Hr) as Hx.
  pose proof (reachable_bounds w Hr) as [Hlo Hhi].
  eexists _, _. split; [reflexivity|]. split; [reflexivity|].
  js_exact. rewrite !toSvgX_exact, Hx. mapper_unfold.
  repeat split; try ring; lra.
Qed.

Lemma intervalRect_geometry_witness :
  exists x wd,
    attrNum "x" (intervalRect (w_state (clicked 1))) = Some x /\
    attrNum "width" (intervalRect (w_state (clicked 1))) = Some wd /\
    x == toSvgX 2 /\
    wd == deltaX (w_state (clicked 1)) * (525 # 4) /\
    0 < wd /\ x + wd <= VW - right PAD.
Proof. apply (intervalRect_geometry (clicked 1)). reach_clicked. Defined.

Lemma handlers_enabled_witness :
  step mount (dispatch (PresetClick 2) (mount (num := Q))).
Proof.
  apply (handlers_enabled mount (OnClick (PresetClick 2))).
  rewrite handlers_applet. cbn. auto.
Defined.

(** The slider shows the state: its [value] is [deltaX] and its range is
    [[DX_MIN, DX_MAX]] in steps of [DX_STEP]. *)
Theorem slider_attributes (st : State Q) :
  match sliderRow st with
  | Element _ _ _ [_; input; _] =>
      attrNum "value" input = Some (deltaX st) /\
      attrNum "min" input = Some DX_MIN /\
      attrNum "max" input = Some DX_MAX /\
      attrNum "step" input = Some DX_STEP
  | _ => False
  end.
Proof. cbn. repeat split. Qed.

(** The label of the interval and the read-out of the slider when the
    component is mounted. *)
Example mount_labels :
  renderContent [VStr "Δx = "; VStr (toFixed (deltaX (init (num := Q))) 2)]
  = "Δx = 1.50"%string.
Proof. vm_compute. reflexivity. Qed.

(** ** Binary64 semantics *)

(** Which buttons of the preset row carry the class [active]. *)
Definition activeRow {num : Type} `{JSNumber num} (st : State num) : list bool :=
  map (presetActive st) presets.

(** Checked on one action: the same buttons are active in doubles and in
    exact arithmetic. *)
Definition active_agrees (a : Action) : bool :=
  if list_eq_dec bool_dec
       (activeRow (handle (event a) (init (num := float))))
       (activeRow (handle (event a) (init (num := Q))))
  then true else false.

Lemma slides_active_agree : forallb (fun k => active_agrees (Slide k)) (seq 1 200) = true.
Proof. vm_compute. reflexivity. Qed.

Lemma clicks_active_agree : forallb (fun i => active_agrees (Click i)) (seq 0 5) = true.
Proof. vm_compute. reflexivity. Qed.

(** After the same actions the same preset buttons are highlighted,
    whether the component computes in doubles or exactly: the comparison
    [Math.abs(deltaX - preset) < 0.005] is never decided by rounding. *)
Theorem binary64_active_buttons (acts : list Action) :
  forallb allowed acts = true ->
  activeRow (w_state (perform (num := float) acts)) =
  activeRow (w_state (perform (num := Q) acts)).
Proof.
  rewrite !perform_state. revert acts.
  apply (after_actions_both (fun st sq => activeRow st = activeRow sq));
    [vm_compute; reflexivity|].
  intros a Ha.
  pose proof (allowed_check active_agrees slides_active_agree clicks_active_agree a Ha) as Hag.
  unfold active_agrees in Hag. now destruct (list_eq_dec _ _ _).
Qed.

Lemma binary64_active_buttons_witness :
  activeRow (w_state (perform (num := float) [Slide 50])) =
  activeRow (w_state (perform (num := Q) [Slide 50])).
Proof. apply (binary64_active_buttons [Slide 50]). reflexivity. Defined.

(** The slider position 50 highlights the third button, in doubles too. *)
Example activeRow_binary64 :
  activeRow (lastState (num := float) [Slide 50]) = [false; false; true; false; false] /\
  activeRow (lastState (num := float) []) = [false; false; false; false; false].
Proof. vm_compute. split; reflexivity. Qed.

(** Checked on one state: every number of the tree that depends on the
    state is a finite double. *)
Definition finiteTree (st : State float) : bool :=
  forallb PrimFloat.is_finite (stateNumbers st).

Lemma fixed_finite : forallb PrimFloat.is_finite (fixedNumbers (num := float)) = true.
Proof. vm_compute. reflexivity. Qed.

Lemma slides_finite :
  forallb (fun k => finiteTree (handle (event (Slide k)) init)) (seq 1 200) = true.
Proof. vm_compute. reflexivity. Qed.

Lemma clicks_finite :
  forallb (fun i => finiteTree (handle (event (Click i)) init)) (seq 0 5) = true.
Proof. vm_compute. reflexivity. Qed.

(** The tree is well typed in doubles: after any sequence of allowed
    actions every number handed to the DOM, as a coordinate, a length or
    a text, is a finite double; no attribute ever reads [NaN] or
    [Infinity]. *)
Theorem binary64_numbers_finite (acts : list Action) :
  forallb allowed acts = true ->
  forallb PrimFloat.is_finite (numbersOf (applet (perform (num := float) acts))) = true.
Proof.
  intros Ha. rewrite numbersOf_outline by apply run_consistent, mount_consistent.
  rewrite perform_state, numbersOf_split, forallb_app, fixed_finite. cbn [andb].
  revert acts Ha. apply (after_actions (fun st => finiteTree st = true));
    [vm_compute; reflexivity|].
  exact (allowed_check (fun a => finiteTree (handle (event a) init))
           slides_finite clicks_finite).
Qed.

Lemma binary64_numbers_finite_witness :
  forallb PrimFloat.is_finite (numbersOf (applet (perform (num := float) [Slide 200]))) = true.
Proof. apply (binary64_numbers_finite [Slide 200]). reflexivity. Defined.

(** Checked on one action: each number of the tree that depends on the
    state is, in doubles, within [1e-12] of its exact value. *)
Definition closeTree (a : Action) : bool :=
  allWithin (1 # 10 ^ 12)
    (stateNumbers (handle (event a) init))
    (stateNumbers (num := Q) (handle (event a) init)).

Lemma fixed_close : allWithin (1 # 10 ^ 12) fixedNumbers fixedNumbers = true.
Proof. vm_compute. reflexivity. Qed.

Lemma slides_close : forallb (fun k => closeTree (Slide k)) (seq 1 200) = true.
Proof. vm_compute. reflexivity. Qed.

Lemma clicks_close : forallb (fun i => closeTree (Click i)) (seq 0 5) = true.
Proof. vm_compute. reflexivity. Qed.

(** C16: the tree in doubles is the exact tree: after the same allowed
    actions the two trees hold the same number of numbers, and each
    coordinate, length and label the doubles hand to the DOM is finite and
    within [1e-12] of the number the formulas of the script denote. *)
Theorem binary64_tree_close (acts : list Action) :
  forallb allowed acts = true ->
  Forall2 (close (1 # 10 ^ 12))
    (numbersOf (applet (perform (num := float) acts)))
    (numbersOf (applet (perform (num := Q) acts))).
Proof.
  intros Ha.
  rewrite (numbersOf_outline (num := float)), (numbersOf_outline (num := Q))
    by apply run_consistent, mount_consistent.
  rewrite !perform_state, (numbersOf_split (num := float)), (numbersOf_split (num := Q)).
  apply Forall2_app; [exact (allWithin_spec _ _ _ fixed_close)|].
  revert acts Ha.
  apply (after_actions_both
           (fun st sq => Forall2 (close (1 # 10 ^ 12)) (stateNumbers st) (stateNumbers sq))).
  - apply allWithin_spec. vm_compute. reflexivity.
  - intros a Ha. apply allWithin_spec.
    exact (allowed_check closeTree slides_close clicks_close a Ha).
Qed.

Lemma binary64_tree_close_witness :
  Forall2 (close (1 # 10 ^ 12))
    (numbersOf (applet (perform (num := float) [Slide 123])))
    (numbersOf (applet (perform (num := Q) [Slide 123]))).
Proof. apply (binary64_tree_close [Slide 123]). reflexivity. Defined.

(** With a step of zero the tree is not well typed: the legend and the
    read-outs would be built from [NaN]. *)
Example zero_step_not_finite :
  finiteTree {| deltaX := lit 0; x0 := lit 2 |} = true /\
  PrimFloat.is_nan (slope_sek (num := float) {| deltaX := lit 0; x0 := lit 2 |}) = true.
Proof. vm_compute. split; reflexivity. Qed.
