(* ===== verification/Markup.v ===== *)
(** * Markup: the page as the user reads it

    The rendered tree ([View.applet]) written out as a sequence of markup
    tokens: tags, attribute names, attribute values, handlers and texts,
    in document order.  A number in a text is written as JavaScript prints
    it; a number inside an attribute value is written as [#] and the value
    of a [points] attribute is left out: these are the coordinates, which
    [View.binary64_tree_close] and [Sampler.curve_binary64] compare.

    Theorem: after the same actions the page in doubles and the page in
    exact arithmetic are the same sequence of tokens.  Every element,
    class, handler, label, read-out and colour the user meets is the one
    the formulas of the script denote. *)

From Stdlib Require Import List String Bool ZArith QArith Lia Floats.
From S2P Require Import Prelude Decimal JSNumber Exact Binary64.
From S2P Require Import MathModel Mapper Sampler Ticks Color Reactive Widget View.
Import ListNotations.

Section Markup.
Context {num : Type} `{JSNumber num}.
#[local] Open Scope string_scope.

(** A part of an attribute value: markup as written, [#] for a number. *)
Definition attrPart (v : Val num) : string :=
  match v with
  | VStr s => s
  | VNum _ => "#"
  end.

(** A part of a text: markup as written, a number as it prints. *)
Definition textPart (v : Val num) : string :=
  match v with
  | VStr s => s
  | VNum n => toStr n
  end.

Definition attrTokens (a : string * Content num) : list string :=
  (" " ++ fst a ++ "=")
  :: (if String.eqb (fst a) "points" then [] else map attrPart (snd a)).

Definition handlerToken (h : Handler num) : string :=
  match h with
  | OnClick _ => " on:click"
  | OnInput _ => " on:input"
  end.

(** The tokens of a tree, in document order. *)
Fixpoint tokensOf (n : Node num) : list string :=
  match n with
  | Element tag attrs hs kids =>
      ("<" ++ tag) :: flat_map attrTokens attrs ++ map handlerToken hs
      ++ ">" :: flat_map tokensOf kids ++ ["</" ++ tag ++ ">"]
  | Text c => map textPart c
  end.

(** The widget of a state with the three polylines left out. *)
Definition sketch (st : State num) : Widget num :=
  {| w_state := st;
     w_derived :=
       {| d_slope_sek := slope_sek st; d_slope_tan := slope_tan st;
          d_slopeDisplay := slopeDisplay st; d_errorDisplay := errorDisplay st;
          d_funcPoints := ""; d_sekantePoints := ""; d_tangentePoints := "";
          d_px0 := px0 st; d_px1 := px1 st;
          d_errorRatio := errorRatio st; d_errorColor := errorColor st |} |}.

(** The tokens up to the first grid line, those of the grid, the axes and
    their labels, and the rest, which depends on the state. *)
Definition headTokens : list string :=
  ["<div"; " class="; "applet"; ">"] ++ tokensOf header
  ++ ["<div"; " class="; "chart-wrap"; ">"; "<svg"; " viewBox="; "0 0 "; "#"; " "; "#";
      " preserveAspectRatio="; "xMidYMid meet"; " role="; "img";
      " aria-label="; "Diagramm: Sekante nähert sich der Tangente"; ">"].

Definition fixedTokens : list string :=
  flat_map tokensOf (gridLines ++ axes ++ tickLabels ++ axisTitles).

Definition stateTokens (st : State num) : list string :=
  let d := w_derived (sketch st) in
  flat_map tokensOf ([intervalRect st; intervalLabel st] ++ curves d ++ markers d
                   ++ [legend st d])
  ++ ["</svg>"; "</div>"] ++ tokensOf (controls st) ++ tokensOf (infoBar d) ++ ["</div>"].

(** ** For every instance *)

(** The tokens do not depend on the polylines. *)
Lemma tokens_sketch (w : Widget num) :
  consistent w -> tokensOf (applet w) = tokensOf (applet (sketch (w_state w))).
Proof.
  destruct w as [st d]. unfold consistent. cbn [w_state w_derived]. intros ->.
  unfold applet, sketch, recompute. cbn [w_state w_derived].
  unfold chart, el. cbn [tokensOf flat_map app]. rewrite !flat_map_app.
  reflexivity.
Qed.

Lemma tokens_split (st : State num) :
  tokensOf (applet (sketch st)) = (headTokens ++ fixedTokens ++ stateTokens st)%list.
Proof.
  unfold applet, chart, headTokens, fixedTokens, stateTokens, el.
  cbn [tokensOf flat_map map w_state w_derived sketch sattr attr attrTokens fst snd
       attrPart String.eqb Ascii.eqb Bool.eqb String.append].
  repeat first [rewrite flat_map_app | rewrite <- app_assoc | rewrite app_nil_r
               | progress cbn [app flat_map]].
  reflexivity.
Qed.

End Markup.

(** ** Exact semantics *)

(** What the mounted page says below the chart. *)
Example mount_controls :
  tokensOf (controls (init (num := Q))) =
  ["<div"; " class="; "controls"; ">";
     "<div"; " class="; "slider-row"; ">";
       "<label"; " for="; "dx-slider"; ">"; "Δx"; "</label>";
       "<input"; " id="; "dx-slider"; " type="; "range"; " min="; "#"; " max="; "#";
         " step="; "#"; " value="; "#"; " on:input"; ">"; "</input>";
       "<span"; " class="; "dx-value"; ">"; "1.50"; "</span>";
     "</div>";
     "<div"; " class="; "presets"; ">";
       "<span"; " class="; "preset-label"; ">"; "Voreinstellungen:"; "</span>";
       "<button"; " on:click"; ">"; "2"; "</button>";
       "<button"; " on:click"; ">"; "1"; "</button>";
       "<button"; " on:click"; ">"; "0.5"; "</button>";
       "<button"; " on:click"; ">"; "0.1"; "</button>";
       "<button"; " on:click"; ">"; "0.01"; "</button>";
     "</div>";
   "</div>"]%string.
Proof. vm_compute. reflexivity. Qed.

(** ** Binary64 semantics *)

Definition sameTokens (a b : list string) : bool :=
  if list_eq_dec string_dec a b then true else false.

Lemma sameTokens_eq (a b : list string) : sameTokens a b = true -> a = b.
Proof. unfold sameTokens. now destruct (list_eq_dec string_dec a b). Qed.

(** Checked on one action: the tokens that depend on the state are the
    same in doubles and in exact arithmetic. *)
Definition samePage (a : Action) : bool :=
  sameTokens (stateTokens (handle (event a) (init (num := float))))
             (stateTokens (handle (event a) (init (num := Q)))).

Lemma head_same : headTokens (num := float) = headTokens (num := Q).
Proof. vm_compute. reflexivity. Qed.

Lemma fixed_same : fixedTokens (num := float) = fixedTokens (num := Q).
Proof. vm_compute. reflexivity. Qed.

Lemma slides_same : forallb (fun k => samePage (Slide k)) (seq 1 200) = true.
Proof. vm_compute. reflexivity. Qed.

Lemma clicks_same : forallb (fun i => samePage (Click i)) (seq 0 5) = true.
Proof. vm_compute. reflexivity. Qed.

(** C14: the page in doubles is the page meant: after any sequence of
    allowed actions the component computing in doubles and the component
    computing exactly render the same elements, classes, handlers and
    texts, token for token; they differ only in the coordinates, which
    are within [1e-12]. *)
Theorem binary64_same_page (acts : list Action) :
  forallb allowed acts = true ->
  tokensOf (applet (perform (num := float) acts)) =
  tokensOf (applet (perform (num := Q) acts)).
Proof.
  intros Ha.
  rewrite (tokens_sketch (num := float)), (tokens_sketch (num := Q))
    by apply run_consistent, mount_consistent.
  rewrite !perform_state, (tokens_split (num := float)), (tokens_split (num := Q)).
  rewrite head_same, fixed_same. do 2 f_equal. revert acts Ha.
  apply (after_actions_both (fun st sq => stateTokens st = stateTokens sq)).
  - vm_compute. reflexivity.
  - intros a Ha. apply sameTokens_eq.
    exact (allowed_check samePage slides_same clicks_same a Ha).
Qed.

Lemma binary64_same_page_witness :
  tokensOf (applet (perform (num := float) [Click 4; Slide 77])) =
  tokensOf (applet (perform (num := Q) [Click 4; Slide 77])).
Proof. apply (binary64_same_page [Click 4; Slide 77]). reflexivity. Defined.
