(* ===== verification/Cascade.v ===== *)
(** * Cascade: the style sheet applied to the template

    The elements of the rendered tree ([View.applet]) as the style sheet
    sees them, each with its ancestors, and the value a property takes on
    an element: the inline [style] attribute first, then the cascade of
    [Style], then the element's own presentation attribute.

    Theorems: the style sheet and the template fit (every class of the
    template is styled, every rule selects an element, the rule for the
    active button exactly when a preset is active); the active preset
    button is the one painted in the accent colour, hovered or not; how
    the curves, the markers and the samples of the legend are painted;
    the read-outs take their colour from the script. *)

From Stdlib Require Import List String Bool ZArith QArith Qabs Lia Lqa.
From S2P Require Import Prelude Decimal JSNumber Exact.
From S2P Require Import MathModel Mapper Sampler Ticks Color Style Reactive Widget View.
Import ListNotations.

Section Cascade.
Context {num : Type} `{JSNumber num}.
#[local] Open Scope string_scope.

Definition tagOf (n : Node num) : string :=
  match n with
  | Element tag _ _ _ => tag
  | Text _ => ""
  end.

Definition childrenOf (n : Node num) : list (Node num) :=
  match n with
  | Element _ _ _ kids => kids
  | Text _ => []
  end.

Definition isElement (n : Node num) : bool :=
  match n with
  | Element _ _ _ _ => true
  | Text _ => false
  end.

(** The classes of an element.  Every [class] attribute of the template
    holds a single name. *)
Definition classesOf (n : Node num) : list string :=
  match lookupAttr "class" (attrsOf n) with
  | Some c => [renderContent c]
  | None => []
  end.

(** The element as a selector sees it.  No element of the component is
    the root of the document; the pointer is over it or not; [last] says
    whether an element follows among its siblings. *)
Definition elemOf (hover last : bool) (n : Node num) : Elem :=
  {| e_tag := tagOf n;
     e_classes := classesOf n;
     e_attrs := map (fun a => (fst a, renderContent (snd a))) (attrsOf n);
     e_root := false;
     e_hover := hover;
     e_last := last |}.

(** An element in its place: its ancestors (the parent first), what a
    selector sees of it, and the node. *)
Definition Placed : Type := list Elem * Elem * Node num.

(** The elements of a tree in document order. *)
Fixpoint elements (ancestors : list Elem) (last : bool) (n : Node num) : list Placed :=
  match n with
  | Text _ => []
  | Element _ _ _ kids =>
      let e := elemOf false last n in
      (ancestors, e, n) ::
      (fix go (ks : list (Node num)) : list Placed :=
         match ks with
         | [] => []
         | k :: ks' =>
             (elements (e :: ancestors) (negb (existsb isElement ks')) k ++ go ks')%list
         end) kids
  end.

(** The declaration of [prop] in the element's [style] attribute. *)
Definition inlineStyle (prop : string) (n : Node num) : option string :=
  match lookupAttr "style" (attrsOf n) with
  | Some (VStr p :: rest) =>
      if String.eqb p (prop ++ ": ") then Some (renderContent rest) else None
  | _ => None
  end.

(** The value of [prop] on a placed element: the inline style wins, then
    the style sheet, then the presentation attribute. *)
Definition styled (prop : string) (x : Placed) : option string :=
  let '(ancestors, e, n) := x in
  match inlineStyle prop n with
  | Some v => Some v
  | None =>
      match specified prop ancestors e with
      | Some v => Some v
      | None => option_map renderContent (lookupAttr prop (attrsOf n))
      end
  end.

(** The same with the pointer over the element. *)
Definition styledHover (prop : string) (x : Placed) : option string :=
  let '(ancestors, e, n) := x in styled prop (ancestors, elemOf true (e_last e) n, n).

(** The placed elements of the component with a given tag. *)
Definition tagged (t : string) (w : Widget num) : list Placed :=
  filter (fun x => String.eqb (e_tag (snd (fst x))) t) (elements [] true (applet w)).

(** Those of them that carry class [c]. *)
Definition classed (t c : string) (w : Widget num) : list Placed :=
  filter (fun x => existsb (String.eqb c) (e_classes (snd (fst x)))) (tagged t w).

(** The line samples of the legend: the [line] elements inside the [g]. *)
Definition legendSamples (w : Widget num) : list Placed :=
  filter (fun x => match fst (fst x) with
                   | parent :: _ => String.eqb (e_tag parent) "g"
                   | [] => false
                   end) (tagged "line" w).

(** Does the selector select one of the placed elements? *)
Definition selectsSome (s : Selector) (els : list Placed) : bool :=
  existsb (fun x => matchSelector s (fst (fst x)) (snd (fst x))) els.

(** Is the class named by a selector of the sheet? *)
Definition classStyled (c : string) : bool :=
  existsb (fun r => existsb (existsb (fun k => match c_class k with
                                               | Some c' => String.eqb c c'
                                               | None => false
                                               end)) (selectors r)) styleSheet.

(** The selectors of the sheet that select no element of the component. *)
Definition idleAmong (els : list Placed) : list Selector :=
  filter (fun s => negb (selectsSome s els)) (flat_map selectors styleSheet).

Definition idleSelectors (w : Widget num) : list Selector :=
  idleAmong (elements [] true (applet w)).

(** The classes that occur in the component. *)
Definition classesUsed (w : Widget num) : list string :=
  flat_map (fun x => e_classes (snd (fst x))) (elements [] true (applet w)).

(** ** Well-formedness of the tree *)

(** Elements that have no content. *)
Definition voidTags : list string := ["input"; "line"; "circle"; "rect"; "polyline"].

(** Elements a handler may sit on. *)
Definition interactiveTags : list string := ["input"; "button"].

Fixpoint distinct (names : list string) : bool :=
  match names with
  | [] => true
  | n :: rest => negb (existsb (String.eqb n) rest) && distinct rest
  end.

(** An element is well formed when its attribute names are distinct, it
    has no content if it is void, it carries handlers only if it is
    interactive, and its children are well formed. *)
Fixpoint wellFormed (n : Node num) : bool :=
  match n with
  | Text _ => true
  | Element t attrs hs kids =>
      distinct (map fst attrs)
      && (negb (existsb (String.eqb t) voidTags) || match kids with [] => true | _ => false end)
      && (match hs with [] => true | _ => existsb (String.eqb t) interactiveTags end)
      && forallb wellFormed kids
  end.

(** The values of attribute [name] in the tree. *)
Fixpoint attrValues (name : string) (n : Node num) : list string :=
  match n with
  | Text _ => []
  | Element _ attrs _ kids =>
      (match lookupAttr name attrs with
       | Some c => [renderContent c]
       | None => []
       end ++ flat_map (attrValues name) kids)%list
  end.

End Cascade.

(** ** Exact semantics *)

#[local] Open Scope string_scope.

(** Unfolds the component down to the five buttons, whose class depends on
    the state, and decides each [presetActive] both ways. *)
Ltac by_active_cases :=
  cbv beta iota delta [tagged classed legendSamples applet controls presetRow presets
                       map presetButton];
  repeat match goal with
         | |- context [presetActive ?s ?p] => destruct (presetActive s p)
         end;
  vm_compute; repeat split.

(** C29: how the three curves and their samples in the legend are painted.  The
    curves take stroke, width and dashes from the style sheet, the samples
    from their attributes.  Only the colour of the tangent agrees: the
    function is drawn in [#1a5276] and explained in [#005A94], the secant
    is drawn in [#c0392b] and explained in [#E60000]; the dashes of the
    tangent are [7 4] on the curve and [5,3] in the legend. *)
Theorem legend_strokes (w : Widget Q) :
  map (styled "stroke") (tagged "polyline" w)
    = [Some "#27ae60"; Some "#c0392b"; Some "#1a5276"] /\
  map (styled "stroke") (legendSamples w) = [Some COLOR_FUNC; Some COLOR_SEK; Some COLOR_TAN] /\
  map (styled "stroke") (legendSamples w) = [Some "#005A94"; Some "#E60000"; Some "#27ae60"] /\
  map (styled "stroke-width") (tagged "polyline" w) = [Some "1.8"; Some "2"; Some "2.5"] /\
  map (styled "stroke-width") (legendSamples w) = [Some "2.5"; Some "2.5"; Some "2.5"] /\
  map (styled "stroke-dasharray") (tagged "polyline" w) = [Some "7 4"; None; None] /\
  map (styled "stroke-dasharray") (legendSamples w) = [None; None; Some "5,3"].
Proof. vm_compute. repeat split. Qed.

(** The markers: both circles are filled from the script's constants, the
    first in [COLOR_POINT], an orange, the second in [COLOR_SEK]; both
    labels are filled by the style sheet, in violet. *)
Theorem marker_fills (w : Widget Q) :
  map (styled "fill") (tagged "circle" w) = [Some "#e87846"; Some "#E60000"] /\
  map (styled "fill") (classed "text" "point-label" w) = [Some "#8e44ad"; Some "#8e44ad"].
Proof. vm_compute. repeat split. Qed.

(** The read-outs take their colour from the script: the inline style
    wins, the slope is printed in [COLOR_SEK] and the error in the colour
    computed from it. *)
Theorem readout_colours (w : Widget Q) :
  map (styled "color") (classed "span" "info-value" w)
    = [Some COLOR_SEK; Some (d_errorColor (w_derived w))] /\
  map (styled "font-weight") (classed "span" "info-value" w) = [Some "700"; Some "700"].
Proof. vm_compute. repeat split. Qed.

(** The tiles: the second is the last child and loses its right border
    to the more specific rule. *)
Theorem tile_borders (w : Widget Q) :
  map (styled "border-right") (classed "div" "info-tile" w)
    = [Some "1px solid #ddddd0"; Some "none"].
Proof. vm_compute. reflexivity. Qed.

(** A preset button is painted in the accent colour exactly when it is
    active, whether the pointer is over it or not: the rule for the
    active button and the rule for the hovered button are equally
    specific, and the former comes later. *)
Lemma buttons_painted (w : Widget Q) :
  map (styled "background") (tagged "button" w)
    = map (fun b : bool => Some (if b then "#c0392b" else "#fafaf7")) (activeRow (w_state w)) /\
  map (styled "color") (tagged "button" w)
    = map (fun b : bool => Some (if b then "white" else "#1c1c1a")) (activeRow (w_state w)) /\
  map (styledHover "background") (tagged "button" w)
    = map (fun b : bool => Some (if b then "#c0392b" else "#f0ede0")) (activeRow (w_state w)).
Proof. unfold activeRow. by_active_cases. Qed.

(** C20: in a reachable widget the button painted in the accent colour is the
    one whose preset is the current step: the state, the [class:active]
    directive and the style sheet agree. *)
Theorem accent_marks_current (w : Widget Q) (i : nat) :
  reachable w -> (i < 5)%nat ->
  (nth i (map (styled "background") (tagged "button" w)) None = Some "#c0392b"
   <-> deltaX (w_state w) == nth i presets 0).
Proof.
  intros Hr Hi. destruct (buttons_painted w) as [-> _]. unfold activeRow.
  rewrite map_map, (nth_map_in _ _ _ 0) by exact Hi.
  rewrite <- (reachable_active_iff w _ Hr) by (apply nth_In; exact Hi).
  destruct (presetActive _ _); split; congruence.
Qed.

Lemma accent_marks_current_witness :
  nth 1 (map (styled "background") (tagged "button" (clicked 1))) None = Some "#c0392b"
  <-> deltaX (w_state (clicked 1)) == nth 1 presets 0.
Proof. apply (accent_marks_current (clicked 1) 1); [reach_clicked | lia]. Defined.

(** C30: the style sheet and the template fit: every class of the template is
    named by a selector, and the selectors that select nothing are those
    that cannot select an element of a component at rest ([:root], the
    two pseudo-elements, the hovered button) and, when no preset is
    active, the rule for the active button. *)
Theorem sheet_fits_template (w : Widget Q) :
  forallb classStyled (classesUsed w) = true /\
  idleSelectors w =
    ([ [mkCompound None None None Root]; [mkCompound None None None Before];
       [mkCompound None None None After]; [mkCompound (Some "button") None None Hover] ]
     ++ (if existsb (fun b => b) (activeRow (w_state w)) then []
         else [[mkCompound (Some "button") (Some "active") None Plain]]))%list.
Proof.
  unfold idleSelectors, classesUsed, activeRow.
  by_active_cases.
Qed.

(** C32: the rendered tree is well formed in every state: no element has two
    attributes of one name, the void elements are empty, handlers sit on
    the input and the buttons only, ids are unique and the label of the
    slider refers to the slider. *)
Theorem tree_well_formed (w : Widget Q) :
  wellFormed (applet w) = true /\
  distinct (attrValues "id" (applet w)) = true /\
  attrValues "for" (applet w) = attrValues "id" (applet w).
Proof. by_active_cases. Qed.
