(* ===== verification/Build.v ===== *)
(** * Build: the entry point and the build configuration

    main.js (part_001 lines 11-18) creates the component with the element
    of id [app] of the host page as its target, and vite.config.js (lines
    15-36) tells Vite how to build the bundle.  The host page is not part
    of the repository: a document is the list of the ids it holds.  What
    the constructor of a Svelte component does with a missing target is
    Svelte's and is not modelled: [main] records the target it passes.
    The configuration is a record; [assetUrl] is how Vite forms the URL of
    a built file from [base].

    Lemmas: the component [main] creates is the mounted one, whatever the
    page; its target is the element [app] exactly when the page has one;
    every asset URL of the build is relative, which is what lets the page
    be served from any folder or inside an iframe. *)

From Stdlib Require Import List String Bool.
From S2P Require Import Prelude JSNumber Reactive Widget.
Import ListNotations.

#[local] Open Scope string_scope.

(** ** main.js *)

(** The ids of the elements of the host page. *)
Definition Document : Type := list string.

(** [document.getElementById(id)]: the element, or [null]. *)
Definition getElementById (doc : Document) (id : string) : option string :=
  if existsb (String.eqb id) doc then Some id else None.

Lemma getElementById_In (doc : Document) (id : string) :
  getElementById doc id = Some id <-> In id doc.
Proof.
  unfold getElementById. destruct (existsb (String.eqb id) doc) eqn:E.
  - apply existsb_exists in E as (x & Hx & Ex). apply String.eqb_eq in Ex. subst x.
    now split.
  - split; [discriminate|]. intros Hin.
    assert (existsb (String.eqb id) doc = true) as E'
      by (apply existsb_exists; exists id; split; [exact Hin | apply String.eqb_refl]).
    congruence.
Qed.

Section Main.
Context {num : Type} `{JSNumber num}.

(** The component instance: the options it was created with and the
    widget. *)
Record App : Type := mkApp {
  target : option string;
  component : Widget num
}.

(** [new App({ target })] *)
Definition newApp (target : option string) : App :=
  {| target := target; component := mount |}.

(** [const app = new App({ target: document.getElementById('app') });
    export default app;] *)
Definition main (doc : Document) : App :=
  newApp (getElementById doc "app").

(** The component created is the mounted one, and its target is the
    element [app] exactly when the page has it. *)
Lemma main_component (doc : Document) :
  component (main doc) = mount /\ (target (main doc) = Some "app" <-> In "app" doc).
Proof. split; [reflexivity | apply getElementById_In]. Qed.

End Main.

(** ** vite.config.js *)

Record ViteConfig : Type := mkViteConfig {
  plugins : list string;
  base : string;
  outDir : string;
  (** [build.rollupOptions.output.manualChunks]; [None] is [undefined] *)
  manualChunks : option (list string)
}.

(** [export default defineConfig({ ... })] *)
Definition viteConfig : ViteConfig :=
  {| plugins := ["svelte"]; base := "./"; outDir := "dist"; manualChunks := None |}.

(** The URL under which the built page refers to a built file. *)
Definition assetUrl (cfg : ViteConfig) (file : string) : string := base cfg ++ file.

(** The path of a built file in the project. *)
Definition outputPath (cfg : ViteConfig) (file : string) : string :=
  outDir cfg ++ "/" ++ file.

(** A URL that is resolved against the folder of the page: it starts
    with [./]. *)
Definition relativeUrl (u : string) : bool := String.prefix "./" u.

(** Every asset URL of the build is relative to the page. *)
Theorem assets_relative (file : string) : relativeUrl (assetUrl viteConfig file) = true.
Proof. unfold relativeUrl, assetUrl. cbn. now destruct file. Qed.

Example build_examples :
  assetUrl viteConfig "assets/index.js" = "./assets/index.js" /\
  outputPath viteConfig "index.html" = "dist/index.html" /\
  relativeUrl "/assets/index.js" = false.
Proof. repeat split. Qed.
